(** * Volume GPU batch cache (draw_cache_impl_volume.cc)

    A shallow embedding of the per-volume batch cache of the draw module:
    the cache record, its validity gate, the grid materializer and the
    wireframe and selection-surface builders, with the properties of the
    cache stated and proved over that embedding.

    The C++ code works on one [Volume *] and mutates the cache it points
    to, the GPU module's objects and guarded-allocator blocks.  The
    embedding threads a [World] through every function: the volume's
    fields that the code reads or writes, a store of live objects indexed
    by handle (a pointer is a handle), and the log of the calls made to
    the volume backend, to [MEM_freeN] and to [printf]. *)

From Stdlib Require Import ZArith.
From Stdlib Require QArith_base.
From stdpp Require Import base option list gmap strings.

Local Open Scope Z_scope.
Local Open Scope nat_scope.

(** ** Enumerations of the DNA and GPU headers *)

(** [Volume::display.wireframe_type] (DNA_volume_types.h). *)
Inductive VolumeWireframeType :=
| VOLUME_WIREFRAME_NONE
| VOLUME_WIREFRAME_BOUNDS
| VOLUME_WIREFRAME_BOXES
| VOLUME_WIREFRAME_POINTS.

(** The two [gpu::TextureFormat]s the file asks for. *)
Inductive TextureFormat := SFLOAT_16 | SFLOAT_16_16_16.

Definition format_channels (f : TextureFormat) : nat :=
  match f with SFLOAT_16 => 1 | SFLOAT_16_16_16 => 3 end.

Definition format_bits_per_channel (f : TextureFormat) : nat :=
  match f with SFLOAT_16 | SFLOAT_16_16_16 => 16 end.

Inductive GPUSamplerExtendMode :=
| GPU_SAMPLER_EXTEND_MODE_EXTEND
| GPU_SAMPLER_EXTEND_MODE_REPEAT
| GPU_SAMPLER_EXTEND_MODE_MIRRORED_REPEAT
| GPU_SAMPLER_EXTEND_MODE_CLAMP_TO_BORDER.

Inductive eGPUTextureUsage := GPU_TEXTURE_USAGE_SHADER_READ.

Inductive GPUPrimType := GPU_PRIM_POINTS | GPU_PRIM_LINES | GPU_PRIM_TRIS.

Definition verts_per_prim (p : GPUPrimType) : nat :=
  match p with GPU_PRIM_POINTS => 1 | GPU_PRIM_LINES => 2 | GPU_PRIM_TRIS => 3 end.

Inductive VertAttrType :=
| SFLOAT_32
| SFLOAT_32_32_32
| SNORM_10_10_10_2
| SNORM_16_16_16_16.

(** A pointer to a GPU object or to an allocated block. *)
Abbreviation handle := nat (only parsing).

(** ** The collaborators the cache consumes

    The volume backend ([BKE_volume_*], [bke::volume_grid::*]), the float
    types and the capabilities of the device are outside the file.  They
    are an interface here; every theorem holds for every implementation
    of it. *)
Class VolumeBackend := {
  float : Type;
  float_0 : float;
  float_1 : float;
  float4x4 : Type;
  (** the all-zero matrix of a [MEM_callocN]ed entry *)
  float4x4_zero : float4x4;
  math_invert : float4x4 -> float4x4;

  VolumeGridData : Type;
  (** [bke::volume_grid::get_name]: a [std::string], of any characters *)
  get_name : VolumeGridData -> string;
  (** [get_channels_num (get_type grid)] *)
  get_channels_num : VolumeGridData -> nat;
  (** [BKE_volume_grid_active_get_for_read]; [None] is the null grid *)
  volume_grid_active : option VolumeGridData;
  (** [BKE_volume_grid_dense_floats]: [None] when it returns false, else
      the resolution, the voxels it allocated and the texture matrix *)
  volume_grid_dense_floats :
    VolumeGridData -> option ((Z * Z * Z) * list float * float4x4);
  (** what [BKE_volume_grid_wireframe] hands to its callback, which it
      calls once: [verts], [edges], [totvert], [totedge] *)
  volume_grid_wireframe :
    VolumeWireframeType -> VolumeGridData ->
    list (float * float * float) * list (nat * nat) * nat * nat;
  (** what [BKE_volume_grid_selection_surface] hands to its callback,
      which it calls once: [verts], [tris], [totvert], [tottris] *)
  volume_grid_selection_surface :
    VolumeGridData ->
    list (float * float * float) * list (nat * nat * nat) * nat * nat;

  (** whether the device can allocate a 3D texture of that size and
      format; [GPU_texture_create_3d] returns null when it cannot *)
  gpu_texture_3d_fits : Z * Z * Z -> TextureFormat -> bool;
  GPU_use_hq_normals_workaround : bool;
  (** the bit of [Scene::r.perf_flag] (DNA_scene_types.h) *)
  SCE_PERF_HQ_NORMALS : Z;
  (** the one reason code of BKE_volume.hh *)
  BKE_VOLUME_BATCH_DIRTY_ALL : Z;
}.

Section VolumeBatchCache.
Context `{Backend : VolumeBackend}.

Abbreviation float3 := (float * float * float)%type (only parsing).

(** ** Objects of the GPU module and allocated blocks *)

Record Texture := {
  tex_name : string;
  tex_size : Z * Z * Z;
  tex_mip_len : Z;
  tex_format : TextureFormat;
  tex_usage : eGPUTextureUsage;
  tex_data : list float;
  tex_swizzle : string;
  tex_extend_mode : GPUSamplerExtendMode;
}.

(** How the normal of the wireframe vertices is packed. *)
Inductive NormalPacking := PackedShort4 | PackedNormalHQ.

Inductive AttrData :=
| AttrFill (data : list float3)
| AttrFillStride (packing : NormalPacking) (normal : float3)
| AttrFillScalar (value : float).

Definition GPUVertFormat := list (string * VertAttrType).

Record VertBuf := {
  vbo_format : GPUVertFormat;
  vbo_vertex_len : nat;
  vbo_attrs : list (nat * AttrData);
}.

Record IndexBuf := {
  ibo_prim_type : GPUPrimType;
  ibo_index_len : nat;
  ibo_data : list nat;
}.

Record Batch := {
  batch_prim_type : GPUPrimType;
  (** vertex buffers, each with whether the batch owns it *)
  batch_verts : list (handle * bool);
  batch_elem : option handle;
  batch_owns_index : bool;
}.

Inductive Object :=
| ObjTexture (t : Texture)
| ObjVertBuf (v : VertBuf)
| ObjIndexBuf (i : IndexBuf)
| ObjBatch (b : Batch)
| ObjVoxels (data : list float).

(** ** The cache record *)

(** [DRWVolumeGrid] (draw_cache.hh): one entry of [cache->grids]. *)
Record DRWVolumeGrid := {
  (** [char *name]: the characters it points to, a C string *)
  name : string;
  texture : option handle;
  texture_to_object : float4x4;
  object_to_texture : float4x4;
}.

Record VolumeBatchCache := {
  grids : list DRWVolumeGrid;
  face_wire_pos_nor_in_order : option handle;
  face_wire_batch : option handle;
  selection_surface : option handle;
  is_dirty : bool;
}.

(** ** The world *)

Inductive Event :=
| EvVolumeLoad
| EvActiveGridGet
| EvDenseFloats (grid : VolumeGridData)
| EvGridWireframe (grid : VolumeGridData)
| EvGridSelectionSurface (grid : VolumeGridData)
| EvMemFree (block : handle)
| EvPrintf (message : string).

Record World := {
  (** [volume->batch_cache]; [None] is the null pointer *)
  batch_cache : option VolumeBatchCache;
  (** [volume->display.wireframe_type] *)
  wireframe_type : VolumeWireframeType;
  (** [DRW_context_get()->scene->r.perf_flag] *)
  perf_flag : Z;
  (** the live GPU objects and allocated blocks *)
  store : gmap handle Object;
  (** calls to the backend, [MEM_freeN] and [printf], oldest first *)
  log : list Event;
}.

Definition set_batch_cache (c : option VolumeBatchCache) (w : World) : World :=
  {| batch_cache := c; wireframe_type := wireframe_type w;
     perf_flag := perf_flag w; store := store w; log := log w |}.

Definition set_store (s : gmap handle Object) (w : World) : World :=
  {| batch_cache := batch_cache w; wireframe_type := wireframe_type w;
     perf_flag := perf_flag w; store := s; log := log w |}.

Definition set_log (l : list Event) (w : World) : World :=
  {| batch_cache := batch_cache w; wireframe_type := wireframe_type w;
     perf_flag := perf_flag w; store := store w; log := l |}.

(** ** The monad of the embedding: state, and the two ways a call can
    stop short of returning *)

Inductive Failure := AssertionFailed | NullDereference.

Inductive Outcome (A : Type) :=
| Returns (a : A) (w : World)
| Aborts (f : Failure) (w : World).
Arguments Returns {A} a w.
Arguments Aborts {A} f w.

Definition M (A : Type) : Type := World -> Outcome A.

#[global] Instance M_ret : MRet M := fun A a w => Returns a w.
#[global] Instance M_bind : MBind M := fun A B k m w =>
  match m w with
  | Returns a w' => k a w'
  | Aborts f w' => Aborts f w'
  end.

Definition get_world : M World := fun w => Returns w w.
Definition modify (f : World -> World) : M unit := fun w => Returns tt (f w).
Definition abort {A} (f : Failure) : M A := fun w => Aborts f w.
Definition emit (e : Event) : M unit := modify (fun w => set_log (log w ++ [e]) w).


(** ** The allocator *)

(** A new object gets a handle that no live object has. *)
Definition alloc (o : Object) : M handle := fun w =>
  let h := fresh (dom (store w)) in
  Returns h (set_store (<[h := o]> (store w)) w).

Definition free (h : handle) : M unit :=
  modify (fun w => set_store (delete h (store w)) w).

Definition update_object (h : handle) (f : Object -> Object) : M unit :=
  modify (fun w => set_store (alter f h (store w)) w).

Fixpoint for_each {A} (l : list A) (body : A -> M unit) : M unit :=
  match l with
  | [] => mret tt
  | x :: l' => body x ;; for_each l' body
  end.

(** [MEM_freeN] of a guarded-allocator block: the block goes and the
    call is logged. *)
Definition MEM_freeN (block : handle) : M unit :=
  free block ;; emit (EvMemFree block).

(** ** The GPU module, as far as the file calls it

    None of the [GPU_*] functions is part of the sources.  An object of
    the module is a record of what the file asked for: its creation
    arguments and the settings applied to it since. *)

Definition voxels_at (w : World) (data : handle) : list float :=
  match store w !! data with
  | Some (ObjVoxels d) => d
  | _ => []
  end.

(** Modelled from the spec: [GPU_texture_create_3d] (GPU_texture.hh) is
    not part of the sources.  "Texture creation can fail (e.g., an axis
    resolution exceeds the device's maximum 3D texture dimension)": null
    when the device cannot hold the texture, else a new texture of the
    data, with the default swizzle and extend mode. *)
Definition GPU_texture_create_3d (nm : string) (size : Z * Z * Z) (mip_len : Z)
    (format : TextureFormat) (usage : eGPUTextureUsage) (data : handle)
  : M (option handle) :=
  w ← get_world;
  if gpu_texture_3d_fits size format then
    t ← alloc (ObjTexture {|
           tex_name := nm; tex_size := size; tex_mip_len := mip_len;
           tex_format := format; tex_usage := usage;
           tex_data := voxels_at w data;
           tex_swizzle := "rgba";
           tex_extend_mode := GPU_SAMPLER_EXTEND_MODE_EXTEND |});
    mret (Some t)
  else mret None.

Definition texture_with_swizzle (sw : string) (o : Object) : Object :=
  match o with
  | ObjTexture t =>
      ObjTexture {| tex_name := tex_name t; tex_size := tex_size t;
                    tex_mip_len := tex_mip_len t; tex_format := tex_format t;
                    tex_usage := tex_usage t; tex_data := tex_data t;
                    tex_swizzle := sw;
                    tex_extend_mode := tex_extend_mode t |}
  | _ => o
  end.

Definition texture_with_extend_mode (m : GPUSamplerExtendMode) (o : Object) : Object :=
  match o with
  | ObjTexture t =>
      ObjTexture {| tex_name := tex_name t; tex_size := tex_size t;
                    tex_mip_len := tex_mip_len t; tex_format := tex_format t;
                    tex_usage := tex_usage t; tex_data := tex_data t;
                    tex_swizzle := tex_swizzle t;
                    tex_extend_mode := m |}
  | _ => o
  end.

(** Modelled from the spec: [GPU_texture_swizzle_set] and
    [GPU_texture_extend_mode] "configure the texture's channel swizzle
    and its border-clamp sampling mode"; [GPU_texture_free] releases the
    texture. *)
Definition GPU_texture_swizzle_set (t : handle) (sw : string) : M unit :=
  update_object t (texture_with_swizzle sw).

Definition GPU_texture_extend_mode (t : handle) (m : GPUSamplerExtendMode) : M unit :=
  update_object t (texture_with_extend_mode m).

Definition GPU_texture_free (t : handle) : M unit := free t.

(** Modelled from the spec: the vertex-buffer functions (GPU_vertex_buffer.hh,
    GPU_vertex_format.hh) are not part of the sources; they "construct a
    vertex buffer holding position and a single constant placeholder
    normal".  [GPU_vertformat_attr_add] gives the new format and the id
    of the attribute. *)
Definition GPU_vertformat_attr_add (format : GPUVertFormat) (nm : string)
    (ty : VertAttrType) : GPUVertFormat * nat :=
  (format ++ [(nm, ty)], length format).

Definition GPU_vertbuf_create_with_format (format : GPUVertFormat) : M handle :=
  alloc (ObjVertBuf {| vbo_format := format; vbo_vertex_len := 0; vbo_attrs := [] |}).

Definition GPU_vertbuf_calloc : M handle :=
  alloc (ObjVertBuf {| vbo_format := []; vbo_vertex_len := 0; vbo_attrs := [] |}).

Definition vertbuf_with_len (n : nat) (o : Object) : Object :=
  match o with
  | ObjVertBuf v =>
      ObjVertBuf {| vbo_format := vbo_format v; vbo_vertex_len := n;
                    vbo_attrs := vbo_attrs v |}
  | _ => o
  end.

Definition vertbuf_with_attr (id : nat) (d : nat -> AttrData) (o : Object) : Object :=
  match o with
  | ObjVertBuf v =>
      ObjVertBuf {| vbo_format := vbo_format v; vbo_vertex_len := vbo_vertex_len v;
                    vbo_attrs := vbo_attrs v ++ [(id, d (vbo_vertex_len v))] |}
  | _ => o
  end.

Definition GPU_vertbuf_data_alloc (vbo : handle) (v_len : nat) : M unit :=
  update_object vbo (vertbuf_with_len v_len).

(** Copies one element per allocated vertex out of [data]. *)
Definition GPU_vertbuf_attr_fill (vbo : handle) (a_idx : nat) (data : list float3) : M unit :=
  update_object vbo (vertbuf_with_attr a_idx (fun n => AttrFill (take n data))).

(** With stride 0 every vertex reads the same packed normal. *)
Definition GPU_vertbuf_attr_fill_stride (vbo : handle) (a_idx : nat)
    (packing : NormalPacking) (normal : float3) : M unit :=
  update_object vbo (vertbuf_with_attr a_idx (fun _ => AttrFillStride packing normal)).

Definition GPU_vertbuf_discard (vbo : handle) : M unit := free vbo.

(** Modelled from the spec: [DRW_vertbuf_create_wiredata] (draw_cache.cc)
    is not part of the sources; it makes the buffer "an auxiliary
    per-vertex scalar buffer used for wire-pattern shading, initialized to
    a fixed fill pattern sized to vertex count". *)
Definition DRW_vertbuf_create_wiredata (vbo : handle) (vert_len : nat) : M unit :=
  update_object vbo (fun o =>
    match o with
    | ObjVertBuf _ =>
        ObjVertBuf {| vbo_format := [("wd"%string, SFLOAT_32)];
                      vbo_vertex_len := vert_len;
                      vbo_attrs := [(0, AttrFillScalar float_1)] |}
    | _ => o
    end).

(** Modelled from the spec: the index-buffer builder (GPU_index_buffer.hh)
    is not part of the sources; it is to "build an index buffer of line
    segments from the edge list": the builder collects the indices in the
    order they are added. *)
Record GPUIndexBufBuilder := {
  elb_prim_type : GPUPrimType;
  elb_max_index_len : nat;
  elb_max_allowed_index : nat;
  elb_data : list nat;
}.

Definition GPU_indexbuf_init (prim : GPUPrimType) (prim_len vertex_len : nat)
  : GPUIndexBufBuilder :=
  {| elb_prim_type := prim;
     elb_max_index_len := prim_len * verts_per_prim prim;
     elb_max_allowed_index := vertex_len - 1;
     elb_data := [] |}.

Definition indexbuf_add (elb : GPUIndexBufBuilder) (vs : list nat) : GPUIndexBufBuilder :=
  {| elb_prim_type := elb_prim_type elb;
     elb_max_index_len := elb_max_index_len elb;
     elb_max_allowed_index := elb_max_allowed_index elb;
     elb_data := elb_data elb ++ vs |}.

Definition GPU_indexbuf_add_line_verts (elb : GPUIndexBufBuilder) (v1 v2 : nat) :=
  indexbuf_add elb [v1; v2].

Definition GPU_indexbuf_add_tri_verts (elb : GPUIndexBufBuilder) (v1 v2 v3 : nat) :=
  indexbuf_add elb [v1; v2; v3].

Definition GPU_indexbuf_build (elb : GPUIndexBufBuilder) : M handle :=
  alloc (ObjIndexBuf {| ibo_prim_type := elb_prim_type elb;
                        ibo_index_len := length (elb_data elb);
                        ibo_data := elb_data elb |}).

Inductive eGPUBatchFlag := GPU_BATCH_OWNS_VBO | GPU_BATCH_OWNS_INDEX.

#[global] Instance eGPUBatchFlag_eq_dec : EqDecision eGPUBatchFlag.
Proof. solve_decision. Defined.

(** Modelled from the spec: the batch functions (GPU_batch.hh) are not
    part of the sources; a batch is "a GPU-ready drawable unit pairing
    vertex data with a primitive topology and optional index buffer",
    which may own its buffers.  [owns_flag] is the set of flags or-ed
    together. *)
Definition GPU_batch_create_ex (prim : GPUPrimType) (vbo : handle)
    (ibo : option handle) (owns_flag : list eGPUBatchFlag) : M handle :=
  alloc (ObjBatch {|
    batch_prim_type := prim;
    batch_verts := [(vbo, bool_decide (GPU_BATCH_OWNS_VBO ∈ owns_flag))];
    batch_elem := ibo;
    batch_owns_index := bool_decide (GPU_BATCH_OWNS_INDEX ∈ owns_flag) |}).

Definition GPU_batch_create (prim : GPUPrimType) (vbo : handle) (ibo : option handle)
  : M handle :=
  GPU_batch_create_ex prim vbo ibo [].

Definition GPU_batch_vertbuf_add (batch vbo : handle) (own_vbo : bool) : M unit :=
  update_object batch (fun o =>
    match o with
    | ObjBatch b =>
        ObjBatch {| batch_prim_type := batch_prim_type b;
                    batch_verts := batch_verts b ++ [(vbo, own_vbo)];
                    batch_elem := batch_elem b;
                    batch_owns_index := batch_owns_index b |}
    | _ => o
    end).

(** Modelled from the spec: a resource is "exclusively owned" and
    "must be released before the entry or cache is discarded": the
    buffers a batch owns go when the batch is discarded. *)
Definition batch_owned (b : Batch) : list handle :=
  (if batch_owns_index b then option_list (batch_elem b) else [])
  ++ (fst <$> filter (fun vb => snd vb = true) (batch_verts b)).

Definition GPU_batch_discard (batch : handle) : M unit :=
  w ← get_world;
  match store w !! batch with
  | Some (ObjBatch b) => for_each (batch_owned b) free
  | _ => mret tt
  end ;;
  free batch.

(** The [*_SAFE] macros: nothing for a null pointer. *)
Definition GPU_TEXTURE_FREE_SAFE (t : option handle) : M unit :=
  match t with Some h => GPU_texture_free h | None => mret tt end.

Definition GPU_VERTBUF_DISCARD_SAFE (v : option handle) : M unit :=
  match v with Some h => GPU_vertbuf_discard h | None => mret tt end.

Definition GPU_BATCH_DISCARD_SAFE (b : option handle) : M unit :=
  match b with Some h => GPU_batch_discard h | None => mret tt end.


(** ** gpu::Batch cache management *)

Definition with_grids (gs : list DRWVolumeGrid) (c : VolumeBatchCache) :=
  {| grids := gs;
     face_wire_pos_nor_in_order := face_wire_pos_nor_in_order c;
     face_wire_batch := face_wire_batch c;
     selection_surface := selection_surface c;
     is_dirty := is_dirty c |}.

Definition with_pos_nor_in_order (v : option handle) (c : VolumeBatchCache) :=
  {| grids := grids c;
     face_wire_pos_nor_in_order := v;
     face_wire_batch := face_wire_batch c;
     selection_surface := selection_surface c;
     is_dirty := is_dirty c |}.

Definition with_face_wire_batch (b : option handle) (c : VolumeBatchCache) :=
  {| grids := grids c;
     face_wire_pos_nor_in_order := face_wire_pos_nor_in_order c;
     face_wire_batch := b;
     selection_surface := selection_surface c;
     is_dirty := is_dirty c |}.

Definition with_selection_surface (b : option handle) (c : VolumeBatchCache) :=
  {| grids := grids c;
     face_wire_pos_nor_in_order := face_wire_pos_nor_in_order c;
     face_wire_batch := face_wire_batch c;
     selection_surface := b;
     is_dirty := is_dirty c |}.

Definition with_is_dirty (d : bool) (c : VolumeBatchCache) :=
  {| grids := grids c;
     face_wire_pos_nor_in_order := face_wire_pos_nor_in_order c;
     face_wire_batch := face_wire_batch c;
     selection_surface := selection_surface c;
     is_dirty := d |}.

(** A cache whose bytes are all zero: what [MEM_callocN] returns and what
    the [memset] of [volume_batch_cache_init] leaves. *)
Definition zeroed_cache : VolumeBatchCache :=
  {| grids := [];
     face_wire_pos_nor_in_order := None;
     face_wire_batch := None;
     selection_surface := None;
     is_dirty := false |}.

(** Reads through [volume->batch_cache]. *)
Definition get_cache : M VolumeBatchCache := fun w =>
  match batch_cache w with
  | Some cache => Returns cache w
  | None => Aborts NullDereference w
  end.

(** Writes through [volume->batch_cache]. *)
Definition update_cache (f : VolumeBatchCache -> VolumeBatchCache) : M unit :=
  cache ← get_cache;
  modify (set_batch_cache (Some (f cache))).

Definition volume_batch_cache_valid : M bool :=
  w ← get_world;
  mret match batch_cache w with
       | Some cache => Bool.eqb (is_dirty cache) false
       | None => false
       end.

(** [MEM_callocN] for a volume without cache, [memset] otherwise. *)
Definition volume_batch_cache_init : M unit :=
  w ← get_world;
  match batch_cache w with
  | None => modify (set_batch_cache (Some zeroed_cache))
  | Some _ => modify (set_batch_cache (Some zeroed_cache))
  end ;;
  update_cache (with_is_dirty false).

(** Each [*_SAFE] macro also nulls the pointer it was given, and
    [BLI_freelistN] leaves the list of grids empty. *)
Definition volume_batch_cache_clear : M unit :=
  w ← get_world;
  match batch_cache w with
  | None => mret tt
  | Some cache =>
      for_each (grids cache) (fun grid => GPU_TEXTURE_FREE_SAFE (texture grid)) ;;
      update_cache (with_grids []) ;;
      GPU_VERTBUF_DISCARD_SAFE (face_wire_pos_nor_in_order cache) ;;
      update_cache (with_pos_nor_in_order None) ;;
      GPU_BATCH_DISCARD_SAFE (face_wire_batch cache) ;;
      update_cache (with_face_wire_batch None) ;;
      GPU_BATCH_DISCARD_SAFE (selection_surface cache) ;;
      update_cache (with_selection_surface None)
  end.

Definition DRW_volume_batch_cache_validate : M unit :=
  valid ← volume_batch_cache_valid;
  if negb valid then
    volume_batch_cache_clear ;;
    volume_batch_cache_init
  else mret tt.

Definition volume_batch_cache_get : M VolumeBatchCache :=
  DRW_volume_batch_cache_validate ;;
  get_cache.

(** Modelled from the spec: the macro [BLI_assert] (BLI_assert.h) is not
    part of the sources.  An unrecognized reason is "a programming-error
    (assertion), not a recoverable condition": an assertion that fails
    stops the call. *)
Definition BLI_assert (a : bool) : M unit :=
  if a then mret tt else abort AssertionFailed.

Definition DRW_volume_batch_cache_dirty_tag (mode : Z) : M unit :=
  w ← get_world;
  match batch_cache w with
  | None => mret tt
  | Some _ =>
      if decide (mode = BKE_VOLUME_BATCH_DIRTY_ALL) then
        update_cache (with_is_dirty true)
      else BLI_assert false
  end.

Definition DRW_volume_batch_cache_free : M unit :=
  volume_batch_cache_clear ;;
  modify (set_batch_cache None).

(** ** Wireframe *)

#[global] Instance VolumeWireframeType_eq_dec : EqDecision VolumeWireframeType.
Proof. solve_decision. Defined.

(** The two static vertex formats of the callback and the attribute ids
    their initialisers record. *)
Definition wire_format : GPUVertFormat * (nat * nat) :=
  let '(format, pos_id) := GPU_vertformat_attr_add [] "pos" SFLOAT_32_32_32 in
  let '(format, nor_id) := GPU_vertformat_attr_add format "nor" SNORM_10_10_10_2 in
  (format, (pos_id, nor_id)).

Definition wire_format_hq : GPUVertFormat * (nat * nat) :=
  let '(format, pos_hq_id) := GPU_vertformat_attr_add [] "pos" SFLOAT_32_32_32 in
  let '(format, nor_hq_id) := GPU_vertformat_attr_add format "nor" SNORM_16_16_16_16 in
  (format, (pos_hq_id, nor_hq_id)).

(** [do_hq_normals]: the quality bit of the scene or the workaround of
    the device. *)
Definition do_hq_normals (w : World) : bool :=
  negb (Z.land (perf_flag w) SCE_PERF_HQ_NORMALS =? 0)%Z
  || GPU_use_hq_normals_workaround.

(** The loop over [edges[i]], [i < totedge]. *)
Definition add_edges (edges : list (nat * nat)) (totedge : nat)
    (elb : GPUIndexBufBuilder) : GPUIndexBufBuilder :=
  foldl (fun elb i =>
           GPU_indexbuf_add_line_verts elb (fst (edges !!! i)) (snd (edges !!! i)))
        elb (seq 0 totedge).

Definition drw_volume_wireframe_cb (verts : list float3) (edges : list (nat * nat))
    (totvert totedge : nat) : M unit :=
  w ← get_world;
  let do_hq_normals := do_hq_normals w in
  let pos_id := if do_hq_normals then fst (snd wire_format_hq) else fst (snd wire_format) in
  let nor_id := if do_hq_normals then snd (snd wire_format_hq) else snd (snd wire_format) in
  (* Create vertex buffer. *)
  vbo ← GPU_vertbuf_create_with_format
          (if do_hq_normals then fst wire_format_hq else fst wire_format);
  update_cache (with_pos_nor_in_order (Some vbo)) ;;
  GPU_vertbuf_data_alloc vbo totvert ;;
  GPU_vertbuf_attr_fill vbo pos_id verts ;;
  let normal := (float_1, float_0, float_0) in
  (if do_hq_normals
   then GPU_vertbuf_attr_fill_stride vbo nor_id PackedNormalHQ normal
   else GPU_vertbuf_attr_fill_stride vbo nor_id PackedShort4 normal) ;;
  (* Create wiredata. *)
  vbo_wiredata ← GPU_vertbuf_calloc;
  DRW_vertbuf_create_wiredata vbo_wiredata totvert ;;
  batch ←
    (if decide (wireframe_type w = VOLUME_WIREFRAME_POINTS) then
       GPU_batch_create GPU_PRIM_POINTS vbo None
     else
       (* Create edge index buffer. *)
       let elb := GPU_indexbuf_init GPU_PRIM_LINES totedge totvert in
       let elb := add_edges edges totedge elb in
       ibo ← GPU_indexbuf_build elb;
       GPU_batch_create_ex GPU_PRIM_LINES vbo (Some ibo) [GPU_BATCH_OWNS_INDEX]);
  update_cache (with_face_wire_batch (Some batch)) ;;
  GPU_batch_vertbuf_add batch vbo_wiredata true.

Definition DRW_volume_batch_cache_get_wireframes_face : M (option handle) :=
  w ← get_world;
  if decide (wireframe_type w = VOLUME_WIREFRAME_NONE) then mret None
  else
    cache ← volume_batch_cache_get;
    match face_wire_batch cache with
    | None =>
        emit EvActiveGridGet ;;
        match volume_grid_active with
        | None => mret None
        | Some volume_grid =>
            (* Create wireframe from OpenVDB tree. *)
            emit (EvGridWireframe volume_grid) ;;
            let '(verts, edges, totvert, totedge) :=
              volume_grid_wireframe (wireframe_type w) volume_grid in
            drw_volume_wireframe_cb verts edges totvert totedge ;;
            cache ← get_cache;
            mret (face_wire_batch cache)
        end
    | Some batch => mret (Some batch)
    end.

(** ** Surface for selection *)

Definition selection_format : GPUVertFormat * nat :=
  GPU_vertformat_attr_add [] "pos" SFLOAT_32_32_32.

Definition add_tris (tris : list (nat * nat * nat)) (tottris : nat)
    (elb : GPUIndexBufBuilder) : GPUIndexBufBuilder :=
  foldl (fun elb i =>
           let '(v1, v2, v3) := tris !!! i in
           GPU_indexbuf_add_tri_verts elb v1 v2 v3)
        elb (seq 0 tottris).

Definition drw_volume_selection_surface_cb (verts : list float3)
    (tris : list (nat * nat * nat)) (totvert tottris : nat) : M unit :=
  (* Create vertex buffer. *)
  vbo_surface ← GPU_vertbuf_create_with_format (fst selection_format);
  GPU_vertbuf_data_alloc vbo_surface totvert ;;
  GPU_vertbuf_attr_fill vbo_surface (snd selection_format) verts ;;
  (* Create index buffer. *)
  let elb := GPU_indexbuf_init GPU_PRIM_TRIS tottris totvert in
  let elb := add_tris tris tottris elb in
  ibo_surface ← GPU_indexbuf_build elb;
  batch ← GPU_batch_create_ex GPU_PRIM_TRIS vbo_surface (Some ibo_surface)
            [GPU_BATCH_OWNS_VBO; GPU_BATCH_OWNS_INDEX];
  update_cache (with_selection_surface (Some batch)).

Definition DRW_volume_batch_cache_get_selection_surface : M (option handle) :=
  cache ← volume_batch_cache_get;
  match selection_surface cache with
  | None =>
      emit EvActiveGridGet ;;
      match volume_grid_active with
      | None => mret None
      | Some volume_grid =>
          emit (EvGridSelectionSurface volume_grid) ;;
          let '(verts, tris, totvert, tottris) :=
            volume_grid_selection_surface volume_grid in
          drw_volume_selection_surface_cb verts tris totvert tottris ;;
          cache ← get_cache;
          mret (selection_surface cache)
      end
  | Some batch => mret (Some batch)
  end.

(** ** 3D textures *)

(** A grid name is a [std::string]; the name of an entry is a C string
    ([char *]).  [c_str] reads characters as a C string: the ones before
    the first NUL. *)
Fixpoint c_str (s : string) : string :=
  match s with
  | EmptyString => EmptyString
  | String a s' =>
      if Ascii.eqb a Ascii.zero then EmptyString else String a (c_str s')
  end.

(** Modelled from the spec: [BLI_strdup] (BLI_string.h) is not part of the
    sources; the new entry is appended "with the grid's name", of which
    the copy of a C string keeps the characters up to the terminator. *)
Definition BLI_strdup (s : string) : string := c_str s.

(** The scan of [cache->grids] for the first entry with that name.
    [cache_grid->name == name] compares a [char *] with a [std::string]:
    the characters of the C string with all the characters of the
    string. *)
Definition find_grid (nm : string) (gs : list DRWVolumeGrid) : option nat :=
  fst <$> list_find (fun cache_grid => c_str (name cache_grid) = nm) gs.

(** An entry pointer is the position of the entry in [cache->grids]:
    entries are only ever added at the tail, until the list is freed. *)
Definition deref_grid (cache_grid : nat) : M DRWVolumeGrid :=
  cache ← get_cache;
  match grids cache !! cache_grid with
  | Some e => mret e
  | None => abort NullDereference
  end.

Definition update_grid (cache_grid : nat) (f : DRWVolumeGrid -> DRWVolumeGrid) : M unit :=
  update_cache (fun cache => with_grids (alter f cache_grid (grids cache)) cache).

Definition with_texture (t : option handle) (e : DRWVolumeGrid) :=
  {| name := name e; texture := t;
     texture_to_object := texture_to_object e;
     object_to_texture := object_to_texture e |}.

Definition with_texture_to_object (m : float4x4) (e : DRWVolumeGrid) :=
  {| name := name e; texture := texture e;
     texture_to_object := m;
     object_to_texture := object_to_texture e |}.

Definition with_object_to_texture (m : float4x4) (e : DRWVolumeGrid) :=
  {| name := name e; texture := texture e;
     texture_to_object := texture_to_object e;
     object_to_texture := m |}.

(** [BKE_volume_grid_dense_floats]: the call is logged and, when it
    succeeds, the voxel buffer it allocated is a block of the store. *)
Definition BKE_volume_grid_dense_floats (grid : VolumeGridData)
  : M (option ((Z * Z * Z) * handle * float4x4)) :=
  emit (EvDenseFloats grid) ;;
  match volume_grid_dense_floats grid with
  | None => mret None
  | Some (resolution, data, mat) =>
      voxels ← alloc (ObjVoxels data);
      mret (Some (resolution, voxels, mat))
  end.

(** Modelled from the spec: [BKE_volume_dense_float_grid_clear]
    (volume_render.cc) is not part of the sources; it is the step that
    must "release the temporary dense-buffer memory owned by the backend
    call". *)
Definition BKE_volume_dense_float_grid_clear (voxels : handle) : M unit :=
  MEM_freeN voxels.

Definition newline : string := String (Ascii.ascii_of_nat 10) EmptyString.

Definition volume_grid_cache_get (grid : VolumeGridData) : M nat :=
  let nm := get_name grid in
  cache ← get_cache;
  (* Return cached grid. *)
  match find_grid nm (grids cache) with
  | Some cache_grid => mret cache_grid
  | None =>
      (* Allocate new grid. *)
      let cache_grid := length (grids cache) in
      update_cache (fun cache =>
        with_grids (grids cache ++
                      [{| name := BLI_strdup nm; texture := None;
                          texture_to_object := float4x4_zero;
                          object_to_texture := float4x4_zero |}]) cache) ;;
      emit EvVolumeLoad ;;
      (* Test if we support textures with the number of channels. *)
      let channels := get_channels_num grid in
      if negb (bool_decide (channels = 1 ∨ channels = 3)) then mret cache_grid
      else
        dense_grid ← BKE_volume_grid_dense_floats grid;
        match dense_grid with
        | Some (resolution, voxels, mat) =>
            update_grid cache_grid (with_texture_to_object mat) ;;
            update_grid cache_grid (with_object_to_texture (math_invert mat)) ;;
            (* Create GPU texture. *)
            let format := if bool_decide (channels = 3)
                          then SFLOAT_16_16_16 else SFLOAT_16 in
            tex ← GPU_texture_create_3d "volume_grid" resolution 1%Z format
                    GPU_TEXTURE_USAGE_SHADER_READ voxels;
            update_grid cache_grid (with_texture tex) ;;
            match tex with
            | Some t =>
                GPU_texture_swizzle_set t
                  (if bool_decide (channels = 3) then "rgb1" else "rrr1") ;;
                GPU_texture_extend_mode t GPU_SAMPLER_EXTEND_MODE_CLAMP_TO_BORDER ;;
                BKE_volume_dense_float_grid_clear voxels
            | None =>
                MEM_freeN voxels ;;
                emit (EvPrintf ("Error: Could not allocate 3D texture for volume."
                                  +:+ newline))
            end ;;
            mret cache_grid
        | None => mret cache_grid
        end
  end.

Definition DRW_volume_batch_cache_get_grid (volume_grid : VolumeGridData)
  : M (option nat) :=
  cache ← volume_batch_cache_get;
  grid ← volume_grid_cache_get volume_grid;
  e ← deref_grid grid;
  mret (match texture e with Some _ => Some grid | None => None end).


(** ** Vocabulary of the statements *)

(** The grids of the cache, none when there is no cache. *)
Definition cache_grids (w : World) : list DRWVolumeGrid :=
  match batch_cache w with
  | Some cache => grids cache
  | None => []
  end.

(** The store after the objects [hs] were freed, one after the other. *)
Definition release (hs : list handle) (s : gmap handle Object) : gmap handle Object :=
  foldl (fun s h => delete h s) s hs.

(** The store after [GPU_BATCH_DISCARD_SAFE]. *)
Definition discarded (b : option handle) (s : gmap handle Object) : gmap handle Object :=
  match b with
  | None => s
  | Some h =>
      delete h match s !! h with
               | Some (ObjBatch bt) => release (batch_owned bt) s
               | _ => s
               end
  end.

(** The store after [volume_batch_cache_clear]. *)
Definition cleared_store (c : VolumeBatchCache) (s : gmap handle Object)
  : gmap handle Object :=
  discarded (selection_surface c)
    (discarded (face_wire_batch c)
       (release (option_list (face_wire_pos_nor_in_order c))
          (release (omap texture (grids c)) s))).

(** The world after [DRW_volume_batch_cache_validate]. *)
Definition validated (w : World) : World :=
  match batch_cache w with
  | Some c =>
      if is_dirty c
      then set_batch_cache (Some zeroed_cache)
             (set_store (cleared_store c (store w)) w)
      else w
  | None => set_batch_cache (Some zeroed_cache) w
  end.

(** The texture format and the swizzle chosen for a channel count. *)
Definition format_of (channels : nat) : TextureFormat :=
  if bool_decide (channels = 3) then SFLOAT_16_16_16 else SFLOAT_16.

Definition swizzle_of (channels : nat) : string :=
  if bool_decide (channels = 3) then "rgb1" else "rrr1".

Definition printf_message : string :=
  "Error: Could not allocate 3D texture for volume." +:+ newline.

(** The handles the cache holds directly: the textures of its grids, the
    wireframe vertex buffer, the wireframe batch and the selection batch. *)
Definition cache_handles (c : VolumeBatchCache) : list handle :=
  omap texture (grids c)
  ++ option_list (face_wire_pos_nor_in_order c)
  ++ option_list (face_wire_batch c)
  ++ option_list (selection_surface c).

(** The blocks [MEM_freeN] was called on, in order. *)
Definition mem_frees (l : list Event) : list handle :=
  omap (fun ev => match ev with EvMemFree h => Some h | _ => None end) l.

(** The calls to [BKE_volume_grid_dense_floats], in order. *)
Definition dense_float_calls (l : list Event) : list VolumeGridData :=
  omap (fun ev => match ev with EvDenseFloats g => Some g | _ => None end) l.

(** The indices of a list of edges, flattened. *)
Definition edge_indices (edges : list (nat * nat)) : list nat :=
  flat_map (fun e => [fst e; snd e]) edges.

(** The segments of a line index buffer: its indices two by two. *)
Fixpoint index_lines (data : list nat) : list (nat * nat) :=
  match data with
  | v1 :: v2 :: data' => (v1, v2) :: index_lines data'
  | _ => []
  end.

(** One call of the exposed interface that returns, or the host editing
    the display settings of the volume or the scene. *)
Inductive step : World -> World -> Prop :=
| step_validate w w' :
    DRW_volume_batch_cache_validate w = Returns tt w' -> step w w'
| step_dirty_tag mode w w' :
    DRW_volume_batch_cache_dirty_tag mode w = Returns tt w' -> step w w'
| step_free w w' :
    DRW_volume_batch_cache_free w = Returns tt w' -> step w w'
| step_get_grid g r w w' :
    DRW_volume_batch_cache_get_grid g w = Returns r w' -> step w w'
| step_get_wireframes r w w' :
    DRW_volume_batch_cache_get_wireframes_face w = Returns r w' -> step w w'
| step_get_selection_surface r w w' :
    DRW_volume_batch_cache_get_selection_surface w = Returns r w' -> step w w'
| step_display wt pf w :
    step w {| batch_cache := batch_cache w; wireframe_type := wt;
              perf_flag := pf; store := store w; log := log w |}.




(** The objects the wireframe callback builds. *)
Definition wire_vertbuf (hq : bool) (verts : list float3) (totvert : nat) : VertBuf :=
  {| vbo_format := if hq then fst wire_format_hq else fst wire_format;
     vbo_vertex_len := totvert;
     vbo_attrs :=
       [(if hq then fst (snd wire_format_hq) else fst (snd wire_format),
         AttrFill (take totvert verts));
        (if hq then snd (snd wire_format_hq) else snd (snd wire_format),
         AttrFillStride (if hq then PackedNormalHQ else PackedShort4)
           (float_1, float_0, float_0))] |}.

Definition wiredata_vertbuf (totvert : nat) : VertBuf :=
  {| vbo_format := [("wd"%string, SFLOAT_32)];
     vbo_vertex_len := totvert;
     vbo_attrs := [(0, AttrFillScalar float_1)] |}.

Definition lines_indexbuf (edges : list (nat * nat)) (totedge totvert : nat) : IndexBuf :=
  let elb := add_edges edges totedge (GPU_indexbuf_init GPU_PRIM_LINES totedge totvert) in
  {| ibo_prim_type := elb_prim_type elb;
     ibo_index_len := length (elb_data elb);
     ibo_data := elb_data elb |}.

(** The positions a vertex buffer holds under attribute ["pos"]. *)
Definition vertbuf_positions (v : VertBuf) : option (list float3) :=
  match vbo_attrs v with
  | (0, AttrFill data) :: _ => Some data
  | _ => None
  end.

(** The wireframe batch of a world, null when there is none. *)
Definition cached_face_wire_batch (w : World) : option handle :=
  match batch_cache w with
  | Some cache => face_wire_batch cache
  | None => None
  end.

(** The buffers owned by the batch a handle points to. *)
Definition owned_by (s : gmap handle Object) (b : option handle) : list handle :=
  match b with
  | Some h =>
      match s !! h with
      | Some (ObjBatch bt) => batch_owned bt
      | _ => []
      end
  | None => []
  end.

(** The buffers the cache holds through its two batches. *)
Definition cache_owned_buffers (s : gmap handle Object) (c : VolumeBatchCache)
  : list handle :=
  owned_by s (face_wire_batch c) ++ owned_by s (selection_surface c).

(** ** Vocabulary of the further properties *)

(** The indices of a list of triangles, flattened. *)
Definition tri_indices (tris : list (nat * nat * nat)) : list nat :=
  flat_map (fun t => [fst (fst t); snd (fst t); snd t]) tris.

(** The triangles of a triangle index buffer: its indices three by three. *)
Fixpoint index_tris (data : list nat) : list (nat * nat * nat) :=
  match data with
  | v1 :: v2 :: v3 :: data' => (v1, v2, v3) :: index_tris data'
  | _ => []
  end.

(** The objects the selection-surface callback builds. *)
Definition selection_vertbuf (verts : list float3) (totvert : nat) : VertBuf :=
  {| vbo_format := fst selection_format;
     vbo_vertex_len := totvert;
     vbo_attrs := [(snd selection_format, AttrFill (take totvert verts))] |}.

Definition tris_indexbuf (tris : list (nat * nat * nat)) (tottris totvert : nat)
  : IndexBuf :=
  let elb := add_tris tris tottris (GPU_indexbuf_init GPU_PRIM_TRIS tottris totvert) in
  {| ibo_prim_type := elb_prim_type elb;
     ibo_index_len := length (elb_data elb);
     ibo_data := elb_data elb |}.

(** The selection batch of a world, null when there is none. *)
Definition cached_selection_surface (w : World) : option handle :=
  match batch_cache w with
  | Some cache => selection_surface cache
  | None => None
  end.

(** The wireframe vertex buffer of a world, null when there is none. *)
Definition cached_pos_nor_in_order (w : World) : option handle :=
  match batch_cache w with
  | Some cache => face_wire_pos_nor_in_order cache
  | None => None
  end.

(** Every object the cache of a world holds: directly, or through one of
    its two batches. *)
Definition held (w : World) : list handle :=
  match batch_cache w with
  | Some c => cache_handles c ++ cache_owned_buffers (store w) c
  | None => []
  end.

(** The cache owns its objects, with respect to the store [s0] the volume
    started with: the objects it holds are distinct, live and were not in
    [s0]; every other handle points to what it pointed to in [s0]; and a
    cache without wireframe batch has no wireframe vertex buffer. *)
Definition owns_its_objects (s0 : gmap handle Object) (w : World) : Prop :=
  NoDup (held w) /\
  (forall h, h ∈ held w -> s0 !! h = None /\ is_Some (store w !! h)) /\
  (forall h, h ∉ held w -> store w !! h = s0 !! h) /\
  (cached_face_wire_batch w = None -> cached_pos_nor_in_order w = None).

End VolumeBatchCache.

Arguments Returns {Backend A} a w.
Arguments Aborts {Backend A} f w.

(** * A sample backend

    A small implementation of the interface, to run the embedding on:
    floats are rationals, a matrix is a diagonal matrix given by its
    diagonal, the device holds 3D textures of up to 4 texels an axis,
    and there are five grids to draw. *)
Module Demo.

Record Grid := {
  grid_name : string;
  grid_channels : nat;
  grid_resolution : Z * Z * Z;
  grid_voxels : list QArith_base.Q;
}.

Definition q (z : Z) : QArith_base.Q := QArith_base.Qmake z 1.

(** one channel, 2 x 1 x 1 *)
Definition density : Grid :=
  {| grid_name := "density"; grid_channels := 1;
     grid_resolution := (2, 1, 1)%Z; grid_voxels := [q 0; q 1] |}.

(** three channels, 1 x 1 x 1 *)
Definition velocity : Grid :=
  {| grid_name := "velocity"; grid_channels := 3;
     grid_resolution := (1, 1, 1)%Z; grid_voxels := [q 1; q 0; q 0] |}.

(** two channels: not a supported channel count *)
Definition flags : Grid :=
  {| grid_name := "flags"; grid_channels := 2;
     grid_resolution := (1, 1, 1)%Z; grid_voxels := [q 0; q 0] |}.

(** two channels, under the name of [density] *)
Definition density2 : Grid :=
  {| grid_name := "density"; grid_channels := 2;
     grid_resolution := (1, 1, 1)%Z; grid_voxels := [q 0; q 0] |}.

(** one channel, longer along x than the device allows *)
Definition huge : Grid :=
  {| grid_name := "huge"; grid_channels := 1;
     grid_resolution := (8, 1, 1)%Z; grid_voxels := replicate 8 (q 0) |}.

(** one channel, 1 x 1 x 1, with a NUL after the first letter of its name *)
Definition nul_named : Grid :=
  {| grid_name := "a" +:+ String Ascii.zero "b";
     grid_channels := 1;
     grid_resolution := (1, 1, 1)%Z; grid_voxels := [q 1] |}.

Definition unit_diagonal : list QArith_base.Q := [q 1; q 1; q 1; q 1].

Definition max_texture_3d_size : Z := 4.

Definition vert (x y z : Z) : QArith_base.Q * QArith_base.Q * QArith_base.Q :=
  (q x, q y, q z).

Definition backend : VolumeBackend :=
  {| float := QArith_base.Q;
     float_0 := q 0;
     float_1 := q 1;
     float4x4 := list QArith_base.Q;
     float4x4_zero := [q 0; q 0; q 0; q 0];
     math_invert := map QArith_base.Qinv;
     VolumeGridData := Grid;
     get_name := grid_name;
     get_channels_num := grid_channels;
     volume_grid_active := Some density;
     volume_grid_dense_floats := fun g =>
       Some (grid_resolution g, grid_voxels g, unit_diagonal);
     volume_grid_wireframe := fun _ _ =>
       ([vert 0 0 0; vert 1 0 0; vert 1 1 0; vert 1 1 1],
        [(0, 1); (1, 2); (2, 3)], 4, 3);
     volume_grid_selection_surface := fun _ =>
       ([vert 0 0 0; vert 1 0 0; vert 1 1 0], [(0, 1, 2)], 3, 1);
     gpu_texture_3d_fits := fun '(x, y, z) _ =>
       (x <=? max_texture_3d_size)%Z && (y <=? max_texture_3d_size)%Z
       && (z <=? max_texture_3d_size)%Z;
     GPU_use_hq_normals_workaround := false;
     SCE_PERF_HQ_NORMALS := 1;
     BKE_VOLUME_BATCH_DIRTY_ALL := 0 |}.

(** A volume that was never drawn: no cache, nothing in the store. *)
Definition new_volume (wt : VolumeWireframeType) : World (Backend := backend) :=
  {| batch_cache := None; wireframe_type := wt; perf_flag := 0;
     store := ∅; log := [] |}.

(** The world after a call that returns; the world itself otherwise. *)
Definition after {A} (m : M (Backend := backend) A) (w : World) : World :=
  match m w with
  | Returns _ w' => w'
  | Aborts _ w' => w'
  end.

(** The cache of a world that has one. *)
Definition cache_of (w : World (Backend := backend)) : VolumeBatchCache :=
  default zeroed_cache (batch_cache w).

(** A volume drawn once (selection surface, wireframe, one grid) and then
    tagged dirty. *)
Definition dirty_volume : World :=
  after (DRW_volume_batch_cache_get_selection_surface ;;
         DRW_volume_batch_cache_get_wireframes_face ;;
         DRW_volume_batch_cache_get_grid (Backend := backend) velocity ;;
         DRW_volume_batch_cache_dirty_tag 0)
        (new_volume VOLUME_WIREFRAME_BOUNDS).

(** A volume whose grid [density] was drawn once. *)
Definition drawn_volume : World :=
  after (DRW_volume_batch_cache_get_grid (Backend := backend) density)
        (new_volume VOLUME_WIREFRAME_BOXES).

(** A volume whose wireframe was drawn once, as points. *)
Definition wired_volume : World :=
  after (DRW_volume_batch_cache_get_wireframes_face (Backend := backend))
        (new_volume VOLUME_WIREFRAME_POINTS).

(** A volume never drawn, in a scene that asks for high-quality normals. *)
Definition hq_volume : World (Backend := backend) :=
  {| batch_cache := None; wireframe_type := VOLUME_WIREFRAME_BOUNDS;
     perf_flag := 1; store := ∅; log := [] |}.

(** The same device with a volume that cannot be loaded: there is no
    active grid and no grid gives its voxels. *)
Definition unloaded : VolumeBackend :=
  {| float := QArith_base.Q;
     float_0 := q 0;
     float_1 := q 1;
     float4x4 := list QArith_base.Q;
     float4x4_zero := [q 0; q 0; q 0; q 0];
     math_invert := map QArith_base.Qinv;
     VolumeGridData := Grid;
     get_name := grid_name;
     get_channels_num := grid_channels;
     volume_grid_active := None;
     volume_grid_dense_floats := fun _ => None;
     volume_grid_wireframe := fun _ _ => ([], [], 0, 0);
     volume_grid_selection_surface := fun _ => ([], [], 0, 0);
     gpu_texture_3d_fits := fun '(x, y, z) _ =>
       (x <=? max_texture_3d_size)%Z && (y <=? max_texture_3d_size)%Z
       && (z <=? max_texture_3d_size)%Z;
     GPU_use_hq_normals_workaround := false;
     SCE_PERF_HQ_NORMALS := 1;
     BKE_VOLUME_BATCH_DIRTY_ALL := 0 |}.

(** That volume, never drawn. *)
Definition unloaded_volume : World (Backend := unloaded) :=
  {| batch_cache := None; wireframe_type := VOLUME_WIREFRAME_BOXES;
     perf_flag := 0; store := ∅; log := [] |}.

End Demo.

(** * Properties *)

Section Properties.
Context `{Backend : VolumeBackend}.

(** ** Running the monad *)

Lemma bind_run {A B} (m : M A) (k : A -> M B) (w : World) :
  (m ≫= k) w =
  match m w with
  | Returns a w' => k a w'
  | Aborts f w' => Aborts f w'
  end.
Proof. reflexivity. Qed.

Lemma bind_returns {A B} (m : M A) (k : A -> M B) (w w' : World) (a : A) :
  m w = Returns a w' -> (m ≫= k) w = k a w'.
Proof. intros H. rewrite bind_run. by rewrite H. Qed.

(** Unfolds the plumbing of the monad and the record updates. *)
Ltac mrun :=
  repeat first
    [ progress unfold mbind, M_bind, mret, M_ret, get_world, modify, emit, abort,
        alloc, free, update_object, get_cache, update_cache, update_grid,
        deref_grid, MEM_freeN, GPU_texture_swizzle_set, GPU_texture_extend_mode,
        GPU_texture_free, GPU_vertbuf_discard,
        BKE_volume_dense_float_grid_clear,
        set_store, set_log, set_batch_cache,
        with_grids, with_pos_nor_in_order, with_face_wire_batch,
        with_selection_surface, with_is_dirty
    | progress cbn [batch_cache wireframe_type perf_flag store log grids
        face_wire_pos_nor_in_order face_wire_batch selection_surface is_dirty
        negb Bool.eqb] ].

Lemma alter_tail {A} (f : A -> A) (l : list A) (x : A) :
  alter f (length l) (l ++ [x]) = l ++ [f x].
Proof. rewrite <- (Nat.add_0_r (length l)). by rewrite alter_app_r. Qed.

(** ** What freeing does to the store *)

Lemma release_subseteq hs s : release hs s ⊆ s.
Proof.
  revert s. induction hs as [|h hs IH]; intros s; simpl; [done|].
  etrans; [apply IH | apply delete_subseteq].
Qed.

Lemma release_lookup_None hs s h : s !! h = None -> release hs s !! h = None.
Proof. intros H. eapply lookup_weaken_None; [exact H | apply release_subseteq]. Qed.

Lemma release_elem hs s h : h ∈ hs -> release hs s !! h = None.
Proof.
  revert s. induction hs as [|h' hs IH]; intros s Hin; [by apply elem_of_nil in Hin|].
  apply elem_of_cons in Hin as [-> | Hin]; simpl.
  - apply release_lookup_None, lookup_delete_eq.
  - by apply IH.
Qed.

Lemma for_each_free hs w :
  for_each hs free w = Returns tt (set_store (release hs (store w)) w).
Proof.
  revert w. induction hs as [|h hs IH]; intros w.
  - by destruct w.
  - simpl. rewrite bind_run. unfold free at 1, modify. rewrite IH. by destruct w.
Qed.

Lemma for_each_texture_free gs w :
  for_each gs (fun grid => GPU_TEXTURE_FREE_SAFE (texture grid)) w
  = Returns tt (set_store (release (omap texture gs) (store w)) w).
Proof.
  revert w. induction gs as [|g gs IH]; intros w.
  - by destruct w.
  - simpl. rewrite bind_run. destruct (texture g) as [t|]; simpl.
    + unfold GPU_texture_free, free, modify. rewrite IH. by destruct w.
    + unfold mret, M_ret. rewrite IH. by destruct w.
Qed.

Lemma batch_discard_safe_run b w :
  GPU_BATCH_DISCARD_SAFE b w = Returns tt (set_store (discarded b (store w)) w).
Proof.
  destruct b as [h|]; simpl; [|by destruct w].
  unfold GPU_batch_discard. rewrite bind_run. unfold get_world at 1.
  rewrite bind_run.
  destruct (store w !! h) as [[| | |bt|]|] eqn:E;
    try (unfold mret at 1, M_ret at 1, free, modify; by destruct w).
  rewrite for_each_free. unfold free, modify. by destruct w.
Qed.

Lemma discarded_subseteq b s : discarded b s ⊆ s.
Proof.
  destruct b as [h|]; simpl; [|done].
  etrans; [apply delete_subseteq|].
  destruct (s !! h) as [[| | |bt|]|]; try done. apply release_subseteq.
Qed.

Lemma discarded_lookup b s : discarded (Some b) s !! b = None.
Proof. simpl. apply lookup_delete_eq. Qed.

Lemma volume_batch_cache_clear_run w c :
  batch_cache w = Some c ->
  volume_batch_cache_clear w =
  Returns tt (set_batch_cache
                (Some {| grids := []; face_wire_pos_nor_in_order := None;
                         face_wire_batch := None; selection_surface := None;
                         is_dirty := is_dirty c |})
                (set_store (cleared_store c (store w)) w)).
Proof.
  intros Hc. destruct w as [bc wt pf st lg]. simpl in Hc. subst bc.
  assert (Hv : forall w' : World,
    GPU_VERTBUF_DISCARD_SAFE (face_wire_pos_nor_in_order c) w'
    = Returns tt (set_store
        (release (option_list (face_wire_pos_nor_in_order c)) (store w')) w')).
  { intros w'. destruct (face_wire_pos_nor_in_order c); simpl; by destruct w'. }
  unfold volume_batch_cache_clear. rewrite bind_run. unfold get_world at 1.
  cbn [batch_cache].
  rewrite bind_run, for_each_texture_free.
  rewrite bind_run. unfold update_cache at 1. mrun.
  rewrite Hv. mrun.
  rewrite batch_discard_safe_run. mrun.
  rewrite batch_discard_safe_run. mrun. reflexivity.
Qed.

Lemma validate_run w :
  DRW_volume_batch_cache_validate w = Returns tt (validated w).
Proof.
  unfold DRW_volume_batch_cache_validate, validated, volume_batch_cache_valid.
  rewrite !bind_run. unfold get_world at 1, mret at 1, M_ret at 1.
  destruct (batch_cache w) as [c|] eqn:Hc.
  - destruct (is_dirty c) eqn:Hd; cbn [Bool.eqb negb]; [|done].
    rewrite bind_run, (volume_batch_cache_clear_run w c Hc).
    unfold volume_batch_cache_init. mrun. reflexivity.
  - cbn [negb]. unfold volume_batch_cache_clear, volume_batch_cache_init.
    mrun. repeat (rewrite Hc; mrun). reflexivity.
Qed.

Lemma validated_cache w :
  exists c, batch_cache (validated w) = Some c /\ is_dirty c = false.
Proof.
  unfold validated. destruct (batch_cache w) as [c|] eqn:Hc.
  - destruct (is_dirty c) eqn:Hd; [by exists zeroed_cache | by exists c].
  - by exists zeroed_cache.
Qed.

Lemma validated_idem w : validated (validated w) = validated w.
Proof.
  destruct (validated_cache w) as (c & Hc & Hd).
  unfold validated at 1. by rewrite Hc, Hd.
Qed.

Lemma volume_batch_cache_get_run w c :
  batch_cache (validated w) = Some c ->
  volume_batch_cache_get w = Returns c (validated w).
Proof.
  intros Hc. unfold volume_batch_cache_get.
  rewrite bind_run, validate_run. unfold get_cache. by rewrite Hc.
Qed.

(** ** The paths of [volume_grid_cache_get] *)

Lemma find_grid_Some nm gs i :
  find_grid nm gs = Some i ->
  exists e, gs !! i = Some e /\ c_str (name e) = nm.
Proof.
  unfold find_grid. intros H. apply fmap_Some in H as ([j e] & Hf & ->).
  apply list_find_Some in Hf as (Hl & Hn & _). by exists e.
Qed.

Lemma find_grid_None nm gs :
  find_grid nm gs = None <-> nm ∉ (c_str ∘ name) <$> gs.
Proof.
  unfold find_grid. rewrite fmap_None, list_find_None, list_elem_of_fmap, Forall_forall.
  split.
  - intros H (e & -> & He). by apply (H e).
  - intros H e He Hn. apply H. by exists e.
Qed.

Lemma c_str_idemp s : c_str (c_str s) = c_str s.
Proof.
  induction s as [|a s IH]; [done|]. cbn [c_str].
  destruct (Ascii.eqb a Ascii.zero) eqn:Ha; [done|].
  cbn [c_str]. by rewrite Ha, IH.
Qed.

Lemma find_grid_app_miss nm gs e :
  find_grid nm gs = None -> c_str (name e) <> nm ->
  find_grid nm (gs ++ [e]) = None.
Proof.
  rewrite !find_grid_None, fmap_app, not_elem_of_app. intros Hf Hn.
  split; [done|]. cbn. rewrite list_elem_of_singleton. congruence.
Qed.

Lemma find_grid_app_new nm gs e :
  find_grid nm gs = None -> c_str (name e) = nm ->
  find_grid nm (gs ++ [e]) = Some (length gs).
Proof.
  intros Hf Hn. unfold find_grid in *. apply fmap_None in Hf.
  rewrite list_find_app_r by done. simpl.
  by rewrite decide_True by done.
Qed.

Lemma volume_grid_cache_get_hit w c g i :
  batch_cache w = Some c ->
  find_grid (get_name g) (grids c) = Some i ->
  volume_grid_cache_get g w = Returns i w.
Proof.
  intros Hc Hf. unfold volume_grid_cache_get. mrun. by rewrite Hc, Hf.
Qed.

Lemma volume_grid_cache_get_unsupported w c g :
  batch_cache w = Some c ->
  find_grid (get_name g) (grids c) = None ->
  ¬ (get_channels_num g = 1 ∨ get_channels_num g = 3) ->
  volume_grid_cache_get g w =
  Returns (length (grids c))
    {| batch_cache := Some
         {| grids := grids c ++
                     [{| name := BLI_strdup (get_name g); texture := None;
                         texture_to_object := float4x4_zero;
                         object_to_texture := float4x4_zero |}];
            face_wire_pos_nor_in_order := face_wire_pos_nor_in_order c;
            face_wire_batch := face_wire_batch c;
            selection_surface := selection_surface c;
            is_dirty := is_dirty c |};
       wireframe_type := wireframe_type w;
       perf_flag := perf_flag w;
       store := store w;
       log := log w ++ [EvVolumeLoad] |}.
Proof.
  intros Hc Hf Hch. destruct w as [bc wt pf st lg]. simpl in Hc. subst bc.
  unfold volume_grid_cache_get. mrun. rewrite Hf.
  rewrite bool_decide_eq_false_2 by done. by mrun.
Qed.

Lemma volume_grid_cache_get_no_dense w c g :
  batch_cache w = Some c ->
  find_grid (get_name g) (grids c) = None ->
  get_channels_num g = 1 ∨ get_channels_num g = 3 ->
  volume_grid_dense_floats g = None ->
  volume_grid_cache_get g w =
  Returns (length (grids c))
    {| batch_cache := Some
         {| grids := grids c ++
                     [{| name := BLI_strdup (get_name g); texture := None;
                         texture_to_object := float4x4_zero;
                         object_to_texture := float4x4_zero |}];
            face_wire_pos_nor_in_order := face_wire_pos_nor_in_order c;
            face_wire_batch := face_wire_batch c;
            selection_surface := selection_surface c;
            is_dirty := is_dirty c |};
       wireframe_type := wireframe_type w;
       perf_flag := perf_flag w;
       store := store w;
       log := log w ++ [EvVolumeLoad; EvDenseFloats g] |}.
Proof.
  intros Hc Hf Hch Hd. destruct w as [bc wt pf st lg]. simpl in Hc. subst bc.
  unfold volume_grid_cache_get. mrun. rewrite Hf.
  rewrite bool_decide_eq_true_2 by done. mrun.
  unfold BKE_volume_grid_dense_floats. mrun. rewrite Hd. mrun.
  by rewrite <- app_assoc.
Qed.

Lemma volume_grid_cache_get_texture_failed w c g res data mat :
  batch_cache w = Some c ->
  find_grid (get_name g) (grids c) = None ->
  get_channels_num g = 1 ∨ get_channels_num g = 3 ->
  volume_grid_dense_floats g = Some (res, data, mat) ->
  gpu_texture_3d_fits res (format_of (get_channels_num g)) = false ->
  let voxels := fresh (dom (store w)) in
  volume_grid_cache_get g w =
  Returns (length (grids c))
    {| batch_cache := Some
         {| grids := grids c ++
                     [{| name := BLI_strdup (get_name g); texture := None;
                         texture_to_object := mat;
                         object_to_texture := math_invert mat |}];
            face_wire_pos_nor_in_order := face_wire_pos_nor_in_order c;
            face_wire_batch := face_wire_batch c;
            selection_surface := selection_surface c;
            is_dirty := is_dirty c |};
       wireframe_type := wireframe_type w;
       perf_flag := perf_flag w;
       store := delete voxels (<[voxels := ObjVoxels data]> (store w));
       log := log w ++ [EvVolumeLoad; EvDenseFloats g; EvMemFree voxels;
                        EvPrintf printf_message] |}.
Proof.
  intros Hc Hf Hch Hd Hfit. destruct w as [bc wt pf st lg]. simpl in Hc. subst bc.
  unfold format_of in Hfit.
  unfold volume_grid_cache_get. mrun. rewrite Hf.
  rewrite bool_decide_eq_true_2 by done. mrun.
  unfold BKE_volume_grid_dense_floats. mrun. rewrite Hd. mrun.
  unfold GPU_texture_create_3d. mrun. rewrite Hfit. mrun.
  rewrite !alter_tail. cbn. by rewrite <- !app_assoc.
Qed.

Lemma volume_grid_cache_get_texture_created w c g res data mat :
  batch_cache w = Some c ->
  find_grid (get_name g) (grids c) = None ->
  get_channels_num g = 1 ∨ get_channels_num g = 3 ->
  volume_grid_dense_floats g = Some (res, data, mat) ->
  gpu_texture_3d_fits res (format_of (get_channels_num g)) = true ->
  let voxels := fresh (dom (store w)) in
  let tex := fresh (dom (<[voxels := ObjVoxels data]> (store w))) in
  volume_grid_cache_get g w =
  Returns (length (grids c))
    {| batch_cache := Some
         {| grids := grids c ++
                     [{| name := BLI_strdup (get_name g); texture := Some tex;
                         texture_to_object := mat;
                         object_to_texture := math_invert mat |}];
            face_wire_pos_nor_in_order := face_wire_pos_nor_in_order c;
            face_wire_batch := face_wire_batch c;
            selection_surface := selection_surface c;
            is_dirty := is_dirty c |};
       wireframe_type := wireframe_type w;
       perf_flag := perf_flag w;
       store :=
         delete voxels
           (<[tex := ObjTexture
                {| tex_name := "volume_grid"; tex_size := res; tex_mip_len := 1;
                   tex_format := format_of (get_channels_num g);
                   tex_usage := GPU_TEXTURE_USAGE_SHADER_READ;
                   tex_data := data;
                   tex_swizzle := swizzle_of (get_channels_num g);
                   tex_extend_mode := GPU_SAMPLER_EXTEND_MODE_CLAMP_TO_BORDER |}]>
              (<[voxels := ObjVoxels data]> (store w)));
       log := log w ++ [EvVolumeLoad; EvDenseFloats g; EvMemFree voxels] |}.
Proof.
  intros Hc Hf Hch Hd Hfit. destruct w as [bc wt pf st lg]. simpl in Hc. subst bc.
  unfold format_of in Hfit.
  unfold volume_grid_cache_get. mrun. rewrite Hf.
  rewrite bool_decide_eq_true_2 by done. mrun.
  unfold BKE_volume_grid_dense_floats. mrun. rewrite Hd. mrun.
  unfold GPU_texture_create_3d. mrun. rewrite Hfit. mrun.
  rewrite !alter_tail. cbn [with_texture with_texture_to_object
    with_object_to_texture name texture texture_to_object object_to_texture].
  rewrite <- !app_assoc. cbn [app].
  rewrite !alter_insert_eq. unfold voxels_at. cbn [store].
  rewrite lookup_insert_eq. reflexivity.
Qed.

(** Every call of [volume_grid_cache_get] on an existing cache returns:
    the position of the entry found, or the position of the entry it
    added at the tail. *)
Lemma volume_grid_cache_get_cases w c g :
  batch_cache w = Some c ->
  (exists i, find_grid (get_name g) (grids c) = Some i /\
             volume_grid_cache_get g w = Returns i w)
  \/ (find_grid (get_name g) (grids c) = None /\
      exists e w',
        volume_grid_cache_get g w = Returns (length (grids c)) w' /\
        batch_cache w' = Some (with_grids (grids c ++ [e]) c) /\
        name e = BLI_strdup (get_name g) /\
        wireframe_type w' = wireframe_type w /\
        perf_flag w' = perf_flag w).
Proof.
  intros Hc. destruct (find_grid (get_name g) (grids c)) as [i|] eqn:Hf.
  { left. exists i. split; [done|]. by eapply volume_grid_cache_get_hit. }
  right. split; [done|].
  destruct (decide (get_channels_num g = 1 ∨ get_channels_num g = 3)) as [Hch|Hch].
  2:{ eexists _, _. split; [by eapply volume_grid_cache_get_unsupported|].
    repeat split; reflexivity. }
  destruct (volume_grid_dense_floats g) as [[[res data] mat]|] eqn:Hd.
  2:{ eexists _, _. split; [by eapply volume_grid_cache_get_no_dense|].
    repeat split; reflexivity. }
  destruct (gpu_texture_3d_fits res (format_of (get_channels_num g))) eqn:Hfit.
  - eexists _, _. split; [by eapply volume_grid_cache_get_texture_created|].
    repeat split; reflexivity.
  - eexists _, _. split; [by eapply volume_grid_cache_get_texture_failed|].
    repeat split; reflexivity.
Qed.

Lemma validated_log w : log (validated w) = log w.
Proof.
  unfold validated. destruct (batch_cache w) as [c|]; [|done].
  by destruct (is_dirty c).
Qed.

Lemma validated_wireframe_type w : wireframe_type (validated w) = wireframe_type w.
Proof.
  unfold validated. destruct (batch_cache w) as [c|]; [|done].
  by destruct (is_dirty c).
Qed.

Lemma validated_valid w c :
  batch_cache w = Some c -> is_dirty c = false -> validated w = w.
Proof. intros Hc Hd. unfold validated. by rewrite Hc, Hd. Qed.

Lemma cache_grids_lookup w i e :
  cache_grids w !! i = Some e ->
  exists c, batch_cache w = Some c /\ grids c !! i = Some e.
Proof.
  unfold cache_grids. destruct (batch_cache w) as [c|]; [by exists c|done].
Qed.

(** [DRW_volume_batch_cache_get_grid] in terms of its three steps. *)
Lemma get_grid_run w g i e w' :
  volume_grid_cache_get g (validated w) = Returns i w' ->
  cache_grids w' !! i = Some e ->
  DRW_volume_batch_cache_get_grid g w =
  Returns (match texture e with Some _ => Some i | None => None end) w'.
Proof.
  intros Hg He. destruct (validated_cache w) as (c & Hc & _).
  apply cache_grids_lookup in He as (c' & Hc' & He).
  unfold DRW_volume_batch_cache_get_grid.
  rewrite (bind_returns _ _ _ _ _ (volume_batch_cache_get_run w c Hc)).
  rewrite (bind_returns _ _ _ _ _ Hg).
  unfold deref_grid, get_cache. mrun. by rewrite Hc', He.
Qed.

(** ** The wireframe callback *)

Lemma drw_volume_wireframe_cb_lines w c verts edges totvert totedge :
  batch_cache w = Some c ->
  wireframe_type w <> VOLUME_WIREFRAME_POINTS ->
  let vbo := fresh (dom (store w)) in
  let s1 := <[vbo := ObjVertBuf (wire_vertbuf (do_hq_normals w) verts totvert)]> (store w) in
  let wd := fresh (dom s1) in
  let s2 := <[wd := ObjVertBuf (wiredata_vertbuf totvert)]> s1 in
  let ibo := fresh (dom s2) in
  let s3 := <[ibo := ObjIndexBuf (lines_indexbuf edges totedge totvert)]> s2 in
  let batch := fresh (dom s3) in
  drw_volume_wireframe_cb verts edges totvert totedge w =
  Returns tt
    {| batch_cache := Some
         {| grids := grids c;
            face_wire_pos_nor_in_order := Some vbo;
            face_wire_batch := Some batch;
            selection_surface := selection_surface c;
            is_dirty := is_dirty c |};
       wireframe_type := wireframe_type w;
       perf_flag := perf_flag w;
       store := <[batch := ObjBatch
                   {| batch_prim_type := GPU_PRIM_LINES;
                      batch_verts := [(vbo, false); (wd, true)];
                      batch_elem := Some ibo;
                      batch_owns_index := true |}]> s3;
       log := log w |}.
Proof.
  intros Hc Hwt. cbv zeta.
  unfold drw_volume_wireframe_cb. rewrite bind_run. unfold get_world at 1.
  cbv zeta. destruct (do_hq_normals w) eqn:Hq;
    destruct w as [bc wt pf st lg]; cbn [batch_cache wireframe_type store] in *;
    subst bc; mrun;
    unfold GPU_vertbuf_create_with_format, GPU_vertbuf_data_alloc,
      GPU_vertbuf_attr_fill, GPU_vertbuf_attr_fill_stride, GPU_vertbuf_calloc,
      DRW_vertbuf_create_wiredata, GPU_batch_create_ex, GPU_indexbuf_build,
      GPU_batch_vertbuf_add; mrun;
    rewrite decide_False by done; mrun;
    rewrite !alter_insert_eq;
    cbn [vertbuf_with_len vertbuf_with_attr vbo_format vbo_vertex_len vbo_attrs app
         batch_prim_type batch_verts batch_elem batch_owns_index];
    reflexivity.
Qed.

Lemma add_edges_data edges n elb :
  n <= length edges ->
  elb_data (add_edges edges n elb) = elb_data elb ++ edge_indices (take n edges).
Proof.
  unfold add_edges. induction n as [|n IH]; intros Hn.
  - simpl. by rewrite app_nil_r.
  - rewrite seq_S, foldl_app. cbn [foldl Nat.add].
    change (elb_data (GPU_indexbuf_add_line_verts ?b ?v1 ?v2))
      with (elb_data b ++ [v1; v2]).
    rewrite IH by lia.
    destruct (lookup_lt_is_Some_2 edges n) as [e He]; [lia|].
    rewrite (list_lookup_total_correct _ _ _ He), (take_S_r _ _ _ He).
    unfold edge_indices. by rewrite flat_map_app, <- app_assoc.
Qed.

Lemma add_edges_prim_type edges n elb :
  elb_prim_type (add_edges edges n elb) = elb_prim_type elb.
Proof.
  unfold add_edges. induction n as [|n IH]; [done|].
  by rewrite seq_S, foldl_app.
Qed.

Lemma index_lines_edge_indices edges : index_lines (edge_indices edges) = edges.
Proof.
  induction edges as [|[v1 v2] edges IH]; [done|].
  simpl. by rewrite IH.
Qed.

Lemma length_edge_indices edges : length (edge_indices edges) = 2 * length edges.
Proof. induction edges as [|e edges IH]; simpl; lia. Qed.

Lemma lines_indexbuf_data edges totvert :
  ibo_data (lines_indexbuf edges (length edges) totvert) = edge_indices edges.
Proof.
  unfold lines_indexbuf. cbn [ibo_data]. rewrite add_edges_data by done.
  by rewrite firstn_all.
Qed.

(** ** The validity gate *)

Lemma cleared_store_subseteq c s : cleared_store c s ⊆ s.
Proof.
  unfold cleared_store.
  etrans; [apply discarded_subseteq|].
  etrans; [apply discarded_subseteq|].
  etrans; apply release_subseteq.
Qed.

Lemma cleared_store_handles c s h :
  h ∈ cache_handles c -> cleared_store c s !! h = None.
Proof.
  unfold cache_handles, cleared_store. rewrite !elem_of_app.
  intros [Ht|[Hv|[Hb|Hs]]].
  - eapply lookup_weaken_None; [|apply discarded_subseteq].
    eapply lookup_weaken_None; [|apply discarded_subseteq].
    apply release_lookup_None. by apply release_elem.
  - eapply lookup_weaken_None; [|apply discarded_subseteq].
    eapply lookup_weaken_None; [|apply discarded_subseteq].
    by apply release_elem.
  - eapply lookup_weaken_None; [|apply discarded_subseteq].
    destruct (face_wire_batch c) as [b|]; [|by apply elem_of_nil in Hb].
    apply list_elem_of_singleton in Hb as ->. apply discarded_lookup.
  - destruct (selection_surface c) as [b|]; [|by apply elem_of_nil in Hs].
    apply list_elem_of_singleton in Hs as ->. apply discarded_lookup.
Qed.

Lemma release_lookup_ne hs s h : h ∉ hs -> release hs s !! h = s !! h.
Proof.
  revert s. induction hs as [|h' hs IH]; intros s Hn; [done|].
  apply not_elem_of_cons in Hn as [Hne Hn]. simpl.
  rewrite IH by done. by apply lookup_delete_ne.
Qed.

Lemma discarded_owned s b bt h :
  s !! b = Some (ObjBatch bt) ->
  h ∈ batch_owned bt ->
  discarded (Some b) s !! h = None.
Proof.
  intros Hb Hh. simpl. rewrite Hb.
  destruct (decide (b = h)) as [->|Hne]; [apply lookup_delete_eq|].
  rewrite lookup_delete_ne by done. by apply release_elem.
Qed.

Lemma discarded_lookup_ne s b h :
  b <> Some h ->
  h ∉ owned_by s b ->
  discarded b s !! h = s !! h.
Proof.
  intros Hne Hn. destruct b as [b|]; [|done]. simpl in *.
  rewrite lookup_delete_ne by congruence.
  destruct (s !! b) as [[| | |bt|]|]; try done. by apply release_lookup_ne.
Qed.

Lemma owned_by_subseteq s s' b h :
  s' ⊆ s -> h ∉ owned_by s b -> h ∉ owned_by s' b.
Proof.
  intros Hsub Hn. destruct b as [b|]; [|done]. simpl in *.
  destruct (s' !! b) as [o|] eqn:Hb; [|apply not_elem_of_nil].
  by rewrite (lookup_weaken _ _ _ _ Hb Hsub) in Hn.
Qed.

Ltac elem_app :=
  first [ by apply list_elem_of_singleton
        | assumption
        | apply elem_of_app; first [ left; elem_app | right; elem_app ] ].

(** When the handles of the cache and the buffers of its batches are
    all distinct objects, clearing the cache also releases the buffers
    the two batches own: the index buffers and the wire-data buffer. *)
Lemma cleared_store_owned_buffers c s h :
  NoDup (cache_handles c ++ cache_owned_buffers s c) ->
  h ∈ cache_owned_buffers s c ->
  cleared_store c s !! h = None.
Proof.
  unfold cache_handles, cache_owned_buffers, cleared_store.
  set (ts := omap texture (grids c)).
  set (vs := option_list (face_wire_pos_nor_in_order c)).
  intros Hnd Hh.
  set (s2 := release vs (release ts s)).
  assert (Hsub : s2 ⊆ s).
  { etrans; apply release_subseteq. }
  assert (Hs2 : forall b, b ∉ ts -> b ∉ vs -> s2 !! b = s !! b).
  { intros b Ht Hv. unfold s2. by rewrite !release_lookup_ne. }
  rewrite <- !app_assoc in Hnd.
  apply NoDup_app in Hnd as (_ & Hts & Hnd).
  apply NoDup_app in Hnd as (_ & Hvs & Hnd).
  apply NoDup_app in Hnd as (_ & Hbs & Hnd).
  apply NoDup_app in Hnd as (_ & Hss & _).
  apply elem_of_app in Hh as [Hh|Hh].
  - eapply lookup_weaken_None; [|apply discarded_subseteq].
    destruct (face_wire_batch c) as [b1|] eqn:Hb1; [|by apply elem_of_nil in Hh].
    cbn [option_list owned_by] in *.
    destruct (s !! b1) as [[| | |bt1|]|] eqn:Hl; try by apply elem_of_nil in Hh.
    apply discarded_owned with bt1; [|done].
    rewrite Hs2; [done| |].
    + intros Hin. apply (Hts b1 Hin).
      elem_app.
    + intros Hin. apply (Hvs b1 Hin).
      elem_app.
  - destruct (selection_surface c) as [b2|] eqn:Hb2; [|by apply elem_of_nil in Hh].
    cbn [option_list owned_by] in Hh, Hts, Hvs, Hbs, Hss.
    destruct (s !! b2) as [[| | |bt2|]|] eqn:Hl; try by apply elem_of_nil in Hh.
    assert (Hb2' : b2 ∈ [b2]) by by apply list_elem_of_singleton.
    apply discarded_owned with bt2; [|done].
    rewrite discarded_lookup_ne.
    + rewrite Hs2; [done| |].
      * intros Hin. apply (Hts b2 Hin).
        elem_app.
      * intros Hin. apply (Hvs b2 Hin).
        elem_app.
    + intros Heq. rewrite Heq in Hbs. cbn [option_list] in Hbs.
      apply (Hbs b2 Hb2'). elem_app.
    + apply owned_by_subseteq with s; [done|].
      intros Hin. apply (Hss b2 Hb2'). elem_app.
Qed.

(** C2. When the cache of a volume exists and is marked dirty, the next
    [DRW_volume_batch_cache_validate] returns and releases every GPU
    resource the cache held: the texture of every grid, the wireframe
    vertex buffer, the wireframe batch and the selection batch are no
    longer in the store, nor are the buffers the two batches own when
    all these are distinct objects, and nothing is added to the store.
    It empties the list of grids and leaves a valid cache: all fields
    zero, dirty flag cleared. *)
Theorem validate_dirty_releases_all (w : World) (c : VolumeBatchCache) :
  batch_cache w = Some c ->
  is_dirty c = true ->
  exists w',
    DRW_volume_batch_cache_validate w = Returns tt w' /\
    (forall h, h ∈ cache_handles c -> store w' !! h = None) /\
    (NoDup (cache_handles c ++ cache_owned_buffers (store w) c) ->
     forall h, h ∈ cache_owned_buffers (store w) c -> store w' !! h = None) /\
    store w' ⊆ store w /\
    batch_cache w' = Some zeroed_cache /\
    cache_grids w' = [] /\
    volume_batch_cache_valid w' = Returns true w' /\
    log w' = log w.
Proof.
  intros Hc Hd. exists (validated w). split; [apply validate_run|].
  unfold validated. rewrite Hc, Hd.
  split; [intros h Hh; by apply cleared_store_handles|].
  split; [intros Hnd h Hh; by apply cleared_store_owned_buffers|].
  split; [apply cleared_store_subseteq|].
  by repeat split.
Qed.

(** C3. [DRW_volume_batch_cache_validate] called twice with no
    [DRW_volume_batch_cache_dirty_tag] in between: the second call
    returns the world of the first, unchanged (same cache, same store,
    same log), so it releases and allocates nothing. *)
Theorem validate_twice_is_noop (w : World) :
  exists w1,
    DRW_volume_batch_cache_validate w = Returns tt w1 /\
    DRW_volume_batch_cache_validate w1 = Returns tt w1.
Proof.
  exists (validated w). split; [apply validate_run|].
  by rewrite validate_run, validated_idem.
Qed.

(** C8. With [wireframe_type] equal to [VOLUME_WIREFRAME_NONE],
    [DRW_volume_batch_cache_get_wireframes_face] returns null and the
    world is the same afterwards: the cache (absent, dirty or valid), the
    store and the log, hence no call to the backend. *)
Theorem wireframes_none_returns_null_unchanged (w : World) :
  wireframe_type w = VOLUME_WIREFRAME_NONE ->
  DRW_volume_batch_cache_get_wireframes_face w = Returns None w.
Proof.
  intros Hwt. unfold DRW_volume_batch_cache_get_wireframes_face.
  rewrite bind_run. unfold get_world at 1. cbv beta iota.
  by destruct (decide (wireframe_type w = VOLUME_WIREFRAME_NONE)).
Qed.

Lemma dirty_tag_run (w : World) (mode : Z) :
  DRW_volume_batch_cache_dirty_tag mode w =
  match batch_cache w with
  | None => Returns tt w
  | Some c =>
      if decide (mode = BKE_VOLUME_BATCH_DIRTY_ALL)
      then Returns tt (set_batch_cache (Some (with_is_dirty true c)) w)
      else Aborts AssertionFailed w
  end.
Proof.
  unfold DRW_volume_batch_cache_dirty_tag. rewrite bind_run.
  unfold get_world. cbv beta iota.
  destruct (batch_cache w) as [c|] eqn:Hc; [|done].
  destruct (decide (mode = BKE_VOLUME_BATCH_DIRTY_ALL)); [|done].
  mrun. by rewrite Hc.
Qed.

(** C10, as amended.  On an existing cache,
    [DRW_volume_batch_cache_dirty_tag] with [BKE_VOLUME_BATCH_DIRTY_ALL]
    sets the dirty flag and changes nothing else, and with any other
    reason code it fails the assertion; when the volume has no cache it
    returns at once for every reason code, with no effect and no
    assertion. *)
Theorem dirty_tag_cases (w : World) (mode : Z) :
  (forall c, batch_cache w = Some c -> mode = BKE_VOLUME_BATCH_DIRTY_ALL ->
     DRW_volume_batch_cache_dirty_tag mode w =
     Returns tt (set_batch_cache (Some (with_is_dirty true c)) w)) /\
  (forall c, batch_cache w = Some c -> mode <> BKE_VOLUME_BATCH_DIRTY_ALL ->
     DRW_volume_batch_cache_dirty_tag mode w = Aborts AssertionFailed w) /\
  (batch_cache w = None ->
     DRW_volume_batch_cache_dirty_tag mode w = Returns tt w).
Proof.
  rewrite dirty_tag_run. repeat split.
  - intros c -> Hm. by rewrite decide_True.
  - intros c -> Hm. by rewrite decide_False.
  - by intros ->.
Qed.

(** ** The grid materializer *)

Lemma cache_grids_validated w c :
  batch_cache (validated w) = Some c -> cache_grids (validated w) = grids c.
Proof. unfold cache_grids. by intros ->. Qed.

Lemma dense_float_calls_app l1 l2 :
  dense_float_calls (l1 ++ l2) = dense_float_calls l1 ++ dense_float_calls l2.
Proof. apply omap_app. Qed.

(** C1, as amended.  [volume_grid_cache_get], run on the validated cache,
    returns the entry itself: the one cached under the name of the grid,
    or the one it has just added at the tail under the copy of that name.
    The exposed
    [DRW_volume_batch_cache_get_grid] hands that entry on only when its
    texture is not null and returns null otherwise, so its caller sees
    "no renderable data" as a null result; there is no other error value,
    the call always returns. *)
Theorem get_grid_returns_entry_or_null (w : World) (g : VolumeGridData) :
  exists c i e w',
    volume_batch_cache_get w = Returns c (validated w) /\
    volume_grid_cache_get g (validated w) = Returns i w' /\
    cache_grids w' !! i = Some e /\
    (find_grid (get_name g) (grids c) = Some i /\ w' = validated w /\
     c_str (name e) = get_name g
     \/ find_grid (get_name g) (grids c) = None /\ i = length (grids c) /\
        cache_grids w' = grids c ++ [e] /\
        name e = BLI_strdup (get_name g)) /\
    DRW_volume_batch_cache_get_grid g w =
      Returns (match texture e with Some _ => Some i | None => None end) w'.
Proof.
  destruct (validated_cache w) as (c & Hc & _).
  destruct (volume_grid_cache_get_cases (validated w) c g Hc)
    as [(i & Hf & Hrun) | (Hf & e & w' & Hrun & Hc' & Hn & _)].
  - destruct (find_grid_Some _ _ _ Hf) as (e & He & Hn).
    assert (Hl : cache_grids (validated w) !! i = Some e).
    { by rewrite (cache_grids_validated w c Hc). }
    exists c, i, e, (validated w).
    split; [by apply volume_batch_cache_get_run|].
    repeat split; try done; [by left|]. by apply get_grid_run.
  - assert (Hg : cache_grids w' = grids c ++ [e]).
    { unfold cache_grids. by rewrite Hc'. }
    assert (Hl : cache_grids w' !! length (grids c) = Some e).
    { rewrite Hg. by apply list_lookup_middle. }
    exists c, (length (grids c)), e, w'.
    split; [by apply volume_batch_cache_get_run|].
    repeat split; try done; [by right|]. by apply get_grid_run.
Qed.

(** C5, as amended.  For a grid whose channel count is neither 1 nor 3,
    [DRW_volume_batch_cache_get_grid] returns (no error), makes no call
    to [BKE_volume_grid_dense_floats] and leaves the store as validation
    left it.  When no entry is cached under the name of the grid, the
    entry it adds has a null texture and the result is null.  When an
    entry is cached under that name, the scan finds that entry and
    nothing changes; the result is then that entry when its texture is
    not null, and null when its texture is null. *)
Theorem unsupported_channels_soft_miss (w : World) (g : VolumeGridData) :
  ¬ (get_channels_num g = 1 ∨ get_channels_num g = 3) ->
  exists i e w',
    DRW_volume_batch_cache_get_grid g w
    = Returns (match texture e with Some _ => Some i | None => None end) w' /\
    volume_grid_cache_get g (validated w) = Returns i w' /\
    cache_grids w' !! i = Some e /\
    dense_float_calls (log w') = dense_float_calls (log w) /\
    store w' = store (validated w) /\
    (find_grid (get_name g) (cache_grids (validated w)) = None ->
       name e = BLI_strdup (get_name g) /\
       texture e = None /\
       DRW_volume_batch_cache_get_grid g w = Returns None w' /\
       cache_grids w' = cache_grids (validated w) ++ [e] /\
       log w' = log w ++ [EvVolumeLoad]) /\
    (forall j, find_grid (get_name g) (cache_grids (validated w)) = Some j ->
       i = j /\
       cache_grids (validated w) !! j = Some e /\
       c_str (name e) = get_name g /\
       w' = validated w /\
       (forall t, texture e = Some t ->
          DRW_volume_batch_cache_get_grid g w = Returns (Some j) (validated w)) /\
       (texture e = None ->
          DRW_volume_batch_cache_get_grid g w = Returns None (validated w))).
Proof.
  intros Hch. destruct (validated_cache w) as (c & Hc & _).
  rewrite (cache_grids_validated w c Hc).
  destruct (find_grid (get_name g) (grids c)) as [i|] eqn:Hf.
  - destruct (find_grid_Some _ _ _ Hf) as (e & He & Hn).
    assert (Hl : cache_grids (validated w) !! i = Some e).
    { by rewrite (cache_grids_validated w c Hc). }
    pose proof (volume_grid_cache_get_hit _ _ _ _ Hc Hf) as Hrun.
    pose proof (get_grid_run _ _ _ _ _ Hrun Hl) as Hget.
    exists i, e, (validated w).
    split; [exact Hget|]. split; [exact Hrun|]. split; [exact Hl|].
    rewrite validated_log. split; [done|]. split; [done|]. split; [done|].
    intros j Hj. injection Hj as <-.
    split; [done|]. split; [done|]. split; [done|]. split; [done|].
    split.
    + intros t Ht. by rewrite Ht in Hget.
    + intros Ht. by rewrite Ht in Hget.
  - pose proof (volume_grid_cache_get_unsupported _ _ _ Hc Hf Hch) as Hrun.
    match type of Hrun with _ = Returns _ ?w1 =>
      assert (Hl : cache_grids w1 !! length (grids c)
                   = Some {| name := BLI_strdup (get_name g); texture := None;
                             texture_to_object := float4x4_zero;
                             object_to_texture := float4x4_zero |})
    end.
    { unfold cache_grids. cbn [batch_cache grids]. by apply list_lookup_middle. }
    pose proof (get_grid_run _ _ _ _ _ Hrun Hl) as Hget.
    exists (length (grids c)),
           {| name := BLI_strdup (get_name g); texture := None;
              texture_to_object := float4x4_zero;
              object_to_texture := float4x4_zero |}.
    eexists.
    split; [exact Hget|]. split; [exact Hrun|]. split; [exact Hl|].
    cbn [texture] in Hget. rewrite validated_log in Hget.
    cbn [log store texture name].
    rewrite validated_log, dense_float_calls_app, app_nil_r.
    split; [done|]. split; [done|]. split; [|done].
    intros _. by repeat split.
Qed.

(** C6. A build of a grid with 1 or 3 channels whose dense floats the
    backend delivered, when [GPU_texture_create_3d] fails: the call
    returns (null), the texture of the new entry stays null, the voxel
    buffer of the backend is freed by exactly one [MEM_freeN], no object
    is left in the store, and the failure shows only as the [printf]
    message in the log. *)
Theorem texture_creation_failure_is_soft (w : World) (g : VolumeGridData)
    (res : Z * Z * Z) (data : list float) (mat : float4x4) :
  find_grid (get_name g) (cache_grids (validated w)) = None ->
  get_channels_num g = 1 ∨ get_channels_num g = 3 ->
  volume_grid_dense_floats g = Some (res, data, mat) ->
  gpu_texture_3d_fits res (format_of (get_channels_num g)) = false ->
  exists voxels i e w',
    DRW_volume_batch_cache_get_grid g w = Returns None w' /\
    volume_grid_cache_get g (validated w) = Returns i w' /\
    cache_grids w' !! i = Some e /\
    name e = BLI_strdup (get_name g) /\
    texture e = None /\
    log w' = log w ++ [EvVolumeLoad; EvDenseFloats g; EvMemFree voxels;
                       EvPrintf printf_message] /\
    mem_frees (drop (length (log w)) (log w')) = [voxels] /\
    store (validated w) !! voxels = None /\
    store w' = store (validated w).
Proof.
  intros Hf Hch Hd Hfit. destruct (validated_cache w) as (c & Hc & _).
  rewrite (cache_grids_validated w c Hc) in Hf.
  pose proof (volume_grid_cache_get_texture_failed _ _ _ _ _ _ Hc Hf Hch Hd Hfit)
    as Hrun. cbv zeta in Hrun.
  assert (Hfresh : store (validated w) !! fresh (dom (store (validated w))) = None).
  { apply not_elem_of_dom, is_fresh. }
  match type of Hrun with _ = Returns _ ?w1 =>
    assert (Hl : cache_grids w1 !! length (grids c)
                 = Some {| name := BLI_strdup (get_name g); texture := None;
                           texture_to_object := mat;
                           object_to_texture := math_invert mat |})
  end.
  { unfold cache_grids. cbn [batch_cache grids]. by apply list_lookup_middle. }
  pose proof (get_grid_run _ _ _ _ _ Hrun Hl) as Hget. cbn [texture] in Hget.
  eexists _, _, _, _.
  split; [exact Hget|]. split; [exact Hrun|]. split; [exact Hl|].
  cbn [log store name texture].
  rewrite validated_log, drop_app_length, delete_insert_eq, delete_id by done.
  by repeat split.
Qed.

(** C7. A build of a grid whose dense floats the backend delivered and
    whose texture the device could allocate: the entry gets a 3D texture
    of the resolution of the grid, clamped to border; with 1 channel its
    format is the single-channel 16-bit float format and its swizzle is
    rrr1, with 3 channels the 3-channel 16-bit float format and rgb1. *)
Theorem materialized_texture_format (w : World) (g : VolumeGridData)
    (res : Z * Z * Z) (data : list float) (mat : float4x4) :
  find_grid (get_name g) (cache_grids (validated w)) = None ->
  get_channels_num g = 1 ∨ get_channels_num g = 3 ->
  volume_grid_dense_floats g = Some (res, data, mat) ->
  gpu_texture_3d_fits res (format_of (get_channels_num g)) = true ->
  exists i e t tex w',
    DRW_volume_batch_cache_get_grid g w = Returns (Some i) w' /\
    cache_grids w' !! i = Some e /\
    name e = BLI_strdup (get_name g) /\
    texture e = Some t /\
    store w' !! t = Some (ObjTexture tex) /\
    tex_size tex = res /\
    tex_extend_mode tex = GPU_SAMPLER_EXTEND_MODE_CLAMP_TO_BORDER /\
    format_bits_per_channel (tex_format tex) = 16 /\
    format_channels (tex_format tex) = get_channels_num g /\
    (get_channels_num g = 1 ->
       tex_format tex = SFLOAT_16 /\ tex_swizzle tex = "rrr1"%string) /\
    (get_channels_num g = 3 ->
       tex_format tex = SFLOAT_16_16_16 /\ tex_swizzle tex = "rgb1"%string).
Proof.
  intros Hf Hch Hd Hfit. destruct (validated_cache w) as (c & Hc & _).
  rewrite (cache_grids_validated w c Hc) in Hf.
  pose proof (volume_grid_cache_get_texture_created _ _ _ _ _ _ Hc Hf Hch Hd Hfit)
    as Hrun. cbv zeta in Hrun.
  set (voxels := fresh (dom (store (validated w)))) in *.
  set (t := fresh (dom (<[voxels := ObjVoxels data]> (store (validated w))))) in *.
  assert (Hne : voxels <> t).
  { intros E. apply (is_fresh (dom (<[voxels := ObjVoxels data]> (store (validated w))))).
    fold t. rewrite <- E. apply elem_of_dom. rewrite lookup_insert_eq. by eexists. }
  match type of Hrun with _ = Returns _ ?w1 =>
    assert (Hl : cache_grids w1 !! length (grids c)
                 = Some {| name := BLI_strdup (get_name g); texture := Some t;
                           texture_to_object := mat;
                           object_to_texture := math_invert mat |})
  end.
  { unfold cache_grids. cbn [batch_cache grids]. by apply list_lookup_middle. }
  pose proof (get_grid_run _ _ _ _ _ Hrun Hl) as Hget. cbn [texture] in Hget.
  eexists _, _, t, _, _.
  split; [exact Hget|]. split; [exact Hl|].
  cbn [name texture store].
  split; [done|]. split; [done|].
  split; [by rewrite lookup_delete_ne, lookup_insert_eq|].
  cbn [tex_size tex_extend_mode tex_format tex_swizzle].
  unfold format_of, swizzle_of.
  split; [reflexivity|]. split; [reflexivity|].
  split; [by destruct (bool_decide (get_channels_num g = 3))|].
  split; [destruct Hch as [-> | ->]; reflexivity|].
  split; intros ->; split; reflexivity.
Qed.

(** ** The wireframe builder *)

Lemma fresh_ne (m : gmap handle Object) (h : handle) :
  is_Some (m !! h) -> fresh (dom m) <> h.
Proof.
  intros Hs E. apply (is_fresh (dom m)). rewrite E. by apply elem_of_dom.
Qed.

Ltac solve_fresh_ne :=
  first [ apply fresh_ne | apply not_eq_sym, fresh_ne ];
  repeat (rewrite lookup_insert; case_decide; [by eexists|]);
  try done.

Lemma get_wireframes_cached w c batch :
  wireframe_type w <> VOLUME_WIREFRAME_NONE ->
  batch_cache w = Some c ->
  is_dirty c = false ->
  face_wire_batch c = Some batch ->
  DRW_volume_batch_cache_get_wireframes_face w = Returns (Some batch) w.
Proof.
  intros Hwt Hc Hd Hb. unfold DRW_volume_batch_cache_get_wireframes_face.
  rewrite bind_run. unfold get_world at 1. cbv beta iota.
  destruct (decide (wireframe_type w = VOLUME_WIREFRAME_NONE)); [done|].
  assert (Hv : validated w = w) by by apply validated_valid with c.
  rewrite (bind_returns _ _ w w c).
  2:{ rewrite <- Hv at 2. apply volume_batch_cache_get_run. by rewrite Hv. }
  by rewrite Hb.
Qed.

Lemma get_wireframes_build w c g verts edges totvert totedge :
  wireframe_type w <> VOLUME_WIREFRAME_NONE ->
  batch_cache (validated w) = Some c ->
  face_wire_batch c = None ->
  volume_grid_active = Some g ->
  volume_grid_wireframe (wireframe_type w) g = (verts, edges, totvert, totedge) ->
  DRW_volume_batch_cache_get_wireframes_face w =
  (drw_volume_wireframe_cb verts edges totvert totedge ;;
   cache ← get_cache; mret (face_wire_batch cache))
    (set_log (log w ++ [EvActiveGridGet; EvGridWireframe g]) (validated w)).
Proof.
  intros Hwt Hc Hb Ha Hg. unfold DRW_volume_batch_cache_get_wireframes_face.
  rewrite bind_run. unfold get_world at 1. cbv beta iota.
  destruct (decide (wireframe_type w = VOLUME_WIREFRAME_NONE)); [done|].
  rewrite (bind_returns _ _ _ _ _ (volume_batch_cache_get_run w c Hc)).
  rewrite Hb, Ha, Hg.
  rewrite bind_run. unfold emit at 1, modify at 1.
  rewrite bind_run. unfold emit at 1, modify at 1.
  unfold set_log at 1 2. cbn [log batch_cache wireframe_type perf_flag store].
  rewrite <- app_assoc, validated_log. reflexivity.
Qed.

(** C9. With a wireframe mode that draws lines (neither none nor
    points), an active grid and a traversal that supplies [V] vertices
    and [E] edges, a call of [DRW_volume_batch_cache_get_wireframes_face]
    that finds no wireframe batch in the validated cache builds one: a
    [GPU_PRIM_LINES] batch whose index buffer holds the [E] segments of
    the edge list, in order, and whose vertex buffer holds the [V]
    positions.  A second call returns the same batch and leaves the
    world as it is: nothing is rebuilt. *)
Theorem wireframes_lines_batch (w : World) (g : VolumeGridData)
    (verts : list (float * float * float)) (edges : list (nat * nat)) (V E : nat) :
  wireframe_type w <> VOLUME_WIREFRAME_NONE ->
  wireframe_type w <> VOLUME_WIREFRAME_POINTS ->
  volume_grid_active = Some g ->
  volume_grid_wireframe (wireframe_type w) g = (verts, edges, V, E) ->
  length verts = V ->
  length edges = E ->
  cached_face_wire_batch (validated w) = None ->
  exists batch bt vbo vb ibo ib w',
    DRW_volume_batch_cache_get_wireframes_face w = Returns (Some batch) w' /\
    store w' !! batch = Some (ObjBatch bt) /\
    batch_prim_type bt = GPU_PRIM_LINES /\
    batch_elem bt = Some ibo /\
    store w' !! ibo = Some (ObjIndexBuf ib) /\
    ibo_prim_type ib = GPU_PRIM_LINES /\
    index_lines (ibo_data ib) = edges /\
    length (index_lines (ibo_data ib)) = E /\
    ibo_index_len ib = 2 * E /\
    head (batch_verts bt) = Some (vbo, false) /\
    store w' !! vbo = Some (ObjVertBuf vb) /\
    vbo_vertex_len vb = V /\
    vertbuf_positions vb = Some verts /\
    length verts = V /\
    DRW_volume_batch_cache_get_wireframes_face w' = Returns (Some batch) w'.
Proof.
  intros Hnone Hpoints Ha Hg HV HE Hb.
  destruct (validated_cache w) as (c & Hc & Hd).
  unfold cached_face_wire_batch in Hb. rewrite Hc in Hb.
  rewrite (get_wireframes_build w c g verts edges V E Hnone Hc Hb Ha Hg).
  set (w0 := set_log (log w ++ [EvActiveGridGet; EvGridWireframe g]) (validated w)).
  assert (Hc0 : batch_cache w0 = Some c) by done.
  assert (Hwt0 : wireframe_type w0 = wireframe_type w).
  { unfold w0. cbn [set_log wireframe_type]. apply validated_wireframe_type. }
  assert (Hp0 : wireframe_type w0 <> VOLUME_WIREFRAME_POINTS) by by rewrite Hwt0.
  pose proof (drw_volume_wireframe_cb_lines w0 c verts edges V E Hc0 Hp0) as Hcb.
  cbv zeta in Hcb. rewrite (bind_returns _ _ _ _ _ Hcb). clear Hcb.
  set (vbo := fresh (dom (store w0))).
  set (s1 := <[vbo := ObjVertBuf (wire_vertbuf (do_hq_normals w0) verts V)]> (store w0)).
  set (wd := fresh (dom s1)).
  set (s2 := <[wd := ObjVertBuf (wiredata_vertbuf V)]> s1).
  set (ibo := fresh (dom s2)).
  set (s3 := <[ibo := ObjIndexBuf (lines_indexbuf edges E V)]> s2).
  set (batch := fresh (dom s3)).
  assert (batch <> ibo) by (unfold batch, s3; solve_fresh_ne).
  assert (batch <> vbo) by (unfold batch, s3, s2, s1; solve_fresh_ne).
  assert (ibo <> vbo) by (unfold ibo, s2, s1; solve_fresh_ne).
  assert (wd <> vbo) by (unfold wd, s1; solve_fresh_ne).
  assert (Hdata : ibo_data (lines_indexbuf edges E V) = edge_indices edges).
  { subst E. apply lines_indexbuf_data. }
  mrun.
  exists batch,
    {| batch_prim_type := GPU_PRIM_LINES;
       batch_verts := [(vbo, false); (wd, true)];
       batch_elem := Some ibo; batch_owns_index := true |},
    vbo, (wire_vertbuf (do_hq_normals w0) verts V),
    ibo, (lines_indexbuf edges E V).
  eexists. split; [reflexivity|]. cbn [store].
  split; [by rewrite lookup_insert_eq|]. cbn [batch_prim_type batch_elem batch_verts].
  split; [done|]. split; [done|].
  split; [unfold s3; by rewrite lookup_insert_ne, lookup_insert_eq by done|].
  split; [unfold lines_indexbuf; cbn [ibo_prim_type]; by rewrite add_edges_prim_type|].
  rewrite Hdata, index_lines_edge_indices.
  split; [done|]. split; [done|].
  split.
  { unfold lines_indexbuf. cbn [ibo_index_len]. fold (lines_indexbuf edges E V).
    change (elb_data _) with (ibo_data (lines_indexbuf edges E V)).
    by rewrite Hdata, length_edge_indices, HE. }
  split; [done|].
  split.
  { unfold s3, s2, s1. by rewrite !lookup_insert_ne, lookup_insert_eq by done. }
  split; [done|].
  split.
  { unfold vertbuf_positions, wire_vertbuf. cbn [vbo_attrs].
    rewrite <- HV, firstn_all. by destruct (do_hq_normals w0). }
  split; [done|].
  apply get_wireframes_cached with
    {| grids := grids c; face_wire_pos_nor_in_order := Some vbo;
       face_wire_batch := Some batch; selection_surface := selection_surface c;
       is_dirty := is_dirty c |}; try done.
  cbn [wireframe_type]. by rewrite Hwt0.
Qed.

(** ** What every call keeps: one entry per grid name *)






Lemma free_run w :
  exists w', DRW_volume_batch_cache_free w = Returns tt w' /\ batch_cache w' = None.
Proof.
  unfold DRW_volume_batch_cache_free. destruct (batch_cache w) as [c|] eqn:Hc.
  - rewrite (bind_returns _ _ _ _ _ (volume_batch_cache_clear_run w c Hc)).
    by eexists.
  - unfold volume_batch_cache_clear. rewrite !bind_run. unfold get_world at 1.
    rewrite Hc. by eexists.
Qed.






(** * Further properties *)

(** ** The callbacks, in full *)

Lemma drw_volume_wireframe_cb_points w c verts edges totvert totedge :
  batch_cache w = Some c ->
  wireframe_type w = VOLUME_WIREFRAME_POINTS ->
  let vbo := fresh (dom (store w)) in
  let s1 := <[vbo := ObjVertBuf (wire_vertbuf (do_hq_normals w) verts totvert)]> (store w) in
  let wd := fresh (dom s1) in
  let s2 := <[wd := ObjVertBuf (wiredata_vertbuf totvert)]> s1 in
  let batch := fresh (dom s2) in
  drw_volume_wireframe_cb verts edges totvert totedge w =
  Returns tt
    {| batch_cache := Some
         {| grids := grids c;
            face_wire_pos_nor_in_order := Some vbo;
            face_wire_batch := Some batch;
            selection_surface := selection_surface c;
            is_dirty := is_dirty c |};
       wireframe_type := wireframe_type w;
       perf_flag := perf_flag w;
       store := <[batch := ObjBatch
                   {| batch_prim_type := GPU_PRIM_POINTS;
                      batch_verts := [(vbo, false); (wd, true)];
                      batch_elem := None;
                      batch_owns_index := false |}]> s2;
       log := log w |}.
Proof.
  intros Hc Hwt. cbv zeta.
  unfold drw_volume_wireframe_cb. rewrite bind_run. unfold get_world at 1.
  cbv zeta. destruct (do_hq_normals w) eqn:Hq;
    destruct w as [bc wt pf st lg]; cbn [batch_cache wireframe_type store] in *;
    subst bc; mrun;
    unfold GPU_vertbuf_create_with_format, GPU_vertbuf_data_alloc,
      GPU_vertbuf_attr_fill, GPU_vertbuf_attr_fill_stride, GPU_vertbuf_calloc,
      DRW_vertbuf_create_wiredata, GPU_batch_create, GPU_batch_create_ex,
      GPU_batch_vertbuf_add; mrun;
    rewrite decide_True by done; mrun;
    rewrite !alter_insert_eq;
    cbn [vertbuf_with_len vertbuf_with_attr vbo_format vbo_vertex_len vbo_attrs app
         batch_prim_type batch_verts batch_elem batch_owns_index];
    reflexivity.
Qed.

Lemma drw_volume_selection_surface_cb_run w c verts tris totvert tottris :
  batch_cache w = Some c ->
  let vbo := fresh (dom (store w)) in
  let s1 := <[vbo := ObjVertBuf (selection_vertbuf verts totvert)]> (store w) in
  let ibo := fresh (dom s1) in
  let s2 := <[ibo := ObjIndexBuf (tris_indexbuf tris tottris totvert)]> s1 in
  let batch := fresh (dom s2) in
  drw_volume_selection_surface_cb verts tris totvert tottris w =
  Returns tt
    {| batch_cache := Some
         {| grids := grids c;
            face_wire_pos_nor_in_order := face_wire_pos_nor_in_order c;
            face_wire_batch := face_wire_batch c;
            selection_surface := Some batch;
            is_dirty := is_dirty c |};
       wireframe_type := wireframe_type w;
       perf_flag := perf_flag w;
       store := <[batch := ObjBatch
                   {| batch_prim_type := GPU_PRIM_TRIS;
                      batch_verts := [(vbo, true)];
                      batch_elem := Some ibo;
                      batch_owns_index := true |}]> s2;
       log := log w |}.
Proof.
  intros Hc. cbv zeta. destruct w as [bc wt pf st lg].
  cbn [batch_cache store] in *. subst bc.
  unfold drw_volume_selection_surface_cb.
  unfold GPU_vertbuf_create_with_format, GPU_vertbuf_data_alloc,
    GPU_vertbuf_attr_fill, GPU_batch_create_ex, GPU_indexbuf_build. mrun.
  rewrite !alter_insert_eq.
  cbn [vertbuf_with_len vertbuf_with_attr vbo_format vbo_vertex_len vbo_attrs app].
  reflexivity.
Qed.

Lemma add_tris_data tris n elb :
  n <= length tris ->
  elb_data (add_tris tris n elb) = elb_data elb ++ tri_indices (take n tris).
Proof.
  unfold add_tris. induction n as [|n IH]; intros Hn.
  - simpl. by rewrite app_nil_r.
  - rewrite seq_S, foldl_app. cbn [foldl Nat.add].
    destruct (lookup_lt_is_Some_2 tris n) as [[[v1 v2] v3] He]; [lia|].
    rewrite (list_lookup_total_correct _ _ _ He), (take_S_r _ _ _ He).
    change (elb_data (GPU_indexbuf_add_tri_verts ?b ?a1 ?a2 ?a3))
      with (elb_data b ++ [a1; a2; a3]).
    rewrite IH by lia.
    unfold tri_indices. by rewrite flat_map_app, <- app_assoc.
Qed.

Lemma add_tris_prim_type tris n elb :
  elb_prim_type (add_tris tris n elb) = elb_prim_type elb.
Proof.
  unfold add_tris. induction n as [|n IH]; [done|].
  rewrite seq_S, foldl_app. cbn [foldl]. by destruct (tris !!! (0 + n)) as [[??]?].
Qed.

Lemma index_tris_tri_indices tris : index_tris (tri_indices tris) = tris.
Proof.
  induction tris as [|[[v1 v2] v3] tris IH]; [done|].
  simpl. by rewrite IH.
Qed.

Lemma length_tri_indices tris : length (tri_indices tris) = 3 * length tris.
Proof. induction tris as [|t tris IH]; simpl; lia. Qed.

(** ** The selection-surface builder *)

Lemma get_selection_surface_cached w c batch :
  batch_cache w = Some c ->
  is_dirty c = false ->
  selection_surface c = Some batch ->
  DRW_volume_batch_cache_get_selection_surface w = Returns (Some batch) w.
Proof.
  intros Hc Hd Hb. unfold DRW_volume_batch_cache_get_selection_surface.
  assert (Hv : validated w = w) by by apply validated_valid with c.
  rewrite (bind_returns _ _ w w c).
  2:{ rewrite <- Hv at 2. apply volume_batch_cache_get_run. by rewrite Hv. }
  by rewrite Hb.
Qed.

Lemma get_selection_surface_build w c g verts tris totvert tottris :
  batch_cache (validated w) = Some c ->
  selection_surface c = None ->
  volume_grid_active = Some g ->
  volume_grid_selection_surface g = (verts, tris, totvert, tottris) ->
  DRW_volume_batch_cache_get_selection_surface w =
  (drw_volume_selection_surface_cb verts tris totvert tottris ;;
   cache ← get_cache; mret (selection_surface cache))
    (set_log (log w ++ [EvActiveGridGet; EvGridSelectionSurface g]) (validated w)).
Proof.
  intros Hc Hb Ha Hg. unfold DRW_volume_batch_cache_get_selection_surface.
  rewrite (bind_returns _ _ _ _ _ (volume_batch_cache_get_run w c Hc)).
  rewrite Hb, Ha, Hg.
  rewrite bind_run. unfold emit at 1, modify at 1.
  rewrite bind_run. unfold emit at 1, modify at 1.
  unfold set_log at 1 2. cbn [log batch_cache wireframe_type perf_flag store].
  rewrite <- app_assoc, validated_log. reflexivity.
Qed.

(** X1. With an active grid and a traversal that supplies [V] vertices
    and [T] triangles, a call of
    [DRW_volume_batch_cache_get_selection_surface] that finds no selection
    batch in the validated cache builds a [GPU_PRIM_TRIS] batch that owns
    its one vertex buffer and its index buffer; the index buffer holds
    the [T] triangles in order and the vertex buffer the [V] positions,
    in a position-only format.  A second call returns the same batch and
    leaves the world as it is. *)
Theorem selection_surface_batch (w : World) (g : VolumeGridData)
    (verts : list (float * float * float)) (tris : list (nat * nat * nat))
    (V T : nat) :
  volume_grid_active = Some g ->
  volume_grid_selection_surface g = (verts, tris, V, T) ->
  length verts = V ->
  length tris = T ->
  cached_selection_surface (validated w) = None ->
  exists batch vbo ibo vb ib w',
    DRW_volume_batch_cache_get_selection_surface w = Returns (Some batch) w' /\
    store w' !! batch
    = Some (ObjBatch {| batch_prim_type := GPU_PRIM_TRIS;
                        batch_verts := [(vbo, true)];
                        batch_elem := Some ibo;
                        batch_owns_index := true |}) /\
    store w' !! ibo = Some (ObjIndexBuf ib) /\
    ibo_prim_type ib = GPU_PRIM_TRIS /\
    index_tris (ibo_data ib) = tris /\
    ibo_index_len ib = 3 * T /\
    store w' !! vbo = Some (ObjVertBuf vb) /\
    vbo_format vb = [("pos"%string, SFLOAT_32_32_32)] /\
    vbo_vertex_len vb = V /\
    vertbuf_positions vb = Some verts /\
    DRW_volume_batch_cache_get_selection_surface w' = Returns (Some batch) w'.
Proof.
  intros Ha Hg HV HT Hb.
  destruct (validated_cache w) as (c & Hc & Hd).
  unfold cached_selection_surface in Hb. rewrite Hc in Hb.
  rewrite (get_selection_surface_build w c g verts tris V T Hc Hb Ha Hg).
  set (w0 := set_log (log w ++ [EvActiveGridGet; EvGridSelectionSurface g])
               (validated w)).
  assert (Hc0 : batch_cache w0 = Some c) by done.
  pose proof (drw_volume_selection_surface_cb_run w0 c verts tris V T Hc0) as Hcb.
  cbv zeta in Hcb. rewrite (bind_returns _ _ _ _ _ Hcb). clear Hcb.
  set (vbo := fresh (dom (store w0))).
  set (s1 := <[vbo := ObjVertBuf (selection_vertbuf verts V)]> (store w0)).
  set (ibo := fresh (dom s1)).
  set (s2 := <[ibo := ObjIndexBuf (tris_indexbuf tris T V)]> s1).
  set (batch := fresh (dom s2)).
  assert (batch <> ibo) by (unfold batch, s2; solve_fresh_ne).
  assert (batch <> vbo) by (unfold batch, s2, s1; solve_fresh_ne).
  assert (ibo <> vbo) by (unfold ibo, s1; solve_fresh_ne).
  assert (Hdata : ibo_data (tris_indexbuf tris T V) = tri_indices tris).
  { unfold tris_indexbuf. cbn [ibo_data]. subst T.
    rewrite add_tris_data by done. by rewrite firstn_all. }
  mrun.
  exists batch, vbo, ibo, (selection_vertbuf verts V), (tris_indexbuf tris T V).
  eexists. split; [reflexivity|]. cbn [store].
  split; [by rewrite lookup_insert_eq|].
  split; [unfold s2; by rewrite lookup_insert_ne, lookup_insert_eq by done|].
  split; [unfold tris_indexbuf; cbn [ibo_prim_type]; by rewrite add_tris_prim_type|].
  split; [by rewrite Hdata, index_tris_tri_indices|].
  split.
  { unfold tris_indexbuf. cbn [ibo_index_len]. fold (tris_indexbuf tris T V).
    change (elb_data _) with (ibo_data (tris_indexbuf tris T V)).
    by rewrite Hdata, length_tri_indices, HT. }
  split.
  { unfold s2, s1. by rewrite !lookup_insert_ne, lookup_insert_eq by done. }
  split; [done|]. split; [done|].
  split.
  { unfold vertbuf_positions, selection_vertbuf. cbn [vbo_attrs].
    by rewrite <- HV, firstn_all. }
  apply get_selection_surface_cached with
    {| grids := grids c;
       face_wire_pos_nor_in_order := face_wire_pos_nor_in_order c;
       face_wire_batch := face_wire_batch c;
       selection_surface := Some batch;
       is_dirty := is_dirty c |}; done.
Qed.

(** ** The wireframe builder, beyond lines *)

(** X2. Without an active grid, a builder that finds no batch in the
    validated cache returns null and caches nothing: the world afterwards
    is the validated one with the one call to
    [BKE_volume_grid_active_get_for_read] added to the log.  The null
    result is not remembered, so the next call asks the backend again. *)
Theorem builders_without_active_grid (w : World) :
  volume_grid_active = None ->
  (wireframe_type w <> VOLUME_WIREFRAME_NONE ->
   cached_face_wire_batch (validated w) = None ->
   DRW_volume_batch_cache_get_wireframes_face w
   = Returns None (set_log (log w ++ [EvActiveGridGet]) (validated w)) /\
   DRW_volume_batch_cache_get_wireframes_face
     (set_log (log w ++ [EvActiveGridGet]) (validated w))
   = Returns None
       (set_log (log w ++ [EvActiveGridGet; EvActiveGridGet]) (validated w))) /\
  (cached_selection_surface (validated w) = None ->
   DRW_volume_batch_cache_get_selection_surface w
   = Returns None (set_log (log w ++ [EvActiveGridGet]) (validated w)) /\
   DRW_volume_batch_cache_get_selection_surface
     (set_log (log w ++ [EvActiveGridGet]) (validated w))
   = Returns None
       (set_log (log w ++ [EvActiveGridGet; EvActiveGridGet]) (validated w))).
Proof.
  intros Ha. destruct (validated_cache w) as (c & Hc & Hd).
  assert (Hwire : forall w1, wireframe_type w1 <> VOLUME_WIREFRAME_NONE ->
            batch_cache w1 = Some c -> face_wire_batch c = None ->
            DRW_volume_batch_cache_get_wireframes_face w1
            = Returns None (set_log (log w1 ++ [EvActiveGridGet]) w1)).
  { intros w1 Hwt Hc1 Hb.
    assert (Hv : validated w1 = w1) by by apply validated_valid with c.
    unfold DRW_volume_batch_cache_get_wireframes_face.
    rewrite bind_run. unfold get_world at 1. cbv beta iota.
    destruct (decide (wireframe_type w1 = VOLUME_WIREFRAME_NONE)); [done|].
    rewrite (bind_returns _ _ w1 w1 c).
    2:{ rewrite <- Hv at 2. apply volume_batch_cache_get_run. by rewrite Hv. }
    rewrite Hb, Ha. reflexivity. }
  assert (Hsel : forall w1,
            batch_cache w1 = Some c -> selection_surface c = None ->
            DRW_volume_batch_cache_get_selection_surface w1
            = Returns None (set_log (log w1 ++ [EvActiveGridGet]) w1)).
  { intros w1 Hc1 Hb.
    assert (Hv : validated w1 = w1) by by apply validated_valid with c.
    unfold DRW_volume_batch_cache_get_selection_surface.
    rewrite (bind_returns _ _ w1 w1 c).
    2:{ rewrite <- Hv at 2. apply volume_batch_cache_get_run. by rewrite Hv. }
    rewrite Hb, Ha. reflexivity. }
  unfold cached_face_wire_batch, cached_selection_surface. rewrite Hc.
  split.
  - intros Hwt Hb. split.
    + unfold DRW_volume_batch_cache_get_wireframes_face.
      rewrite bind_run. unfold get_world at 1. cbv beta iota.
      destruct (decide (wireframe_type w = VOLUME_WIREFRAME_NONE)); [done|].
      rewrite (bind_returns _ _ _ _ _ (volume_batch_cache_get_run w c Hc)).
      rewrite Hb, Ha, <- (validated_log w). reflexivity.
    + rewrite Hwire; [| |done|done].
      * unfold set_log. cbn [log batch_cache wireframe_type perf_flag store].
        by rewrite <- app_assoc.
      * cbn [set_log wireframe_type]. by rewrite validated_wireframe_type.
  - intros Hb. split.
    + unfold DRW_volume_batch_cache_get_selection_surface.
      rewrite (bind_returns _ _ _ _ _ (volume_batch_cache_get_run w c Hc)).
      rewrite Hb, Ha, <- (validated_log w). reflexivity.
    + rewrite Hsel; [|done|done].
      unfold set_log. cbn [log batch_cache wireframe_type perf_flag store].
      by rewrite <- app_assoc.
Qed.

(** X3. In points mode the wireframe builder makes a [GPU_PRIM_POINTS]
    batch without index buffer: the edge list is not read and no index
    buffer is created; the batch has the vertex buffer of the [V]
    positions, which the cache keeps, and owns the wire-data buffer. *)
Theorem wireframes_points_batch (w : World) (g : VolumeGridData)
    (verts : list (float * float * float)) (edges : list (nat * nat)) (V E : nat) :
  wireframe_type w = VOLUME_WIREFRAME_POINTS ->
  volume_grid_active = Some g ->
  volume_grid_wireframe (wireframe_type w) g = (verts, edges, V, E) ->
  length verts = V ->
  cached_face_wire_batch (validated w) = None ->
  exists batch vbo wd vb w',
    DRW_volume_batch_cache_get_wireframes_face w = Returns (Some batch) w' /\
    store w' !! batch
    = Some (ObjBatch {| batch_prim_type := GPU_PRIM_POINTS;
                        batch_verts := [(vbo, false); (wd, true)];
                        batch_elem := None;
                        batch_owns_index := false |}) /\
    cached_pos_nor_in_order w' = Some vbo /\
    store w' !! vbo = Some (ObjVertBuf vb) /\
    vbo_vertex_len vb = V /\
    vertbuf_positions vb = Some verts /\
    store w' !! wd = Some (ObjVertBuf (wiredata_vertbuf V)) /\
    (forall h, h <> batch -> h <> vbo -> h <> wd ->
               store w' !! h = store (validated w) !! h) /\
    DRW_volume_batch_cache_get_wireframes_face w' = Returns (Some batch) w'.
Proof.
  intros Hpoints Ha Hg HV Hb.
  assert (Hnone : wireframe_type w <> VOLUME_WIREFRAME_NONE) by by rewrite Hpoints.
  destruct (validated_cache w) as (c & Hc & Hd).
  unfold cached_face_wire_batch in Hb. rewrite Hc in Hb.
  rewrite (get_wireframes_build w c g verts edges V E Hnone Hc Hb Ha Hg).
  set (w0 := set_log (log w ++ [EvActiveGridGet; EvGridWireframe g]) (validated w)).
  assert (Hc0 : batch_cache w0 = Some c) by done.
  assert (Hwt0 : wireframe_type w0 = wireframe_type w).
  { unfold w0. cbn [set_log wireframe_type]. apply validated_wireframe_type. }
  assert (Hp0 : wireframe_type w0 = VOLUME_WIREFRAME_POINTS) by by rewrite Hwt0.
  pose proof (drw_volume_wireframe_cb_points w0 c verts edges V E Hc0 Hp0) as Hcb.
  cbv zeta in Hcb. rewrite (bind_returns _ _ _ _ _ Hcb). clear Hcb.
  set (vbo := fresh (dom (store w0))).
  set (s1 := <[vbo := ObjVertBuf (wire_vertbuf (do_hq_normals w0) verts V)]> (store w0)).
  set (wd := fresh (dom s1)).
  set (s2 := <[wd := ObjVertBuf (wiredata_vertbuf V)]> s1).
  set (batch := fresh (dom s2)).
  assert (batch <> wd) by (unfold batch, s2; solve_fresh_ne).
  assert (batch <> vbo) by (unfold batch, s2, s1; solve_fresh_ne).
  assert (wd <> vbo) by (unfold wd, s1; solve_fresh_ne).
  mrun.
  exists batch, vbo, wd, (wire_vertbuf (do_hq_normals w0) verts V).
  eexists. split; [reflexivity|]. cbn [store].
  split; [by rewrite lookup_insert_eq|].
  split; [done|].
  split.
  { unfold s2, s1. by rewrite !lookup_insert_ne, lookup_insert_eq by done. }
  split; [done|].
  split.
  { unfold vertbuf_positions, wire_vertbuf. cbn [vbo_attrs].
    rewrite <- HV, firstn_all. by destruct (do_hq_normals w0). }
  split.
  { unfold s2. by rewrite lookup_insert_ne, lookup_insert_eq by done. }
  split.
  { intros h ? ? ?. unfold s2, s1. by rewrite !lookup_insert_ne by done. }
  apply get_wireframes_cached with
    {| grids := grids c; face_wire_pos_nor_in_order := Some vbo;
       face_wire_batch := Some batch; selection_surface := selection_surface c;
       is_dirty := is_dirty c |}; try done.
  cbn [wireframe_type]. by rewrite Hwt0.
Qed.

Lemma validated_perf_flag w : perf_flag (validated w) = perf_flag w.
Proof.
  unfold validated. destruct (batch_cache w) as [c|]; [|done].
  by destruct (is_dirty c).
Qed.

(** X4. In every mode that builds a wireframe, the vertex buffer the
    cache keeps has a position and a normal attribute; the normal is the
    one constant (1, 0, 0) for all vertices, packed in 16 bits a
    component when the scene asks for high-quality normals
    ([SCE_PERF_HQ_NORMALS] set in [perf_flag]) or the device needs the
    workaround, and in 10 bits otherwise.  The batch does not own that
    buffer; it owns a second one, of one scalar per vertex. *)
Theorem wireframe_vertex_layout (w : World) (g : VolumeGridData)
    (verts : list (float * float * float)) (edges : list (nat * nat)) (V E : nat) :
  wireframe_type w <> VOLUME_WIREFRAME_NONE ->
  volume_grid_active = Some g ->
  volume_grid_wireframe (wireframe_type w) g = (verts, edges, V, E) ->
  length verts = V ->
  cached_face_wire_batch (validated w) = None ->
  let hq := negb (Z.land (perf_flag w) SCE_PERF_HQ_NORMALS =? 0)%Z
            || GPU_use_hq_normals_workaround in
  exists batch bt vbo wd w',
    DRW_volume_batch_cache_get_wireframes_face w = Returns (Some batch) w' /\
    store w' !! batch = Some (ObjBatch bt) /\
    batch_verts bt = [(vbo, false); (wd, true)] /\
    cached_pos_nor_in_order w' = Some vbo /\
    store w' !! vbo
    = Some (ObjVertBuf
        {| vbo_format :=
             [("pos"%string, SFLOAT_32_32_32);
              ("nor"%string, if hq then SNORM_16_16_16_16 else SNORM_10_10_10_2)];
           vbo_vertex_len := V;
           vbo_attrs :=
             [(0, AttrFill verts);
              (1, AttrFillStride (if hq then PackedNormalHQ else PackedShort4)
                    (float_1, float_0, float_0))] |}) /\
    store w' !! wd
    = Some (ObjVertBuf
        {| vbo_format := [("wd"%string, SFLOAT_32)];
           vbo_vertex_len := V;
           vbo_attrs := [(0, AttrFillScalar float_1)] |}).
Proof.
  intros Hnone Ha Hg HV Hb hq.
  destruct (validated_cache w) as (c & Hc & Hd).
  unfold cached_face_wire_batch in Hb. rewrite Hc in Hb.
  rewrite (get_wireframes_build w c g verts edges V E Hnone Hc Hb Ha Hg).
  set (w0 := set_log (log w ++ [EvActiveGridGet; EvGridWireframe g]) (validated w)).
  assert (Hc0 : batch_cache w0 = Some c) by done.
  assert (Hwt0 : wireframe_type w0 = wireframe_type w).
  { unfold w0. cbn [set_log wireframe_type]. apply validated_wireframe_type. }
  assert (Hq0 : do_hq_normals w0 = hq).
  { unfold do_hq_normals, w0, hq. cbn [set_log perf_flag].
    by rewrite validated_perf_flag. }
  assert (Hvb : wire_vertbuf hq verts V =
    {| vbo_format :=
         [("pos"%string, SFLOAT_32_32_32);
          ("nor"%string, if hq then SNORM_16_16_16_16 else SNORM_10_10_10_2)];
       vbo_vertex_len := V;
       vbo_attrs :=
         [(0, AttrFill verts);
          (1, AttrFillStride (if hq then PackedNormalHQ else PackedShort4)
                (float_1, float_0, float_0))] |}).
  { unfold wire_vertbuf. rewrite <- HV, firstn_all. by destruct hq. }
  set (vbo := fresh (dom (store w0))).
  set (s1 := <[vbo := ObjVertBuf (wire_vertbuf (do_hq_normals w0) verts V)]> (store w0)).
  set (wd := fresh (dom s1)).
  set (s2 := <[wd := ObjVertBuf (wiredata_vertbuf V)]> s1).
  assert (wd <> vbo) by (unfold wd, s1; solve_fresh_ne).
  destruct (decide (wireframe_type w0 = VOLUME_WIREFRAME_POINTS)) as [Hp|Hp].
  - pose proof (drw_volume_wireframe_cb_points w0 c verts edges V E Hc0 Hp) as Hcb.
    cbv zeta in Hcb. rewrite (bind_returns _ _ _ _ _ Hcb). clear Hcb.
    fold vbo s1 wd s2. set (batch := fresh (dom s2)).
    assert (batch <> wd) by (unfold batch, s2; solve_fresh_ne).
    assert (batch <> vbo) by (unfold batch, s2, s1; solve_fresh_ne).
    mrun. eexists batch, _, vbo, wd, _. split; [reflexivity|]. cbn [store].
    split; [by rewrite lookup_insert_eq|]. split; [done|]. split; [done|].
    split.
    + unfold s2, s1. rewrite !lookup_insert_ne, lookup_insert_eq by done.
      by rewrite Hq0, Hvb.
    + unfold s2. by rewrite lookup_insert_ne, lookup_insert_eq by done.
  - pose proof (drw_volume_wireframe_cb_lines w0 c verts edges V E Hc0 Hp) as Hcb.
    cbv zeta in Hcb. rewrite (bind_returns _ _ _ _ _ Hcb). clear Hcb.
    fold vbo s1 wd s2. set (ibo := fresh (dom s2)).
    set (s3 := <[ibo := ObjIndexBuf (lines_indexbuf edges E V)]> s2).
    set (batch := fresh (dom s3)).
    assert (batch <> ibo) by (unfold batch, s3; solve_fresh_ne).
    assert (batch <> wd) by (unfold batch, s3, s2; solve_fresh_ne).
    assert (batch <> vbo) by (unfold batch, s3, s2, s1; solve_fresh_ne).
    assert (ibo <> wd) by (unfold ibo, s2; solve_fresh_ne).
    assert (ibo <> vbo) by (unfold ibo, s2, s1; solve_fresh_ne).
    mrun. eexists batch, _, vbo, wd, _. split; [reflexivity|]. cbn [store].
    split; [by rewrite lookup_insert_eq|]. split; [done|]. split; [done|].
    split.
    + unfold s3, s2, s1. rewrite !lookup_insert_ne, lookup_insert_eq by done.
      by rewrite Hq0, Hvb.
    + unfold s3, s2. by rewrite !lookup_insert_ne, lookup_insert_eq by done.
Qed.

(** X5. The display mode is read only when the wireframe batch is built:
    a batch held by a valid cache is returned as it is for every mode
    other than none, whatever mode it was built for, and the world is
    left unchanged (no call to the backend, nothing rebuilt). *)
Theorem wireframes_cached_batch_any_mode (w : World) (c : VolumeBatchCache)
    (batch : nat) (wt : VolumeWireframeType) (pf : Z) :
  batch_cache w = Some c ->
  is_dirty c = false ->
  face_wire_batch c = Some batch ->
  wt <> VOLUME_WIREFRAME_NONE ->
  let w1 := {| batch_cache := batch_cache w; wireframe_type := wt;
               perf_flag := pf; store := store w; log := log w |} in
  DRW_volume_batch_cache_get_wireframes_face w1 = Returns (Some batch) w1.
Proof.
  intros Hc Hd Hb Hwt w1. by apply get_wireframes_cached with c.
Qed.

(** ** The grid materializer, beyond the claims *)

Lemma fresh_lookup (s : gmap handle Object) : s !! fresh (dom s) = None.
Proof. apply not_elem_of_dom, is_fresh. Qed.

Lemma insert_fresh_subseteq (s : gmap handle Object) (o : Object) :
  s ⊆ <[fresh (dom s) := o]> s.
Proof. apply insert_subseteq, fresh_lookup. Qed.

(** A lookup on a valid cache that holds the entry. *)
Lemma get_grid_cached w c g i e :
  batch_cache w = Some c ->
  is_dirty c = false ->
  find_grid (get_name g) (grids c) = Some i ->
  grids c !! i = Some e ->
  DRW_volume_batch_cache_get_grid g w =
  Returns (match texture e with Some _ => Some i | None => None end) w.
Proof.
  intros Hc Hd Hf He.
  assert (Hv : validated w = w) by by apply validated_valid with c.
  apply get_grid_run.
  - rewrite Hv. by apply volume_grid_cache_get_hit with c.
  - unfold cache_grids. by rewrite Hc.
Qed.

(** What a call of [volume_grid_cache_get] does to the cache and to the
    store, whatever the path. *)
Lemma volume_grid_cache_get_effect w c g :
  batch_cache w = Some c ->
  exists i e gs w',
    volume_grid_cache_get g w = Returns i w' /\
    batch_cache w' = Some (with_grids gs c) /\
    gs !! i = Some e /\
    c_str (name e) = c_str (get_name g) /\
    (gs = grids c /\ w' = w
     \/ gs = grids c ++ [e] /\ i = length (grids c) /\
        find_grid (get_name g) (grids c) = None /\
        wireframe_type w' = wireframe_type w /\
        perf_flag w' = perf_flag w /\
        (texture e = None /\ store w' = store w
         \/ exists t tex, texture e = Some t /\ store w !! t = None /\
                          store w' = <[t := ObjTexture tex]> (store w))).
Proof.
  intros Hc. destruct (find_grid (get_name g) (grids c)) as [i|] eqn:Hf.
  { destruct (find_grid_Some _ _ _ Hf) as (e & He & Hn).
    exists i, e, (grids c), w.
    split; [by eapply volume_grid_cache_get_hit|].
    split; [by destruct c|]. split; [done|].
    split; [by rewrite <- Hn, c_str_idemp|]. by left. }
  assert (Hmid : forall e : DRWVolumeGrid,
            (grids c ++ [e]) !! length (grids c) = Some e).
  { intros e. by apply list_lookup_middle. }
  destruct (decide (get_channels_num g = 1 ∨ get_channels_num g = 3)) as [Hch|Hch].
  2:{ eexists _, _, _, _.
      split; [by eapply volume_grid_cache_get_unsupported|].
      split; [reflexivity|]. split; [apply Hmid|].
    split; [apply c_str_idemp|].
      right. repeat split; try done. by left. }
  destruct (volume_grid_dense_floats g) as [[[res data] mat]|] eqn:Hd.
  2:{ eexists _, _, _, _.
      split; [by eapply volume_grid_cache_get_no_dense|].
      split; [reflexivity|]. split; [apply Hmid|].
    split; [apply c_str_idemp|].
      right. repeat split; try done. by left. }
  destruct (gpu_texture_3d_fits res (format_of (get_channels_num g))) eqn:Hfit.
  - pose proof (volume_grid_cache_get_texture_created _ _ _ _ _ _ Hc Hf Hch Hd Hfit)
      as Hrun. cbv zeta in Hrun.
    set (voxels := fresh (dom (store w))) in *.
    set (t := fresh (dom (<[voxels := ObjVoxels data]> (store w)))) in *.
    assert (Hne : t <> voxels) by (unfold t; solve_fresh_ne).
    assert (Ht : store w !! t = None).
    { pose proof (fresh_lookup (<[voxels := ObjVoxels data]> (store w))) as Hl.
      fold t in Hl. by rewrite lookup_insert_ne in Hl. }
    eexists _, _, _, _. split; [exact Hrun|].
    split; [reflexivity|]. split; [apply Hmid|].
    split; [apply c_str_idemp|].
    right. do 5 (split; [done|]). right. eexists t, _.
    split; [done|]. split; [done|]. cbn [store].
    rewrite delete_insert_ne, delete_insert_eq by done.
    by rewrite delete_id by apply fresh_lookup.
  - pose proof (volume_grid_cache_get_texture_failed _ _ _ _ _ _ Hc Hf Hch Hd Hfit)
      as Hrun. cbv zeta in Hrun.
    eexists _, _, _, _. split; [exact Hrun|].
    split; [reflexivity|]. split; [apply Hmid|].
    split; [apply c_str_idemp|].
    right. do 5 (split; [done|]). left. split; [done|]. cbn [store].
    rewrite delete_insert_eq. by rewrite delete_id by apply fresh_lookup.
Qed.

(** X6. When [BKE_volume_grid_dense_floats] returns false for a grid
    with 1 or 3 channels that is not cached, the lookup returns null and
    caches an entry with a null texture and zero matrices, under the copy
    of the name; nothing is allocated or freed.  For a name without NUL
    the failure is remembered: the next lookup returns null again without
    asking the backend again.  For a name with a NUL inside, the copy is
    not the name, so the next lookup misses again: it asks the backend
    again and adds a second entry like the first. *)
Theorem dense_floats_failure_is_cached (w : World) (g : VolumeGridData) :
  find_grid (get_name g) (cache_grids (validated w)) = None ->
  get_channels_num g = 1 ∨ get_channels_num g = 3 ->
  volume_grid_dense_floats g = None ->
  let e := {| name := BLI_strdup (get_name g); texture := None;
              texture_to_object := float4x4_zero;
              object_to_texture := float4x4_zero |} in
  exists w',
    DRW_volume_batch_cache_get_grid g w = Returns None w' /\
    cache_grids w' = cache_grids (validated w) ++ [e] /\
    store w' = store (validated w) /\
    log w' = log w ++ [EvVolumeLoad; EvDenseFloats g] /\
    (c_str (get_name g) = get_name g ->
       DRW_volume_batch_cache_get_grid g w' = Returns None w') /\
    (c_str (get_name g) <> get_name g ->
       exists w'',
         DRW_volume_batch_cache_get_grid g w' = Returns None w'' /\
         cache_grids w'' = cache_grids w' ++ [e] /\
         store w'' = store w' /\
         log w'' = log w' ++ [EvVolumeLoad; EvDenseFloats g]).
Proof.
  intros Hf Hch Hd e. destruct (validated_cache w) as (c & Hc & Hdirty).
  rewrite (cache_grids_validated w c Hc) in *.
  pose proof (volume_grid_cache_get_no_dense _ _ _ Hc Hf Hch Hd) as Hrun.
  fold e in Hrun.
  assert (Hl : (grids c ++ [e]) !! length (grids c) = Some e)
    by by apply list_lookup_middle.
  match type of Hrun with _ = Returns _ ?w1 => set (w' := w1) in * end.
  set (c' := {| grids := grids c ++ [e];
                face_wire_pos_nor_in_order := face_wire_pos_nor_in_order c;
                face_wire_batch := face_wire_batch c;
                selection_surface := selection_surface c;
                is_dirty := is_dirty c |}).
  assert (Hc' : batch_cache w' = Some c') by done.
  assert (Hv : validated w' = w') by by apply validated_valid with c'.
  exists w'. split.
  { eapply (get_grid_run _ _ _ e _ Hrun). unfold cache_grids. by cbn. }
  split; [done|]. split; [done|].
  split; [cbn [log w']; by rewrite validated_log|]. split.
  - intros Hcs.
    eapply (get_grid_cached _ _ g (length (grids c)) e); [exact Hc'|done| |done].
    apply find_grid_app_new; [done|]. unfold e, BLI_strdup. cbn [name].
    by rewrite c_str_idemp.
  - intros Hcs.
    assert (Hf' : find_grid (get_name g) (grids c') = None).
    { apply find_grid_app_miss; [done|]. unfold e, BLI_strdup. cbn [name].
      by rewrite c_str_idemp. }
    pose proof (volume_grid_cache_get_no_dense _ _ _ Hc' Hf' Hch Hd) as Hrun'.
    fold e in Hrun'. rewrite <- Hv in Hrun' at 1.
    eexists. split.
    { eapply (get_grid_run _ _ _ e _ Hrun'). unfold cache_grids.
      cbn [batch_cache grids]. by apply list_lookup_middle. }
    split; [done|]. split; [done|]. done.
Qed.

(** X7. A successful build leaves exactly one new object in the store,
    the texture, which holds a copy of the voxels; the voxel buffer of
    the backend is freed by exactly one [MEM_freeN] and is gone; the
    entry records the texture matrix of the backend and its inverse. *)
Theorem materialized_grid_resources (w : World) (g : VolumeGridData)
    (res : Z * Z * Z) (data : list float) (mat : float4x4) :
  find_grid (get_name g) (cache_grids (validated w)) = None ->
  get_channels_num g = 1 ∨ get_channels_num g = 3 ->
  volume_grid_dense_floats g = Some (res, data, mat) ->
  gpu_texture_3d_fits res (format_of (get_channels_num g)) = true ->
  exists i t tex voxels w',
    DRW_volume_batch_cache_get_grid g w = Returns (Some i) w' /\
    cache_grids w'
    = cache_grids (validated w)
      ++ [{| name := BLI_strdup (get_name g); texture := Some t;
             texture_to_object := mat;
             object_to_texture := math_invert mat |}] /\
    store (validated w) !! t = None /\
    store w' = <[t := ObjTexture tex]> (store (validated w)) /\
    tex_data tex = data /\
    log w' = log w ++ [EvVolumeLoad; EvDenseFloats g; EvMemFree voxels] /\
    mem_frees (drop (length (log w)) (log w')) = [voxels] /\
    store w' !! voxels = None.
Proof.
  intros Hf Hch Hd Hfit. destruct (validated_cache w) as (c & Hc & _).
  rewrite (cache_grids_validated w c Hc) in *.
  pose proof (volume_grid_cache_get_texture_created _ _ _ _ _ _ Hc Hf Hch Hd Hfit)
    as Hrun. cbv zeta in Hrun.
  set (voxels := fresh (dom (store (validated w)))) in *.
  set (t := fresh (dom (<[voxels := ObjVoxels data]> (store (validated w))))) in *.
  assert (Hne : t <> voxels) by (unfold t; solve_fresh_ne).
  assert (Ht : store (validated w) !! t = None).
  { pose proof (fresh_lookup (<[voxels := ObjVoxels data]> (store (validated w))))
      as Hl. fold t in Hl. by rewrite lookup_insert_ne in Hl. }
  set (e := {| name := BLI_strdup (get_name g); texture := Some t;
               texture_to_object := mat;
               object_to_texture := math_invert mat |}) in *.
  assert (Hl : (grids c ++ [e]) !! length (grids c) = Some e)
    by by apply list_lookup_middle.
  eexists (length (grids c)), t, _, voxels, _. split.
  { eapply (get_grid_run _ _ _ e _ Hrun). unfold cache_grids. by cbn. }
  split; [done|]. split; [done|]. cbn [store log].
  split.
  { rewrite delete_insert_ne, delete_insert_eq by done.
    by rewrite delete_id by apply fresh_lookup. }
  split; [done|].
  rewrite validated_log, drop_app_length.
  split; [done|]. split; [done|]. apply lookup_delete_eq.
Qed.

(** X8. A lookup never removes, moves or changes an entry the validated
    cache holds (so the entries handed out earlier stay what they were),
    and it leaves the wireframe and selection fields of the cache alone. *)
Theorem get_grid_keeps_cache (w : World) (g : VolumeGridData) :
  exists r w',
    DRW_volume_batch_cache_get_grid g w = Returns r w' /\
    cache_grids (validated w) `prefix_of` cache_grids w' /\
    (forall i e, cache_grids (validated w) !! i = Some e ->
                 cache_grids w' !! i = Some e) /\
    cached_pos_nor_in_order w' = cached_pos_nor_in_order (validated w) /\
    cached_face_wire_batch w' = cached_face_wire_batch (validated w) /\
    cached_selection_surface w' = cached_selection_surface (validated w).
Proof.
  destruct (validated_cache w) as (c & Hc & _).
  destruct (volume_grid_cache_get_effect (validated w) c g Hc)
    as (i & e & gs & w' & Hrun & Hc' & He & _ & Hcase).
  assert (Hl : cache_grids w' !! i = Some e).
  { unfold cache_grids. by rewrite Hc'. }
  eexists _, w'. split; [by apply (get_grid_run _ _ _ _ _ Hrun Hl)|].
  unfold cache_grids, cached_pos_nor_in_order, cached_face_wire_batch,
    cached_selection_surface. rewrite Hc, Hc'. cbn.
  assert (Hpre : grids c `prefix_of` gs).
  { destruct Hcase as [[-> _] | [-> _]]; [done|by apply prefix_app_r]. }
  split; [done|]. split; [|done].
  intros j e' Hj. by apply (prefix_lookup_Some _ _ _ _ Hj Hpre).
Qed.

(** ** Release, and what the accessors leave alone *)

(** X9. [DRW_volume_batch_cache_free] on a volume with a cache, dirty or
    not, releases every object the cache holds (and the buffers its
    batches own, when all these are distinct objects), allocates nothing,
    makes no call to the backend and leaves the volume without cache; on
    a volume without cache it does nothing. *)
Theorem free_releases_all (w : World) :
  (forall c, batch_cache w = Some c ->
     exists w',
       DRW_volume_batch_cache_free w = Returns tt w' /\
       batch_cache w' = None /\
       (forall h, h ∈ cache_handles c -> store w' !! h = None) /\
       (NoDup (cache_handles c ++ cache_owned_buffers (store w) c) ->
        forall h, h ∈ cache_owned_buffers (store w) c -> store w' !! h = None) /\
       store w' ⊆ store w /\
       log w' = log w /\
       wireframe_type w' = wireframe_type w) /\
  (batch_cache w = None -> DRW_volume_batch_cache_free w = Returns tt w).
Proof.
  unfold DRW_volume_batch_cache_free. split.
  - intros c Hc.
    rewrite (bind_returns _ _ _ _ _ (volume_batch_cache_clear_run w c Hc)).
    eexists. split; [reflexivity|]. cbn.
    split; [done|].
    split; [intros h Hh; by apply cleared_store_handles|].
    split; [intros Hnd h Hh; by apply cleared_store_owned_buffers|].
    split; [apply cleared_store_subseteq|done].
  - intros Hc. unfold volume_batch_cache_clear. rewrite !bind_run.
    unfold get_world at 1. rewrite Hc. destruct w; cbn in *. by subst.
Qed.

Lemma get_wireframes_effect w :
  exists r w',
    DRW_volume_batch_cache_get_wireframes_face w = Returns r w' /\
    (wireframe_type w = VOLUME_WIREFRAME_NONE /\ w' = w \/
     wireframe_type w <> VOLUME_WIREFRAME_NONE /\
     exists c', batch_cache w' = Some c' /\ is_dirty c' = false /\
                store (validated w) ⊆ store w').
Proof.
  destruct (decide (wireframe_type w = VOLUME_WIREFRAME_NONE)) as [Hn|Hn].
  { exists None, w. split; [|by left].
    unfold DRW_volume_batch_cache_get_wireframes_face.
    rewrite bind_run. unfold get_world at 1. cbv beta iota.
    by rewrite decide_True. }
  destruct (validated_cache w) as (c & Hc & Hd).
  destruct (face_wire_batch c) as [b|] eqn:Hb.
  { exists (Some b), (validated w). split; [|right; split; [done|by exists c]].
    unfold DRW_volume_batch_cache_get_wireframes_face.
    rewrite bind_run. unfold get_world at 1. cbv beta iota.
    rewrite decide_False by done.
    rewrite (bind_returns _ _ _ _ _ (volume_batch_cache_get_run w c Hc)).
    by rewrite Hb. }
  destruct volume_grid_active as [g|] eqn:Ha.
  2:{ exists None, (set_log (log (validated w) ++ [EvActiveGridGet]) (validated w)).
      split; [|right; split; [done|by exists c]].
      unfold DRW_volume_batch_cache_get_wireframes_face.
      rewrite bind_run. unfold get_world at 1. cbv beta iota.
      rewrite decide_False by done.
      rewrite (bind_returns _ _ _ _ _ (volume_batch_cache_get_run w c Hc)).
      by rewrite Hb, Ha. }
  destruct (volume_grid_wireframe (wireframe_type w) g) as [[[verts edges] V] E] eqn:Hg.
  rewrite (get_wireframes_build w c g verts edges V E Hn Hc Hb Ha Hg).
  set (w0 := set_log (log w ++ [EvActiveGridGet; EvGridWireframe g]) (validated w)).
  assert (Hc0 : batch_cache w0 = Some c) by done.
  destruct (decide (wireframe_type w0 = VOLUME_WIREFRAME_POINTS)) as [Hp|Hp].
  - pose proof (drw_volume_wireframe_cb_points w0 c verts edges V E Hc0 Hp) as Hcb.
    cbv zeta in Hcb. rewrite (bind_returns _ _ _ _ _ Hcb). clear Hcb. mrun.
    eexists _, _. split; [reflexivity|]. right. split; [done|].
    eexists. split; [reflexivity|]. split; [done|]. cbn [store].
    etrans; [|apply insert_fresh_subseteq].
    etrans; [|apply insert_fresh_subseteq]. apply insert_fresh_subseteq.
  - pose proof (drw_volume_wireframe_cb_lines w0 c verts edges V E Hc0 Hp) as Hcb.
    cbv zeta in Hcb. rewrite (bind_returns _ _ _ _ _ Hcb). clear Hcb. mrun.
    eexists _, _. split; [reflexivity|]. right. split; [done|].
    eexists. split; [reflexivity|]. split; [done|]. cbn [store].
    etrans; [|apply insert_fresh_subseteq].
    etrans; [|apply insert_fresh_subseteq].
    etrans; [|apply insert_fresh_subseteq]. apply insert_fresh_subseteq.
Qed.

Lemma get_selection_surface_effect w :
  exists r w' c',
    DRW_volume_batch_cache_get_selection_surface w = Returns r w' /\
    batch_cache w' = Some c' /\ is_dirty c' = false /\
    store (validated w) ⊆ store w'.
Proof.
  destruct (validated_cache w) as (c & Hc & Hd).
  destruct (selection_surface c) as [b|] eqn:Hb.
  { exists (Some b), (validated w), c. split; [|done].
    unfold DRW_volume_batch_cache_get_selection_surface.
    rewrite (bind_returns _ _ _ _ _ (volume_batch_cache_get_run w c Hc)).
    by rewrite Hb. }
  destruct volume_grid_active as [g|] eqn:Ha.
  2:{ exists None, (set_log (log (validated w) ++ [EvActiveGridGet]) (validated w)), c.
      split; [|done].
      unfold DRW_volume_batch_cache_get_selection_surface.
      rewrite (bind_returns _ _ _ _ _ (volume_batch_cache_get_run w c Hc)).
      by rewrite Hb, Ha. }
  destruct (volume_grid_selection_surface g) as [[[verts tris] V] T] eqn:Hg.
  rewrite (get_selection_surface_build w c g verts tris V T Hc Hb Ha Hg).
  set (w0 := set_log (log w ++ [EvActiveGridGet; EvGridSelectionSurface g])
               (validated w)).
  assert (Hc0 : batch_cache w0 = Some c) by done.
  pose proof (drw_volume_selection_surface_cb_run w0 c verts tris V T Hc0) as Hcb.
  cbv zeta in Hcb. rewrite (bind_returns _ _ _ _ _ Hcb). clear Hcb. mrun.
  eexists _, _, _. split; [reflexivity|]. split; [reflexivity|]. split; [done|].
  cbn [store].
  etrans; [|apply insert_fresh_subseteq].
  etrans; [|apply insert_fresh_subseteq]. apply insert_fresh_subseteq.
Qed.

(** X10. From any state of the volume (no cache, a dirty cache, a valid
    cache) the three read accessors return: the null cache pointer is
    never read through.  Apart from what validation releases they free
    and change no object of the store, and they leave a cache that exists
    and is not dirty; only the wireframe accessor in mode none leaves the
    volume exactly as it was. *)
Theorem accessors_return_and_only_add (w : World) (g : VolumeGridData) :
  (exists r w' c',
     DRW_volume_batch_cache_get_grid g w = Returns r w' /\
     batch_cache w' = Some c' /\ is_dirty c' = false /\
     store (validated w) ⊆ store w') /\
  (exists r w',
     DRW_volume_batch_cache_get_wireframes_face w = Returns r w' /\
     (wireframe_type w = VOLUME_WIREFRAME_NONE /\ w' = w \/
      wireframe_type w <> VOLUME_WIREFRAME_NONE /\
      exists c', batch_cache w' = Some c' /\ is_dirty c' = false /\
                 store (validated w) ⊆ store w')) /\
  (exists r w' c',
     DRW_volume_batch_cache_get_selection_surface w = Returns r w' /\
     batch_cache w' = Some c' /\ is_dirty c' = false /\
     store (validated w) ⊆ store w').
Proof.
  split; [|split; [apply get_wireframes_effect|apply get_selection_surface_effect]].
  destruct (validated_cache w) as (c & Hc & Hd).
  destruct (volume_grid_cache_get_effect (validated w) c g Hc)
    as (i & e & gs & w' & Hrun & Hc' & He & _ & Hcase).
  assert (Hl : cache_grids w' !! i = Some e).
  { unfold cache_grids. by rewrite Hc'. }
  eexists _, w', _. split; [by apply (get_grid_run _ _ _ _ _ Hrun Hl)|].
  split; [exact Hc'|]. split; [done|].
  destruct Hcase as [[_ ->] | (_ & _ & _ & _ & _ & [[_ ->] | (t & tex & _ & Ht & ->)])];
    [done|done|by apply insert_subseteq].
Qed.

Lemma volume_grid_cache_get_miss_log w c g :
  batch_cache w = Some c ->
  find_grid (get_name g) (grids c) = None ->
  exists i w' l,
    volume_grid_cache_get g w = Returns i w' /\
    log w' = log w ++ EvVolumeLoad :: l.
Proof.
  intros Hc Hf.
  destruct (decide (get_channels_num g = 1 ∨ get_channels_num g = 3)) as [Hch|Hch].
  2:{ eexists _, _, _.
      split; [by eapply volume_grid_cache_get_unsupported|reflexivity]. }
  destruct (volume_grid_dense_floats g) as [[[res data] mat]|] eqn:Hd.
  2:{ eexists _, _, _.
      split; [by eapply volume_grid_cache_get_no_dense|reflexivity]. }
  destruct (gpu_texture_3d_fits res (format_of (get_channels_num g))) eqn:Hfit.
  - eexists _, _, _.
    split; [by eapply volume_grid_cache_get_texture_created|reflexivity].
  - eexists _, _, _.
    split; [by eapply volume_grid_cache_get_texture_failed|reflexivity].
Qed.

Lemma cleared_store_other c s h :
  h ∉ cache_handles c ->
  h ∉ cache_owned_buffers s c ->
  cleared_store c s !! h = s !! h.
Proof.
  unfold cache_handles, cache_owned_buffers, cleared_store.
  rewrite !not_elem_of_app. intros (Ht & Hv & Hb & Hs) (Hob & Hos).
  set (s2 := release (option_list (face_wire_pos_nor_in_order c))
               (release (omap texture (grids c)) s)).
  assert (Hsub : s2 ⊆ s) by (etrans; apply release_subseteq).
  assert (Hsub3 : discarded (face_wire_batch c) s2 ⊆ s).
  { etrans; [apply discarded_subseteq|done]. }
  rewrite discarded_lookup_ne.
  - rewrite discarded_lookup_ne.
    + unfold s2. by rewrite !release_lookup_ne.
    + intros Heq. rewrite Heq in Hb. apply Hb. by apply list_elem_of_singleton.
    + by apply owned_by_subseteq with s.
  - intros Heq. rewrite Heq in Hs. apply Hs. by apply list_elem_of_singleton.
  - by apply owned_by_subseteq with s.
Qed.

(** X11. Invalidation is lazy.  The dirty tag itself releases nothing and
    calls nothing: it only sets the flag.  The release happens at the
    next accessor: a lookup after the tag, even of a grid that was
    cached, first releases what the cache held (every object of the cache
    is gone from the store [s] it starts from, the buffers the batches
    own too when all these are distinct objects, and every other object
    is kept), then starts from an empty cache, loads the volume again and
    leaves a cache whose only entry is the one it has just made; the
    store it leaves is [s], with the texture of that entry when it has
    one. *)
Theorem dirty_tag_defers_release (w : World) (c : VolumeBatchCache)
    (g : VolumeGridData) :
  batch_cache w = Some c ->
  exists w1,
    DRW_volume_batch_cache_dirty_tag BKE_VOLUME_BATCH_DIRTY_ALL w = Returns tt w1 /\
    store w1 = store w /\
    log w1 = log w /\
    batch_cache w1 = Some (with_is_dirty true c) /\
    exists r e l s w2,
      DRW_volume_batch_cache_get_grid g w1 = Returns r w2 /\
      cache_grids w2 = [e] /\
      name e = BLI_strdup (get_name g) /\
      log w2 = log w ++ EvVolumeLoad :: l /\
      (forall h, h ∈ cache_handles c -> s !! h = None) /\
      (NoDup (cache_handles c ++ cache_owned_buffers (store w) c) ->
       forall h, h ∈ cache_owned_buffers (store w) c -> s !! h = None) /\
      (forall h, h ∉ cache_handles c -> h ∉ cache_owned_buffers (store w) c ->
                 s !! h = store w !! h) /\
      (texture e = None /\ store w2 = s
       \/ exists t tex, texture e = Some t /\ s !! t = None /\
                        store w2 = <[t := ObjTexture tex]> s).
Proof.
  intros Hc. rewrite dirty_tag_run, Hc, decide_True by done.
  eexists. split; [reflexivity|]. do 3 (split; [done|]).
  set (w1 := set_batch_cache (Some (with_is_dirty true c)) w).
  assert (Hv : batch_cache (validated w1) = Some zeroed_cache).
  { unfold validated. by cbn. }
  assert (Hs : store (validated w1) = cleared_store c (store w)).
  { unfold validated. by cbn. }
  assert (Hf : find_grid (get_name g) (grids zeroed_cache) = None) by done.
  destruct (volume_grid_cache_get_miss_log (validated w1) zeroed_cache g Hv Hf)
    as (i & w2 & l & Hrun & Hlog).
  destruct (volume_grid_cache_get_cases (validated w1) zeroed_cache g Hv)
    as [(i0 & Hf0 & _) | (_ & e & w2' & Hrun' & Hc2 & Hn & _)];
    [by rewrite Hf in Hf0|].
  rewrite Hrun in Hrun'. injection Hrun' as Hi Hw. subst i w2'.
  destruct (volume_grid_cache_get_effect (validated w1) zeroed_cache g Hv)
    as (i' & e' & gs & w2' & Hrun' & Hc2' & He & _ & Hcase).
  rewrite Hrun in Hrun'. injection Hrun' as Hi Hw. subst i' w2'.
  assert (Hgs : gs = [e] /\ e' = e).
  { rewrite Hc2 in Hc2'. injection Hc2' as Hgs. cbn in Hgs. subst gs.
    cbn in He. by injection He as ->. }
  destruct Hgs as [-> ->].
  assert (Hl : cache_grids w2 !! length (grids zeroed_cache) = Some e).
  { unfold cache_grids. by rewrite Hc2. }
  eexists _, e, l, (cleared_store c (store w)), w2.
  split; [by apply (get_grid_run _ _ _ _ _ Hrun Hl)|].
  split; [unfold cache_grids; by rewrite Hc2|]. split; [done|].
  split; [by rewrite Hlog, validated_log|].
  split; [intros h; apply cleared_store_handles|].
  split; [intros Hnd h; by apply cleared_store_owned_buffers|].
  split; [intros h; apply cleared_store_other|].
  rewrite <- Hs.
  destruct Hcase as [[Hgs _] | (_ & _ & _ & _ & _ & Hst)].
  { exfalso. cbn in Hgs. discriminate Hgs. }
  exact Hst.
Qed.

(** ** The cache owns its objects *)

(** Clearing a cache that owns its objects gives back the store the
    volume started with. *)
Lemma owner_cleared_store s0 w c :
  owns_its_objects s0 w ->
  batch_cache w = Some c ->
  cleared_store c (store w) = s0.
Proof.
  intros (Hnd & Hlive & Hother & _) Hc. unfold held in *. rewrite Hc in *.
  apply map_eq. intros h.
  destruct (decide (h ∈ cache_handles c ++ cache_owned_buffers (store w) c))
    as [Hin|Hn].
  - destruct (Hlive h Hin) as [-> _].
    apply elem_of_app in Hin as [Hin|Hin].
    + by apply cleared_store_handles.
    + by apply cleared_store_owned_buffers.
  - rewrite <- (Hother h Hn). apply not_elem_of_app in Hn as [??].
    by apply cleared_store_other.
Qed.

Lemma owns_nothing s0 w c :
  batch_cache w = Some c ->
  cache_handles c = [] ->
  store w = s0 ->
  owns_its_objects s0 w.
Proof.
  intros Hc Hh Hs. unfold owns_its_objects, held, cached_face_wire_batch,
    cached_pos_nor_in_order. rewrite Hc, Hh.
  unfold cache_handles in Hh.
  apply app_eq_nil in Hh as (_ & Hh). apply app_eq_nil in Hh as (Hv & Hh).
  apply app_eq_nil in Hh as (Hb & Hsel).
  assert (face_wire_batch c = None) as Hb' by by destruct (face_wire_batch c).
  assert (selection_surface c = None) as Hs' by by destruct (selection_surface c).
  assert (face_wire_pos_nor_in_order c = None) as Hv'
    by by destruct (face_wire_pos_nor_in_order c).
  unfold cache_owned_buffers. rewrite Hb', Hs'. cbn.
  split; [constructor|]. split; [by intros h ?%elem_of_nil|].
  split; [intros; by subst|done].
Qed.

Lemma owns_without_cache s0 w :
  batch_cache w = None -> store w = s0 -> owns_its_objects s0 w.
Proof.
  intros Hc Hs. unfold owns_its_objects, held, cached_face_wire_batch,
    cached_pos_nor_in_order. rewrite Hc.
  split; [constructor|]. split; [by intros h ?%elem_of_nil|].
  split; [intros; by subst|done].
Qed.

Lemma owns_validated s0 w : owns_its_objects s0 w -> owns_its_objects s0 (validated w).
Proof.
  intros Hown. unfold validated.
  destruct (batch_cache w) as [c|] eqn:Hc.
  - destruct (is_dirty c); [|done].
    apply owns_nothing with zeroed_cache; [done|done|].
    cbn [set_batch_cache set_store store]. by apply owner_cleared_store.
  - apply owns_nothing with zeroed_cache; [done|done|].
    cbn [set_batch_cache store].
    destruct Hown as (_ & _ & Hother & _). unfold held in Hother. rewrite Hc in Hother.
    apply map_eq. intros h. apply Hother, not_elem_of_nil.
Qed.

(** Adding new objects to a cache that owns its objects. *)
Lemma owns_extend s0 w w' news :
  owns_its_objects s0 w ->
  held w' ≡ₚ news ++ held w ->
  NoDup news ->
  (forall h, h ∈ news -> store w !! h = None /\ is_Some (store w' !! h)) ->
  (forall h, h ∉ news -> store w' !! h = store w !! h) ->
  (cached_face_wire_batch w' = None -> cached_pos_nor_in_order w' = None) ->
  owns_its_objects s0 w'.
Proof.
  intros (Hnd & Hlive & Hother & _) Hperm Hnews Hfresh Hsame Hwire.
  assert (Hdis : forall h, h ∈ news -> h ∉ held w).
  { intros h Hn Hh. destruct (Hfresh h Hn) as [Hnone _].
    destruct (Hlive h Hh) as [_ [o Ho]]. congruence. }
  split; [|split; [|split; [|done]]].
  - rewrite Hperm. apply NoDup_app. by repeat split.
  - intros h Hh. rewrite Hperm in Hh. apply elem_of_app in Hh as [Hh|Hh].
    + destruct (Hfresh h Hh) as [Hnone Hsome]. split; [|done].
      rewrite <- (Hother h (Hdis h Hh)). done.
    + destruct (Hlive h Hh) as [Hs0 Hsome]. split; [done|].
      rewrite Hsame; [done|]. intros Hn. by apply (Hdis h Hn).
  - intros h Hh. rewrite Hperm in Hh. apply not_elem_of_app in Hh as [Hn Hh].
    rewrite Hsame by done. by apply Hother.
Qed.

Lemma owned_by_ext s s' b :
  (forall h, b = Some h -> s' !! h = s !! h) ->
  owned_by s' b = owned_by s b.
Proof.
  intros H. destruct b as [h|]; [|done]. simpl. by rewrite (H h eq_refl).
Qed.

Lemma held_live s0 w c h :
  owns_its_objects s0 w ->
  batch_cache w = Some c ->
  h ∈ cache_handles c ->
  is_Some (store w !! h).
Proof.
  intros (_ & Hlive & _) Hc Hh. apply Hlive. unfold held. rewrite Hc.
  apply elem_of_app. by left.
Qed.

Lemma owns_volume_grid_cache_get s0 w c g i w' :
  owns_its_objects s0 w ->
  batch_cache w = Some c ->
  volume_grid_cache_get g w = Returns i w' ->
  owns_its_objects s0 w'.
Proof.
  intros Hown Hc Hrun.
  destruct (volume_grid_cache_get_effect w c g Hc)
    as (i' & e & gs & w2 & Hrun' & Hc' & He & _ & Hcase).
  rewrite Hrun in Hrun'. simplify_eq.
  destruct Hcase as [[_ ->] | (-> & _ & _ & _ & _ & Hstore)]; [done|].
  assert (Hwire : cached_face_wire_batch w2 = None ->
                  cached_pos_nor_in_order w2 = None).
  { destruct Hown as (_ & _ & _ & Hw).
    unfold cached_face_wire_batch, cached_pos_nor_in_order in *.
    by rewrite Hc, Hc' in *. }
  assert (Hbatch : forall b, b = face_wire_batch c \/ b = selection_surface c ->
            forall h, b = Some h -> is_Some (store w !! h)).
  { intros b Hb h ->. apply (held_live s0 w c); [done|done|].
    unfold cache_handles. rewrite !elem_of_app.
    destruct Hb as [<- | <-]; cbn; rewrite list_elem_of_singleton; auto. }
  destruct Hstore as [[Htex Hs] | (t & tex & Htex & Ht & Hs)].
  - apply (owns_extend s0 w w2 []); [done| |constructor| | |done].
    + unfold held. rewrite Hc, Hc'. rewrite Hs.
      unfold cache_handles. cbn [with_grids grids face_wire_pos_nor_in_order
        face_wire_batch selection_surface cache_owned_buffers].
      rewrite omap_app. cbn. rewrite Htex. cbn. by rewrite app_nil_r.
    + by intros h ?%elem_of_nil.
    + intros h _. by rewrite Hs.
  - assert (Hob : forall b, b = face_wire_batch c \/ b = selection_surface c ->
              owned_by (store w2) b = owned_by (store w) b).
    { intros b Hb. apply owned_by_ext. intros h Hh. rewrite Hs.
      destruct (Hbatch b Hb h Hh) as [o Ho].
      rewrite lookup_insert_ne; [done|]. intros ->. congruence. }
    apply (owns_extend s0 w w2 [t]); [done| |apply NoDup_singleton| | |done].
    + unfold held. rewrite Hc, Hc'.
      unfold cache_handles, cache_owned_buffers.
      cbn [with_grids grids face_wire_pos_nor_in_order
        face_wire_batch selection_surface].
      rewrite !Hob by auto. rewrite omap_app. cbn. rewrite Htex. cbn.
      solve_Permutation.
    + intros h ->%list_elem_of_singleton. split; [done|].
      rewrite Hs, lookup_insert_eq. by eexists.
    + intros h Hh. rewrite Hs. apply lookup_insert_ne.
      intros ->. apply Hh. by apply list_elem_of_singleton.
Qed.

Lemma owns_set_log s0 w l :
  owns_its_objects s0 w -> owns_its_objects s0 (set_log l w).
Proof. done. Qed.

Ltac solve_NoDup :=
  repeat (apply NoDup_cons_2;
          [rewrite ?not_elem_of_cons; repeat split;
           first [done | congruence | apply not_elem_of_nil]|]);
  apply NoDup_nil_2.

Lemma owns_get_wireframes s0 w r w' :
  owns_its_objects s0 w ->
  DRW_volume_batch_cache_get_wireframes_face w = Returns r w' ->
  owns_its_objects s0 w'.
Proof.
  intros Hown Hrun.
  destruct (decide (wireframe_type w = VOLUME_WIREFRAME_NONE)) as [Hn|Hn].
  { revert Hrun. unfold DRW_volume_batch_cache_get_wireframes_face.
    rewrite bind_run. unfold get_world at 1. cbv beta iota.
    destruct (decide (wireframe_type w = VOLUME_WIREFRAME_NONE)); [|done].
    mrun. intros ?. by simplify_eq. }
  apply owns_validated in Hown.
  destruct (validated_cache w) as (c & Hc & Hd).
  revert Hrun. unfold DRW_volume_batch_cache_get_wireframes_face.
  rewrite bind_run. unfold get_world at 1. cbv beta iota.
  destruct (decide (wireframe_type w = VOLUME_WIREFRAME_NONE)); [done|].
  rewrite (bind_returns _ _ _ _ _ (volume_batch_cache_get_run w c Hc)).
  destruct (face_wire_batch c) as [b|] eqn:Hb; [mrun; intros ?; by simplify_eq|].
  rewrite bind_run. unfold emit at 1, modify at 1.
  destruct volume_grid_active as [g|] eqn:Ha; [|mrun; intros ?; by simplify_eq].
  rewrite bind_run. unfold emit at 1, modify at 1.
  destruct (volume_grid_wireframe (wireframe_type w) g) as [[[verts edges] V] E].
  set (w0 := set_log _ (set_log _ (validated w))).
  assert (Hc0 : batch_cache w0 = Some c) by done.
  assert (Hown0 : owns_its_objects s0 w0) by done.
  assert (Hv : face_wire_pos_nor_in_order c = None).
  { destruct Hown0 as (_ & _ & _ & Hw).
    unfold cached_face_wire_batch, cached_pos_nor_in_order in Hw.
    rewrite Hc0 in Hw. by apply Hw. }
  assert (Hsel : forall h, selection_surface c = Some h -> is_Some (store w0 !! h)).
  { intros h Hh. apply (held_live s0 w0 c); [done|done|].
    unfold cache_handles. rewrite !elem_of_app, Hh. cbn.
    rewrite list_elem_of_singleton. auto. }
  set (vbo := fresh (dom (store w0))).
  set (s1 := <[vbo := ObjVertBuf (wire_vertbuf (do_hq_normals w0) verts V)]> (store w0)).
  set (wd := fresh (dom s1)).
  set (s2 := <[wd := ObjVertBuf (wiredata_vertbuf V)]> s1).
  assert (wd <> vbo) by (unfold wd, s1; solve_fresh_ne).
  assert (Hvbo : store w0 !! vbo = None) by apply fresh_lookup.
  assert (Hwd : store w0 !! wd = None).
  { pose proof (fresh_lookup s1) as Hl. fold wd in Hl. unfold s1 in Hl.
    by rewrite lookup_insert_ne in Hl. }
  destruct (decide (wireframe_type w0 = VOLUME_WIREFRAME_POINTS)) as [Hp|Hp].
  - pose proof (drw_volume_wireframe_cb_points w0 c verts edges V E Hc0 Hp) as Hcb.
    cbv zeta in Hcb. rewrite (bind_returns _ _ _ _ _ Hcb). clear Hcb.
    fold vbo s1 wd s2. set (batch := fresh (dom s2)).
    assert (batch <> wd) by (unfold batch, s2; solve_fresh_ne).
    assert (batch <> vbo) by (unfold batch, s2, s1; solve_fresh_ne).
    assert (Hbatch : store w0 !! batch = None).
    { pose proof (fresh_lookup s2) as Hl. fold batch in Hl. unfold s2, s1 in Hl.
      by rewrite !lookup_insert_ne in Hl. }
    mrun. intros Hrun; injection Hrun as Hr Hw'; subst r w'.
    apply (owns_extend s0 w0 _ [vbo; batch; wd]); [done| | | | |done].
    + unfold held. cbn [batch_cache store]. rewrite Hc0.
      unfold cache_handles, cache_owned_buffers.
      cbn [grids face_wire_pos_nor_in_order face_wire_batch selection_surface].
      rewrite Hb, Hv.
      assert (Hos : owned_by (<[batch := ObjBatch
                      {| batch_prim_type := GPU_PRIM_POINTS;
                         batch_verts := [(vbo, false); (wd, true)];
                         batch_elem := None; batch_owns_index := false |}]> s2)
                      (selection_surface c)
                    = owned_by (store w0) (selection_surface c)).
      { apply owned_by_ext. intros h Hh. destruct (Hsel h Hh) as [o Ho].
        unfold s2, s1. rewrite !lookup_insert_ne; [done|..]; intros ->; congruence. }
      rewrite Hos. cbn [owned_by]. rewrite lookup_insert_eq. cbn.
      solve_Permutation.
    + solve_NoDup.
    + intros h Hh. cbn [store].
      repeat (apply elem_of_cons in Hh as [->|Hh]); [..|by apply elem_of_nil in Hh];
        (split; [done|]); unfold s2, s1;
        rewrite ?lookup_insert_eq, ?lookup_insert_ne, ?lookup_insert_eq by done;
        by eexists.
    + intros h Hh. cbn [store]. unfold s2, s1.
      rewrite !lookup_insert_ne; [done|..]; intros ->; apply Hh; set_solver.
  - pose proof (drw_volume_wireframe_cb_lines w0 c verts edges V E Hc0 Hp) as Hcb.
    cbv zeta in Hcb. rewrite (bind_returns _ _ _ _ _ Hcb). clear Hcb.
    fold vbo s1 wd s2. set (ibo := fresh (dom s2)).
    set (s3 := <[ibo := ObjIndexBuf (lines_indexbuf edges E V)]> s2).
    set (batch := fresh (dom s3)).
    assert (batch <> ibo) by (unfold batch, s3; solve_fresh_ne).
    assert (batch <> wd) by (unfold batch, s3, s2; solve_fresh_ne).
    assert (batch <> vbo) by (unfold batch, s3, s2, s1; solve_fresh_ne).
    assert (ibo <> wd) by (unfold ibo, s2; solve_fresh_ne).
    assert (ibo <> vbo) by (unfold ibo, s2, s1; solve_fresh_ne).
    assert (Hibo : store w0 !! ibo = None).
    { pose proof (fresh_lookup s2) as Hl. fold ibo in Hl. unfold s2, s1 in Hl.
      by rewrite !lookup_insert_ne in Hl. }
    assert (Hbatch : store w0 !! batch = None).
    { pose proof (fresh_lookup s3) as Hl. fold batch in Hl. unfold s3, s2, s1 in Hl.
      by rewrite !lookup_insert_ne in Hl. }
    mrun. intros Hrun; injection Hrun as Hr Hw'; subst r w'.
    apply (owns_extend s0 w0 _ [vbo; batch; ibo; wd]); [done| | | | |done].
    + unfold held. cbn [batch_cache store]. rewrite Hc0.
      unfold cache_handles, cache_owned_buffers.
      cbn [grids face_wire_pos_nor_in_order face_wire_batch selection_surface].
      rewrite Hb, Hv.
      assert (Hos : owned_by (<[batch := ObjBatch
                      {| batch_prim_type := GPU_PRIM_LINES;
                         batch_verts := [(vbo, false); (wd, true)];
                         batch_elem := Some ibo; batch_owns_index := true |}]> s3)
                      (selection_surface c)
                    = owned_by (store w0) (selection_surface c)).
      { apply owned_by_ext. intros h Hh. destruct (Hsel h Hh) as [o Ho].
        unfold s3, s2, s1.
        rewrite !lookup_insert_ne; [done|..]; intros ->; congruence. }
      rewrite Hos. cbn [owned_by]. rewrite lookup_insert_eq. cbn.
      solve_Permutation.
    + solve_NoDup.
    + intros h Hh. cbn [store].
      repeat (apply elem_of_cons in Hh as [->|Hh]); [..|by apply elem_of_nil in Hh];
        (split; [done|]); unfold s3, s2, s1;
        rewrite ?lookup_insert_eq, ?lookup_insert_ne, ?lookup_insert_eq,
          ?lookup_insert_ne, ?lookup_insert_eq by done;
        by eexists.
    + intros h Hh. cbn [store]. unfold s3, s2, s1.
      rewrite !lookup_insert_ne; [done|..]; intros ->; apply Hh; set_solver.
Qed.

Lemma owns_get_selection_surface s0 w r w' :
  owns_its_objects s0 w ->
  DRW_volume_batch_cache_get_selection_surface w = Returns r w' ->
  owns_its_objects s0 w'.
Proof.
  intros Hown Hrun.
  apply owns_validated in Hown.
  destruct (validated_cache w) as (c & Hc & Hd).
  revert Hrun. unfold DRW_volume_batch_cache_get_selection_surface.
  rewrite (bind_returns _ _ _ _ _ (volume_batch_cache_get_run w c Hc)).
  destruct (selection_surface c) as [b|] eqn:Hb;
    [mrun; intros Hrun; injection Hrun as Hr Hw'; by subst r w'|].
  rewrite bind_run. unfold emit at 1, modify at 1.
  destruct volume_grid_active as [g|] eqn:Ha;
    [|mrun; intros Hrun; injection Hrun as Hr Hw'; by subst r w'].
  rewrite bind_run. unfold emit at 1, modify at 1.
  destruct (volume_grid_selection_surface g) as [[[verts tris] V] T].
  set (w0 := set_log _ (set_log _ (validated w))).
  assert (Hc0 : batch_cache w0 = Some c) by done.
  assert (Hown0 : owns_its_objects s0 w0) by done.
  assert (Hwire : forall h, face_wire_batch c = Some h -> is_Some (store w0 !! h)).
  { intros h Hh. apply (held_live s0 w0 c); [done|done|].
    unfold cache_handles. rewrite !elem_of_app, Hh. cbn.
    rewrite list_elem_of_singleton. auto. }
  pose proof (drw_volume_selection_surface_cb_run w0 c verts tris V T Hc0) as Hcb.
  cbv zeta in Hcb. rewrite (bind_returns _ _ _ _ _ Hcb). clear Hcb.
  set (vbo := fresh (dom (store w0))).
  set (s1 := <[vbo := ObjVertBuf (selection_vertbuf verts V)]> (store w0)).
  set (ibo := fresh (dom s1)).
  set (s2 := <[ibo := ObjIndexBuf (tris_indexbuf tris T V)]> s1).
  set (batch := fresh (dom s2)).
  assert (ibo <> vbo) by (unfold ibo, s1; solve_fresh_ne).
  assert (batch <> ibo) by (unfold batch, s2; solve_fresh_ne).
  assert (batch <> vbo) by (unfold batch, s2, s1; solve_fresh_ne).
  assert (Hvbo : store w0 !! vbo = None) by apply fresh_lookup.
  assert (Hibo : store w0 !! ibo = None).
  { pose proof (fresh_lookup s1) as Hl. fold ibo in Hl. unfold s1 in Hl.
    by rewrite lookup_insert_ne in Hl. }
  assert (Hbatch : store w0 !! batch = None).
  { pose proof (fresh_lookup s2) as Hl. fold batch in Hl. unfold s2, s1 in Hl.
    by rewrite !lookup_insert_ne in Hl. }
  mrun. intros Hrun; injection Hrun as Hr Hw'; subst r w'.
  apply (owns_extend s0 w0 _ [batch; ibo; vbo]).
  - done.
  - unfold held. cbn [batch_cache store]. rewrite Hc0.
    unfold cache_handles, cache_owned_buffers.
    cbn [grids face_wire_pos_nor_in_order face_wire_batch selection_surface].
    rewrite Hb.
    assert (Hos : owned_by (<[batch := ObjBatch
                    {| batch_prim_type := GPU_PRIM_TRIS;
                       batch_verts := [(vbo, true)];
                       batch_elem := Some ibo; batch_owns_index := true |}]> s2)
                    (face_wire_batch c)
                  = owned_by (store w0) (face_wire_batch c)).
    { apply owned_by_ext. intros h Hh. destruct (Hwire h Hh) as [o Ho].
      unfold s2, s1. rewrite !lookup_insert_ne; [done|..]; intros ->; congruence. }
    rewrite Hos. cbn [owned_by]. rewrite lookup_insert_eq. cbn.
    solve_Permutation.
  - solve_NoDup.
  - intros h Hh. cbn [store].
    repeat (apply elem_of_cons in Hh as [->|Hh]); [..|by apply elem_of_nil in Hh];
      (split; [done|]); unfold s2, s1;
      rewrite ?lookup_insert_eq, ?lookup_insert_ne, ?lookup_insert_eq,
        ?lookup_insert_ne, ?lookup_insert_eq by done;
      by eexists.
  - intros h Hh. cbn [store]. unfold s2, s1.
    rewrite !elem_of_cons, elem_of_nil in Hh.
    rewrite !lookup_insert_ne; [done|..]; intros ->; tauto.
  - destruct Hown0 as (_ & _ & _ & Hw).
    unfold cached_face_wire_batch, cached_pos_nor_in_order in *.
    by rewrite Hc0 in Hw.
Qed.

Lemma owns_free s0 w w' :
  owns_its_objects s0 w ->
  DRW_volume_batch_cache_free w = Returns tt w' ->
  batch_cache w' = None /\ store w' = s0.
Proof.
  intros Hown. unfold DRW_volume_batch_cache_free.
  destruct (batch_cache w) as [c|] eqn:Hc.
  - rewrite (bind_returns _ _ _ _ _ (volume_batch_cache_clear_run w c Hc)).
    mrun. intros Hrun; injection Hrun as Hw'; subst w'.
    split; [done|]. cbn [store]. by apply owner_cleared_store.
  - unfold volume_batch_cache_clear. rewrite !bind_run. unfold get_world at 1.
    rewrite Hc. mrun. intros Hrun; injection Hrun as Hw'; subst w'.
    split; [done|]. cbn [store].
    destruct Hown as (_ & _ & Hother & _). unfold held in Hother. rewrite Hc in Hother.
    apply map_eq. intros h. apply Hother, not_elem_of_nil.
Qed.

Lemma owns_step s0 w w' :
  owns_its_objects s0 w -> step w w' -> owns_its_objects s0 w'.
Proof.
  intros Hown Hstep. destruct Hstep as
    [w w' Hrun | mode w w' Hrun | w w' Hrun | g r w w' Hrun
    | r w w' Hrun | r w w' Hrun | wt pf w].
  - rewrite validate_run in Hrun. injection Hrun as Hw'; subst w'.
    by apply owns_validated.
  - rewrite dirty_tag_run in Hrun.
    destruct (batch_cache w) as [c|] eqn:Hc.
    + destruct (decide (mode = BKE_VOLUME_BATCH_DIRTY_ALL)); [|done].
      injection Hrun as Hw'; subst w'.
      destruct Hown as (Hnd & Hlive & Hoth & Hwire).
      unfold owns_its_objects, held, cached_face_wire_batch,
        cached_pos_nor_in_order in *.
      cbn [set_batch_cache batch_cache store] in *. rewrite Hc in *.
      by destruct c.
    + injection Hrun as Hw'; by subst w'.
  - destruct (owns_free s0 w w' Hown Hrun) as [Hn Hs].
    by apply owns_without_cache.
  - apply owns_validated in Hown.
    destruct (validated_cache w) as (c & Hc & Hd).
    revert Hrun. unfold DRW_volume_batch_cache_get_grid.
    rewrite (bind_returns _ _ _ _ _ (volume_batch_cache_get_run w c Hc)).
    destruct (volume_grid_cache_get_effect (validated w) c g Hc)
      as (i & e & gs & w2 & Hg & Hc2 & He & _).
    rewrite (bind_returns _ _ _ _ _ Hg).
    unfold deref_grid, get_cache. mrun. rewrite Hc2. cbn [grids with_grids].
    rewrite He. intros Hrun; injection Hrun as Hr Hw'; subst r w'.
    by apply (owns_volume_grid_cache_get s0 (validated w) c g i).
  - by apply (owns_get_wireframes s0 w r).
  - by apply (owns_get_selection_surface s0 w r).
  - done.
Qed.

Lemma owns_rtc w0 w :
  batch_cache w0 = None -> rtc step w0 w -> owns_its_objects (store w0) w.
Proof.
  intros Hc Hsteps.
  assert (Hinit : owns_its_objects (store w0) w0) by by apply owns_without_cache.
  clear Hc. revert Hinit. generalize (store w0) as s0. intros s0.
  induction Hsteps as [w|w w1 w2 Hstep _ IH]; [done|].
  intros Hown. by apply IH, owns_step with w.
Qed.

(** X12. The cache owns its objects.  After any sequence of calls of the
    module (validate, dirty tag, free, the three accessors) and display
    edits on a volume that started without a cache, the objects the cache
    holds (the grid textures, the wireframe vertex buffer, the two batches
    and the buffers the batches own) are pairwise distinct, are all live,
    and none of them was in the store the volume started with; every handle
    the cache does not hold points to what it pointed to at the start; and
    a cache without wireframe batch has no wireframe vertex buffer. *)
Theorem cache_owns_its_objects w0 w :
  batch_cache w0 = None ->
  rtc step w0 w ->
  NoDup (held w) /\
  (forall h, h ∈ held w -> store w0 !! h = None /\ is_Some (store w !! h)) /\
  (forall h, h ∉ held w -> store w !! h = store w0 !! h) /\
  (cached_face_wire_batch w = None -> cached_pos_nor_in_order w = None).
Proof. apply owns_rtc. Qed.

(** X13. Nothing leaks and nothing foreign is freed.  After any sequence
    of calls and display edits on a volume that started without a cache,
    [DRW_volume_batch_cache_free] returns, leaves the volume without a
    cache and leaves the store exactly as it was at the start; and if the
    cache is dirty, [DRW_volume_batch_cache_validate] leaves the store as
    it was at the start under an empty, clean cache. *)
Theorem free_restores_initial_store w0 w :
  batch_cache w0 = None ->
  rtc step w0 w ->
  (exists w', DRW_volume_batch_cache_free w = Returns tt w' /\
              batch_cache w' = None /\ store w' = store w0) /\
  (forall c, batch_cache w = Some c -> is_dirty c = true ->
     exists w', DRW_volume_batch_cache_validate w = Returns tt w' /\
                batch_cache w' = Some zeroed_cache /\ store w' = store w0).
Proof.
  intros Hc Hsteps. pose proof (owns_rtc w0 w Hc Hsteps) as Hown. split.
  - destruct (free_run w) as (w' & Hrun & _). exists w'. split; [done|].
    by apply owns_free with w.
  - intros c Hcw Hd. exists (validated w). split; [apply validate_run|].
    unfold validated. rewrite Hcw, Hd. split; [done|].
    cbn [set_batch_cache set_store store]. by apply owner_cleared_store.
Qed.

(** X14. The three cached products are independent.  The selection
    accessor returns the selection batch of the cache it leaves and
    leaves the grid entries, the wireframe batch and the wireframe vertex
    buffer of the validated cache as they are; the wireframe accessor, in
    a mode other than none, returns the wireframe batch of the cache it
    leaves and leaves the grid entries and the selection batch as they
    are. *)
Theorem builders_keep_other_products (w : World) :
  (exists r w',
     DRW_volume_batch_cache_get_selection_surface w = Returns r w' /\
     r = cached_selection_surface w' /\
     cache_grids w' = cache_grids (validated w) /\
     cached_face_wire_batch w' = cached_face_wire_batch (validated w) /\
     cached_pos_nor_in_order w' = cached_pos_nor_in_order (validated w)) /\
  (wireframe_type w <> VOLUME_WIREFRAME_NONE ->
   exists r w',
     DRW_volume_batch_cache_get_wireframes_face w = Returns r w' /\
     r = cached_face_wire_batch w' /\
     cache_grids w' = cache_grids (validated w) /\
     cached_selection_surface w' = cached_selection_surface (validated w)).
Proof.
  destruct (validated_cache w) as (c & Hc & Hd).
  unfold cached_selection_surface, cached_face_wire_batch,
    cached_pos_nor_in_order, cache_grids. rewrite Hc. split.
  - destruct (selection_surface c) as [b|] eqn:Hb.
    { exists (Some b), (validated w). rewrite Hc, Hb. split; [|done].
      unfold DRW_volume_batch_cache_get_selection_surface.
      rewrite (bind_returns _ _ _ _ _ (volume_batch_cache_get_run w c Hc)).
      by rewrite Hb. }
    destruct volume_grid_active as [g|] eqn:Ha.
    2:{ exists None, (set_log (log (validated w) ++ [EvActiveGridGet]) (validated w)).
        cbn [set_log batch_cache]. rewrite Hc, Hb. split; [|done].
        unfold DRW_volume_batch_cache_get_selection_surface.
        rewrite (bind_returns _ _ _ _ _ (volume_batch_cache_get_run w c Hc)).
        rewrite Hb, Ha. mrun. reflexivity. }
    destruct (volume_grid_selection_surface g) as [[[verts tris] V] T] eqn:Hg.
    rewrite (get_selection_surface_build w c g verts tris V T Hc Hb Ha Hg).
    set (w0 := set_log _ (validated w)).
    assert (Hc0 : batch_cache w0 = Some c) by done.
    pose proof (drw_volume_selection_surface_cb_run w0 c verts tris V T Hc0) as Hcb.
    cbv zeta in Hcb. rewrite (bind_returns _ _ _ _ _ Hcb). clear Hcb.
    mrun. eexists _, _. split; [reflexivity|]. done.
  - intros Hwt. destruct (face_wire_batch c) as [b|] eqn:Hb.
    { exists (Some b), (validated w). rewrite Hc, Hb. split; [|done].
      unfold DRW_volume_batch_cache_get_wireframes_face.
      rewrite bind_run. unfold get_world at 1. cbv beta iota.
      destruct (decide (wireframe_type w = VOLUME_WIREFRAME_NONE)); [done|].
      rewrite (bind_returns _ _ _ _ _ (volume_batch_cache_get_run w c Hc)).
      by rewrite Hb. }
    destruct volume_grid_active as [g|] eqn:Ha.
    2:{ exists None, (set_log (log (validated w) ++ [EvActiveGridGet]) (validated w)).
        cbn [set_log batch_cache]. rewrite Hc, Hb. split; [|done].
        unfold DRW_volume_batch_cache_get_wireframes_face.
        rewrite bind_run. unfold get_world at 1. cbv beta iota.
        destruct (decide (wireframe_type w = VOLUME_WIREFRAME_NONE)); [done|].
        rewrite (bind_returns _ _ _ _ _ (volume_batch_cache_get_run w c Hc)).
        rewrite Hb, Ha. mrun. reflexivity. }
    destruct (volume_grid_wireframe (wireframe_type w) g)
      as [[[verts edges] V] E] eqn:Hg.
    rewrite (get_wireframes_build w c g verts edges V E Hwt Hc Hb Ha Hg).
    set (w0 := set_log _ (validated w)).
    assert (Hc0 : batch_cache w0 = Some c) by done.
    destruct (decide (wireframe_type w0 = VOLUME_WIREFRAME_POINTS)) as [Hp|Hp].
    + pose proof (drw_volume_wireframe_cb_points w0 c verts edges V E Hc0 Hp) as Hcb.
      cbv zeta in Hcb. rewrite (bind_returns _ _ _ _ _ Hcb). clear Hcb.
      mrun. eexists _, _. split; [reflexivity|]. done.
    + pose proof (drw_volume_wireframe_cb_lines w0 c verts edges V E Hc0 Hp) as Hcb.
      cbv zeta in Hcb. rewrite (bind_returns _ _ _ _ _ Hcb). clear Hcb.
      mrun. eexists _, _. split; [reflexivity|]. done.
Qed.

End Properties.

(** * The properties on the sample backend *)

Section OnDemo.
Import Demo.
#[local] Existing Instance backend.

(** Witness for C2: the volume drawn once and tagged dirty
    holds the texture 8, the vertex buffer 3 and the batches 6 and 2,
    which own the buffers 5, 4, 0 and 1. *)
Lemma validate_dirty_releases_all_witness :
  batch_cache dirty_volume = Some (cache_of dirty_volume) /\
  is_dirty (cache_of dirty_volume) = true /\
  cache_handles (cache_of dirty_volume) = [8; 3; 6; 2] /\
  cache_owned_buffers (store dirty_volume) (cache_of dirty_volume) = [5; 4; 1; 0] /\
  exists w',
    DRW_volume_batch_cache_validate dirty_volume = Returns tt w' /\
    (forall h, h ∈ cache_handles (cache_of dirty_volume) -> store w' !! h = None) /\
    (NoDup (cache_handles (cache_of dirty_volume)
            ++ cache_owned_buffers (store dirty_volume) (cache_of dirty_volume)) ->
     forall h, h ∈ cache_owned_buffers (store dirty_volume) (cache_of dirty_volume) ->
               store w' !! h = None) /\
    store w' ⊆ store dirty_volume /\
    batch_cache w' = Some zeroed_cache /\
    cache_grids w' = [] /\
    volume_batch_cache_valid w' = Returns true w' /\
    log w' = log dirty_volume.
Proof.
  split; [vm_compute; reflexivity|]. split; [vm_compute; reflexivity|].
  split; [vm_compute; reflexivity|]. split; [vm_compute; reflexivity|].
  apply (validate_dirty_releases_all dirty_volume (cache_of dirty_volume));
    vm_compute; reflexivity.
Defined.

(** Against C1 as stated: for the two-channel grid [flags] on a
    volume never drawn, [DRW_volume_batch_cache_get_grid] returns null,
    not the entry; the entry it added, with its null texture, is in the
    cache. *)
Lemma get_grid_null_for_entry_without_texture :
  get_channels_num flags = 2 /\
  DRW_volume_batch_cache_get_grid flags (new_volume VOLUME_WIREFRAME_BOXES)
  = Returns None
      {| batch_cache := Some
           {| grids := [{| name := "flags"; texture := None;
                           texture_to_object := float4x4_zero;
                           object_to_texture := float4x4_zero |}];
              face_wire_pos_nor_in_order := None;
              face_wire_batch := None;
              selection_surface := None;
              is_dirty := false |};
         wireframe_type := VOLUME_WIREFRAME_BOXES;
         perf_flag := 0;
         store := ∅;
         log := [EvVolumeLoad] |}.
Proof. split; vm_compute; reflexivity. Qed.



(** Against C5 as stated: once the one-channel grid [density] has
    its texture, a lookup of the two-channel grid of the same name
    returns that entry, whose texture is the handle 1, not null.  The log
    is the one of the first call. *)
Lemma unsupported_grid_under_cached_name :
  get_channels_num density2 = 2 /\
  get_name density2 = get_name density /\
  (DRW_volume_batch_cache_get_grid density ;;
   DRW_volume_batch_cache_get_grid density2) (new_volume VOLUME_WIREFRAME_BOXES)
  = Returns (Some 0)
      {| batch_cache := Some
           {| grids := [{| name := "density"; texture := Some 1;
                           texture_to_object := unit_diagonal;
                           object_to_texture := unit_diagonal |}];
              face_wire_pos_nor_in_order := None;
              face_wire_batch := None;
              selection_surface := None;
              is_dirty := false |};
         wireframe_type := VOLUME_WIREFRAME_BOXES;
         perf_flag := 0;
         store := {[ 1 := ObjTexture
                      {| tex_name := "volume_grid"; tex_size := (2, 1, 1)%Z;
                         tex_mip_len := 1; tex_format := SFLOAT_16;
                         tex_usage := GPU_TEXTURE_USAGE_SHADER_READ;
                         tex_data := [q 0; q 1];
                         tex_swizzle := "rrr1";
                         tex_extend_mode :=
                           GPU_SAMPLER_EXTEND_MODE_CLAMP_TO_BORDER |} ]};
         log := [EvVolumeLoad; EvDenseFloats density; EvMemFree 0] |}.
Proof. repeat split; vm_compute; reflexivity. Qed.

(** Witness for C5 as amended: the two-channel grid [flags]
    on the volume whose grid [density] was drawn. *)
Lemma unsupported_channels_soft_miss_witness :
  ¬ (get_channels_num flags = 1 ∨ get_channels_num flags = 3) /\
  exists i e w',
    DRW_volume_batch_cache_get_grid flags drawn_volume
    = Returns (match texture e with Some _ => Some i | None => None end) w' /\
    volume_grid_cache_get flags (validated drawn_volume) = Returns i w' /\
    cache_grids w' !! i = Some e /\
    dense_float_calls (log w') = dense_float_calls (log drawn_volume) /\
    store w' = store (validated drawn_volume) /\
    (find_grid (get_name flags) (cache_grids (validated drawn_volume)) = None ->
       name e = BLI_strdup (get_name flags) /\
       texture e = None /\
       DRW_volume_batch_cache_get_grid flags drawn_volume = Returns None w' /\
       cache_grids w' = cache_grids (validated drawn_volume) ++ [e] /\
       log w' = log drawn_volume ++ [EvVolumeLoad]) /\
    (forall j, find_grid (get_name flags) (cache_grids (validated drawn_volume)) = Some j ->
       i = j /\
       cache_grids (validated drawn_volume) !! j = Some e /\
       c_str (name e) = get_name flags /\
       w' = validated drawn_volume /\
       (forall t, texture e = Some t ->
          DRW_volume_batch_cache_get_grid flags drawn_volume
          = Returns (Some j) (validated drawn_volume)) /\
       (texture e = None ->
          DRW_volume_batch_cache_get_grid flags drawn_volume
          = Returns None (validated drawn_volume))).
Proof.
  assert (H : ¬ (get_channels_num flags = 1 ∨ get_channels_num flags = 3)).
  { vm_compute. intros [H|H]; discriminate H. }
  split; [exact H|].
  apply (unsupported_channels_soft_miss drawn_volume flags H).
Defined.

(** Witness for C6: the grid [huge], 8 voxels along x on a
    device that holds 4. *)
Lemma texture_creation_failure_is_soft_witness :
  find_grid (get_name huge) (cache_grids (validated drawn_volume)) = None /\
  (get_channels_num huge = 1 ∨ get_channels_num huge = 3) /\
  gpu_texture_3d_fits (8, 1, 1)%Z (format_of (get_channels_num huge)) = false /\
  exists voxels i e w',
    DRW_volume_batch_cache_get_grid huge drawn_volume = Returns None w' /\
    volume_grid_cache_get huge (validated drawn_volume) = Returns i w' /\
    cache_grids w' !! i = Some e /\
    name e = BLI_strdup (get_name huge) /\
    texture e = None /\
    log w' = log drawn_volume
             ++ [EvVolumeLoad; EvDenseFloats huge; EvMemFree voxels;
                 EvPrintf printf_message] /\
    mem_frees (drop (length (log drawn_volume)) (log w')) = [voxels] /\
    store (validated drawn_volume) !! voxels = None /\
    store w' = store (validated drawn_volume).
Proof.
  split; [vm_compute; reflexivity|].
  split; [left; reflexivity|].
  split; [vm_compute; reflexivity|].
  apply (texture_creation_failure_is_soft drawn_volume huge
           (8, 1, 1)%Z (replicate 8 (q 0)) unit_diagonal).
  - vm_compute. reflexivity.
  - left. reflexivity.
  - reflexivity.
  - vm_compute. reflexivity.
Defined.

(** Witness for C7: the three-channel grid [velocity]. *)
Lemma materialized_texture_format_witness :
  find_grid (get_name velocity) (cache_grids (validated drawn_volume)) = None /\
  (get_channels_num velocity = 1 ∨ get_channels_num velocity = 3) /\
  gpu_texture_3d_fits (1, 1, 1)%Z (format_of (get_channels_num velocity)) = true /\
  exists i e t tex w',
    DRW_volume_batch_cache_get_grid velocity drawn_volume = Returns (Some i) w' /\
    cache_grids w' !! i = Some e /\
    name e = BLI_strdup (get_name velocity) /\
    texture e = Some t /\
    store w' !! t = Some (ObjTexture tex) /\
    tex_size tex = (1, 1, 1)%Z /\
    tex_extend_mode tex = GPU_SAMPLER_EXTEND_MODE_CLAMP_TO_BORDER /\
    format_bits_per_channel (tex_format tex) = 16 /\
    format_channels (tex_format tex) = get_channels_num velocity /\
    (get_channels_num velocity = 1 ->
       tex_format tex = SFLOAT_16 /\ tex_swizzle tex = "rrr1"%string) /\
    (get_channels_num velocity = 3 ->
       tex_format tex = SFLOAT_16_16_16 /\ tex_swizzle tex = "rgb1"%string).
Proof.
  split; [vm_compute; reflexivity|].
  split; [right; reflexivity|].
  split; [vm_compute; reflexivity|].
  apply (materialized_texture_format drawn_volume velocity
           (1, 1, 1)%Z [q 1; q 0; q 0] unit_diagonal).
  - vm_compute. reflexivity.
  - right. reflexivity.
  - reflexivity.
  - vm_compute. reflexivity.
Defined.

(** Witness for C8: a volume never drawn, wireframe mode none. *)
Lemma wireframes_none_returns_null_unchanged_witness :
  wireframe_type (new_volume VOLUME_WIREFRAME_NONE) = VOLUME_WIREFRAME_NONE /\
  DRW_volume_batch_cache_get_wireframes_face (new_volume VOLUME_WIREFRAME_NONE)
  = Returns None (new_volume VOLUME_WIREFRAME_NONE).
Proof.
  split; [reflexivity|].
  apply (wireframes_none_returns_null_unchanged (new_volume VOLUME_WIREFRAME_NONE)).
  reflexivity.
Defined.

(** Witness for C9: the scenario with 4 vertices and 3 edges,
    on a volume never drawn, wireframe mode boxes. *)
Lemma wireframes_lines_batch_witness :
  let w := new_volume VOLUME_WIREFRAME_BOXES in
  let verts := [vert 0 0 0; vert 1 0 0; vert 1 1 0; vert 1 1 1] in
  let edges := [(0, 1); (1, 2); (2, 3)] in
  volume_grid_wireframe (wireframe_type w) density = (verts, edges, 4, 3) /\
  cached_face_wire_batch (validated w) = None /\
  exists batch bt vbo vb ibo ib w',
    DRW_volume_batch_cache_get_wireframes_face w = Returns (Some batch) w' /\
    store w' !! batch = Some (ObjBatch bt) /\
    batch_prim_type bt = GPU_PRIM_LINES /\
    batch_elem bt = Some ibo /\
    store w' !! ibo = Some (ObjIndexBuf ib) /\
    ibo_prim_type ib = GPU_PRIM_LINES /\
    index_lines (ibo_data ib) = edges /\
    length (index_lines (ibo_data ib)) = 3 /\
    ibo_index_len ib = 2 * 3 /\
    head (batch_verts bt) = Some (vbo, false) /\
    store w' !! vbo = Some (ObjVertBuf vb) /\
    vbo_vertex_len vb = 4 /\
    vertbuf_positions vb = Some verts /\
    length verts = 4 /\
    DRW_volume_batch_cache_get_wireframes_face w' = Returns (Some batch) w'.
Proof.
  cbv zeta. split; [reflexivity|]. split; [reflexivity|].
  apply (wireframes_lines_batch (new_volume VOLUME_WIREFRAME_BOXES) density
           [vert 0 0 0; vert 1 0 0; vert 1 1 0; vert 1 1 1]
           [(0, 1); (1, 2); (2, 3)] 4 3); try reflexivity; discriminate.
Defined.

(** Against C10 as stated: on a volume without cache the reason
    code 7, which is not [BKE_VOLUME_BATCH_DIRTY_ALL], trips no
    assertion, and [BKE_VOLUME_BATCH_DIRTY_ALL] sets no flag: both calls
    return and leave the volume without cache. *)
Lemma dirty_tag_without_cache_ignores_reason :
  7%Z <> BKE_VOLUME_BATCH_DIRTY_ALL /\
  batch_cache (new_volume VOLUME_WIREFRAME_BOXES) = None /\
  DRW_volume_batch_cache_dirty_tag 7 (new_volume VOLUME_WIREFRAME_BOXES)
  = Returns tt (new_volume VOLUME_WIREFRAME_BOXES) /\
  DRW_volume_batch_cache_dirty_tag BKE_VOLUME_BATCH_DIRTY_ALL
    (new_volume VOLUME_WIREFRAME_BOXES)
  = Returns tt (new_volume VOLUME_WIREFRAME_BOXES).
Proof. repeat split; try reflexivity. discriminate. Qed.

(** Witness for C10 as amended: the three cases. *)
Lemma dirty_tag_cases_witness :
  DRW_volume_batch_cache_dirty_tag BKE_VOLUME_BATCH_DIRTY_ALL drawn_volume
  = Returns tt (set_batch_cache
                  (Some (with_is_dirty true (cache_of drawn_volume))) drawn_volume) /\
  DRW_volume_batch_cache_dirty_tag 7 drawn_volume
  = Aborts AssertionFailed drawn_volume /\
  DRW_volume_batch_cache_dirty_tag 7 (new_volume VOLUME_WIREFRAME_BOXES)
  = Returns tt (new_volume VOLUME_WIREFRAME_BOXES).
Proof.
  split; [|split].
  - apply (proj1 (dirty_tag_cases drawn_volume BKE_VOLUME_BATCH_DIRTY_ALL)
             (cache_of drawn_volume)); [vm_compute|]; reflexivity.
  - apply (proj1 (proj2 (dirty_tag_cases drawn_volume 7)) (cache_of drawn_volume));
      [vm_compute; reflexivity|discriminate].
  - apply (proj2 (proj2 (dirty_tag_cases (new_volume VOLUME_WIREFRAME_BOXES) 7))).
    reflexivity.
Defined.

(** Witness for X1: the selection surface of three vertices and one
    triangle, on a volume never drawn. *)
Lemma selection_surface_batch_witness :
  let w := new_volume VOLUME_WIREFRAME_BOXES in
  let verts := [vert 0 0 0; vert 1 0 0; vert 1 1 0] in
  let tris := [(0, 1, 2)] in
  volume_grid_active = Some density /\
  volume_grid_selection_surface density = (verts, tris, 3, 1) /\
  length verts = 3 /\
  length tris = 1 /\
  cached_selection_surface (validated w) = None /\
  exists batch vbo ibo vb ib w',
    DRW_volume_batch_cache_get_selection_surface w = Returns (Some batch) w' /\
    store w' !! batch
    = Some (ObjBatch {| batch_prim_type := GPU_PRIM_TRIS;
                        batch_verts := [(vbo, true)];
                        batch_elem := Some ibo;
                        batch_owns_index := true |}) /\
    store w' !! ibo = Some (ObjIndexBuf ib) /\
    ibo_prim_type ib = GPU_PRIM_TRIS /\
    index_tris (ibo_data ib) = tris /\
    ibo_index_len ib = 3 * 1 /\
    store w' !! vbo = Some (ObjVertBuf vb) /\
    vbo_format vb = [("pos"%string, SFLOAT_32_32_32)] /\
    vbo_vertex_len vb = 3 /\
    vertbuf_positions vb = Some verts /\
    DRW_volume_batch_cache_get_selection_surface w' = Returns (Some batch) w'.
Proof.
  cbv zeta. do 5 (split; [reflexivity|]).
  apply (selection_surface_batch (new_volume VOLUME_WIREFRAME_BOXES) density
           [vert 0 0 0; vert 1 0 0; vert 1 1 0] [(0, 1, 2)] 3 1); reflexivity.
Defined.

(** Witness for X3: the wireframe of four vertices, drawn as points on
    a volume never drawn. *)
Lemma wireframes_points_batch_witness :
  let w := new_volume VOLUME_WIREFRAME_POINTS in
  let verts := [vert 0 0 0; vert 1 0 0; vert 1 1 0; vert 1 1 1] in
  let edges := [(0, 1); (1, 2); (2, 3)] in
  wireframe_type w = VOLUME_WIREFRAME_POINTS /\
  volume_grid_active = Some density /\
  volume_grid_wireframe (wireframe_type w) density = (verts, edges, 4, 3) /\
  length verts = 4 /\
  cached_face_wire_batch (validated w) = None /\
  exists batch vbo wd vb w',
    DRW_volume_batch_cache_get_wireframes_face w = Returns (Some batch) w' /\
    store w' !! batch
    = Some (ObjBatch {| batch_prim_type := GPU_PRIM_POINTS;
                        batch_verts := [(vbo, false); (wd, true)];
                        batch_elem := None;
                        batch_owns_index := false |}) /\
    cached_pos_nor_in_order w' = Some vbo /\
    store w' !! vbo = Some (ObjVertBuf vb) /\
    vbo_vertex_len vb = 4 /\
    vertbuf_positions vb = Some verts /\
    store w' !! wd = Some (ObjVertBuf (wiredata_vertbuf 4)) /\
    (forall h, h <> batch -> h <> vbo -> h <> wd ->
               store w' !! h = store (validated w) !! h) /\
    DRW_volume_batch_cache_get_wireframes_face w' = Returns (Some batch) w'.
Proof.
  cbv zeta. do 5 (split; [reflexivity|]).
  apply (wireframes_points_batch (new_volume VOLUME_WIREFRAME_POINTS) density
           [vert 0 0 0; vert 1 0 0; vert 1 1 0; vert 1 1 1]
           [(0, 1); (1, 2); (2, 3)] 4 3); reflexivity.
Defined.

(** Witness for X4: the bounds wireframe in a scene that asks for
    high-quality normals. *)
Lemma wireframe_vertex_layout_witness :
  let verts := [vert 0 0 0; vert 1 0 0; vert 1 1 0; vert 1 1 1] in
  let edges := [(0, 1); (1, 2); (2, 3)] in
  wireframe_type hq_volume <> VOLUME_WIREFRAME_NONE /\
  volume_grid_active = Some density /\
  volume_grid_wireframe (wireframe_type hq_volume) density = (verts, edges, 4, 3) /\
  length verts = 4 /\
  cached_face_wire_batch (validated hq_volume) = None /\
  Z.land (perf_flag hq_volume) SCE_PERF_HQ_NORMALS = 1%Z /\
  exists batch bt vbo wd w',
    DRW_volume_batch_cache_get_wireframes_face hq_volume = Returns (Some batch) w' /\
    store w' !! batch = Some (ObjBatch bt) /\
    batch_verts bt = [(vbo, false); (wd, true)] /\
    cached_pos_nor_in_order w' = Some vbo /\
    store w' !! vbo
    = Some (ObjVertBuf
        {| vbo_format :=
             [("pos"%string, SFLOAT_32_32_32); ("nor"%string, SNORM_16_16_16_16)];
           vbo_vertex_len := 4;
           vbo_attrs :=
             [(0, AttrFill verts);
              (1, AttrFillStride PackedNormalHQ (float_1, float_0, float_0))] |}) /\
    store w' !! wd
    = Some (ObjVertBuf
        {| vbo_format := [("wd"%string, SFLOAT_32)];
           vbo_vertex_len := 4;
           vbo_attrs := [(0, AttrFillScalar float_1)] |}).
Proof.
  cbv zeta. split; [discriminate|]. do 5 (split; [reflexivity|]).
  apply (wireframe_vertex_layout hq_volume density
           [vert 0 0 0; vert 1 0 0; vert 1 1 0; vert 1 1 1]
           [(0, 1); (1, 2); (2, 3)] 4 3); try reflexivity; discriminate.
Defined.

(** Witness for X5: the batch built as points is returned when the
    display has changed to boxes and to high-quality normals. *)
Lemma wireframes_cached_batch_any_mode_witness :
  let w1 := {| batch_cache := batch_cache wired_volume;
               wireframe_type := VOLUME_WIREFRAME_BOXES;
               perf_flag := 1; store := store wired_volume;
               log := log wired_volume |} in
  batch_cache wired_volume = Some (cache_of wired_volume) /\
  is_dirty (cache_of wired_volume) = false /\
  face_wire_batch (cache_of wired_volume) = Some 2 /\
  wireframe_type wired_volume = VOLUME_WIREFRAME_POINTS /\
  VOLUME_WIREFRAME_BOXES <> VOLUME_WIREFRAME_NONE /\
  DRW_volume_batch_cache_get_wireframes_face w1 = Returns (Some 2) w1.
Proof.
  cbv zeta. do 4 (split; [vm_compute; reflexivity|]). split; [discriminate|].
  apply (wireframes_cached_batch_any_mode wired_volume (cache_of wired_volume)
           2 VOLUME_WIREFRAME_BOXES 1);
    try (vm_compute; reflexivity); discriminate.
Defined.

(** Witness for X7: the three-channel grid [velocity] on the volume
    whose grid [density] was drawn. *)
Lemma materialized_grid_resources_witness :
  find_grid (get_name velocity) (cache_grids (validated drawn_volume)) = None /\
  (get_channels_num velocity = 1 ∨ get_channels_num velocity = 3) /\
  volume_grid_dense_floats velocity
  = Some ((1, 1, 1)%Z, [q 1; q 0; q 0], unit_diagonal) /\
  gpu_texture_3d_fits (1, 1, 1)%Z (format_of (get_channels_num velocity)) = true /\
  exists i t tex voxels w',
    DRW_volume_batch_cache_get_grid velocity drawn_volume = Returns (Some i) w' /\
    cache_grids w'
    = cache_grids (validated drawn_volume)
      ++ [{| name := BLI_strdup (get_name velocity); texture := Some t;
             texture_to_object := unit_diagonal;
             object_to_texture := math_invert unit_diagonal |}] /\
    store (validated drawn_volume) !! t = None /\
    store w' = <[t := ObjTexture tex]> (store (validated drawn_volume)) /\
    tex_data tex = [q 1; q 0; q 0] /\
    log w' = log drawn_volume
             ++ [EvVolumeLoad; EvDenseFloats velocity; EvMemFree voxels] /\
    mem_frees (drop (length (log drawn_volume)) (log w')) = [voxels] /\
    store w' !! voxels = None.
Proof.
  split; [vm_compute; reflexivity|].
  split; [right; reflexivity|].
  split; [reflexivity|].
  split; [vm_compute; reflexivity|].
  apply (materialized_grid_resources drawn_volume velocity
           (1, 1, 1)%Z [q 1; q 0; q 0] unit_diagonal).
  - vm_compute. reflexivity.
  - right. reflexivity.
  - reflexivity.
  - vm_compute. reflexivity.
Defined.

(** Witness for X9: the free of the dirty volume that was drawn, and of
    a volume never drawn. *)
Lemma free_releases_all_witness :
  batch_cache dirty_volume = Some (cache_of dirty_volume) /\
  NoDup (cache_handles (cache_of dirty_volume)
         ++ cache_owned_buffers (store dirty_volume) (cache_of dirty_volume)) /\
  (exists w',
     DRW_volume_batch_cache_free dirty_volume = Returns tt w' /\
     batch_cache w' = None /\
     (forall h, h ∈ cache_handles (cache_of dirty_volume) -> store w' !! h = None) /\
     (forall h, h ∈ cache_owned_buffers (store dirty_volume) (cache_of dirty_volume) ->
                store w' !! h = None) /\
     store w' ⊆ store dirty_volume /\
     log w' = log dirty_volume /\
     wireframe_type w' = wireframe_type dirty_volume) /\
  batch_cache (new_volume VOLUME_WIREFRAME_BOXES) = None /\
  DRW_volume_batch_cache_free (new_volume VOLUME_WIREFRAME_BOXES)
  = Returns tt (new_volume VOLUME_WIREFRAME_BOXES).
Proof.
  assert (Hc : batch_cache dirty_volume = Some (cache_of dirty_volume))
    by (vm_compute; reflexivity).
  assert (Hnd : NoDup (cache_handles (cache_of dirty_volume)
         ++ cache_owned_buffers (store dirty_volume) (cache_of dirty_volume))).
  { apply (bool_decide_unpack _). vm_compute. exact I. }
  split; [exact Hc|]. split; [exact Hnd|]. split; [|split; [reflexivity|]].
  - destruct (proj1 (free_releases_all dirty_volume) (cache_of dirty_volume) Hc)
      as (w' & Hrun & Hn & Hh & Hob & Hsub & Hlog & Hwt).
    exists w'. repeat split; try assumption. exact (Hob Hnd).
  - apply (proj2 (free_releases_all (new_volume VOLUME_WIREFRAME_BOXES))).
    reflexivity.
Defined.

(** Witness for X11: the dirty tag on the volume whose grid [density]
    was drawn, then a lookup of [density]. *)
Lemma dirty_tag_defers_release_witness :
  batch_cache drawn_volume = Some (cache_of drawn_volume) /\
  cache_handles (cache_of drawn_volume) = [1] /\
  is_Some (store drawn_volume !! 1) /\
  exists w1,
    DRW_volume_batch_cache_dirty_tag BKE_VOLUME_BATCH_DIRTY_ALL drawn_volume
    = Returns tt w1 /\
    store w1 = store drawn_volume /\
    log w1 = log drawn_volume /\
    batch_cache w1 = Some (with_is_dirty true (cache_of drawn_volume)) /\
    exists r e l s w2,
      DRW_volume_batch_cache_get_grid density w1 = Returns r w2 /\
      cache_grids w2 = [e] /\
      name e = BLI_strdup (get_name density) /\
      log w2 = log drawn_volume ++ EvVolumeLoad :: l /\
      (forall h, h ∈ cache_handles (cache_of drawn_volume) -> s !! h = None) /\
      (NoDup (cache_handles (cache_of drawn_volume)
              ++ cache_owned_buffers (store drawn_volume) (cache_of drawn_volume)) ->
       forall h, h ∈ cache_owned_buffers (store drawn_volume) (cache_of drawn_volume) ->
                 s !! h = None) /\
      (forall h, h ∉ cache_handles (cache_of drawn_volume) ->
                 h ∉ cache_owned_buffers (store drawn_volume) (cache_of drawn_volume) ->
                 s !! h = store drawn_volume !! h) /\
      (texture e = None /\ store w2 = s
       \/ exists t tex, texture e = Some t /\ s !! t = None /\
                        store w2 = <[t := ObjTexture tex]> s).
Proof.
  split; [vm_compute; reflexivity|]. split; [vm_compute; reflexivity|].
  split; [vm_compute; eexists; reflexivity|].
  apply (dirty_tag_defers_release drawn_volume (cache_of drawn_volume) density).
  vm_compute. reflexivity.
Defined.

(** The calls that lead from a volume never drawn to [dirty_volume]. *)
Ltac steps_to_dirty_volume :=
  apply rtc_l with
    (after DRW_volume_batch_cache_get_selection_surface
       (new_volume VOLUME_WIREFRAME_BOUNDS));
    [apply (step_get_selection_surface (Some 2)); vm_compute; reflexivity|];
  apply rtc_l with
    (after (DRW_volume_batch_cache_get_selection_surface ;;
            DRW_volume_batch_cache_get_wireframes_face)
       (new_volume VOLUME_WIREFRAME_BOUNDS));
    [apply (step_get_wireframes (Some 6)); vm_compute; reflexivity|];
  apply rtc_l with
    (after (DRW_volume_batch_cache_get_selection_surface ;;
            DRW_volume_batch_cache_get_wireframes_face ;;
            DRW_volume_batch_cache_get_grid (Backend := backend) velocity)
       (new_volume VOLUME_WIREFRAME_BOUNDS));
    [apply (step_get_grid (Backend := backend) velocity (Some 0)); vm_compute; reflexivity|];
  apply rtc_once;
  apply (step_dirty_tag 0%Z); vm_compute; reflexivity.

(** Witness for X12: the dirty volume that was drawn, which holds the
    eight objects 8, 3, 6, 2 and 5, 4, 1, 0. *)
Lemma cache_owns_its_objects_witness :
  let w0 := new_volume VOLUME_WIREFRAME_BOUNDS in
  batch_cache w0 = None /\
  rtc step w0 dirty_volume /\
  held dirty_volume = [8; 3; 6; 2; 5; 4; 1; 0] /\
  NoDup (held dirty_volume) /\
  (forall h, h ∈ held dirty_volume ->
     store w0 !! h = None /\ is_Some (store dirty_volume !! h)) /\
  (forall h, h ∉ held dirty_volume -> store dirty_volume !! h = store w0 !! h) /\
  (cached_face_wire_batch dirty_volume = None ->
   cached_pos_nor_in_order dirty_volume = None).
Proof.
  cbv zeta.
  assert (Hs : rtc step (new_volume VOLUME_WIREFRAME_BOUNDS) dirty_volume)
    by steps_to_dirty_volume.
  split; [reflexivity|]. split; [exact Hs|]. split; [vm_compute; reflexivity|].
  apply (cache_owns_its_objects (new_volume VOLUME_WIREFRAME_BOUNDS) dirty_volume);
    [reflexivity|exact Hs].
Defined.

(** Witness for X13: the free and the validation of the dirty volume
    that was drawn give back the empty store it started with. *)
Lemma free_restores_initial_store_witness :
  let w0 := new_volume VOLUME_WIREFRAME_BOUNDS in
  batch_cache w0 = None /\
  rtc step w0 dirty_volume /\
  batch_cache dirty_volume = Some (cache_of dirty_volume) /\
  is_dirty (cache_of dirty_volume) = true /\
  (exists w', DRW_volume_batch_cache_free dirty_volume = Returns tt w' /\
              batch_cache w' = None /\ store w' = store w0) /\
  (exists w', DRW_volume_batch_cache_validate dirty_volume = Returns tt w' /\
              batch_cache w' = Some zeroed_cache /\ store w' = store w0).
Proof.
  cbv zeta.
  assert (Hs : rtc step (new_volume VOLUME_WIREFRAME_BOUNDS) dirty_volume)
    by steps_to_dirty_volume.
  split; [reflexivity|]. split; [exact Hs|].
  split; [vm_compute; reflexivity|]. split; [vm_compute; reflexivity|].
  destruct (free_restores_initial_store
              (new_volume VOLUME_WIREFRAME_BOUNDS) dirty_volume eq_refl Hs)
    as [Hfree Hval].
  split; [exact Hfree|].
  apply (Hval (cache_of dirty_volume)); vm_compute; reflexivity.
Defined.

(** Witness for X14: both builders on the volume whose grid [density]
    was drawn, in boxes mode. *)
Lemma builders_keep_other_products_witness :
  wireframe_type drawn_volume <> VOLUME_WIREFRAME_NONE /\
  (exists r w',
     DRW_volume_batch_cache_get_selection_surface drawn_volume = Returns r w' /\
     r = cached_selection_surface w' /\
     cache_grids w' = cache_grids (validated drawn_volume) /\
     cached_face_wire_batch w' = cached_face_wire_batch (validated drawn_volume) /\
     cached_pos_nor_in_order w' = cached_pos_nor_in_order (validated drawn_volume)) /\
  (exists r w',
     DRW_volume_batch_cache_get_wireframes_face drawn_volume = Returns r w' /\
     r = cached_face_wire_batch w' /\
     cache_grids w' = cache_grids (validated drawn_volume) /\
     cached_selection_surface w' = cached_selection_surface (validated drawn_volume)).
Proof.
  assert (H : wireframe_type drawn_volume <> VOLUME_WIREFRAME_NONE).
  { vm_compute. discriminate. }
  destruct (builders_keep_other_products drawn_volume) as [Hs Hw].
  split; [exact H|]. split; [exact Hs|exact (Hw H)].
Defined.

End OnDemo.

(** * The properties on a volume that cannot be loaded *)

Section OnUnloaded.
Import Demo.
#[local] Existing Instance unloaded.

(** Witness for X2: both builders on the volume without active grid. *)
Lemma builders_without_active_grid_witness :
  let w := unloaded_volume in
  volume_grid_active = None /\
  wireframe_type w <> VOLUME_WIREFRAME_NONE /\
  cached_face_wire_batch (validated w) = None /\
  cached_selection_surface (validated w) = None /\
  (DRW_volume_batch_cache_get_wireframes_face w
   = Returns None (set_log (log w ++ [EvActiveGridGet]) (validated w)) /\
   DRW_volume_batch_cache_get_wireframes_face
     (set_log (log w ++ [EvActiveGridGet]) (validated w))
   = Returns None
       (set_log (log w ++ [EvActiveGridGet; EvActiveGridGet]) (validated w))) /\
  (DRW_volume_batch_cache_get_selection_surface w
   = Returns None (set_log (log w ++ [EvActiveGridGet]) (validated w)) /\
   DRW_volume_batch_cache_get_selection_surface
     (set_log (log w ++ [EvActiveGridGet]) (validated w))
   = Returns None
       (set_log (log w ++ [EvActiveGridGet; EvActiveGridGet]) (validated w))).
Proof.
  cbv zeta. split; [reflexivity|]. split; [discriminate|].
  split; [reflexivity|]. split; [reflexivity|].
  destruct (builders_without_active_grid unloaded_volume eq_refl) as [Hw Hs].
  split.
  - apply Hw; [discriminate|reflexivity].
  - apply Hs. reflexivity.
Defined.

(** Witness for X6: the one-channel grids [density] and [nul_named],
    whose voxels the backend does not give. *)
Lemma dense_floats_failure_is_cached_witness :
  let e (g : Grid) :=
    {| name := BLI_strdup (get_name g); texture := None;
       texture_to_object := float4x4_zero;
       object_to_texture := float4x4_zero |} in
  find_grid (get_name density) (cache_grids (validated unloaded_volume)) = None /\
  (get_channels_num density = 1 ∨ get_channels_num density = 3) /\
  volume_grid_dense_floats density = None /\
  c_str (get_name density) = get_name density /\
  (exists w',
     DRW_volume_batch_cache_get_grid density unloaded_volume = Returns None w' /\
     cache_grids w' = cache_grids (validated unloaded_volume) ++ [e density] /\
     store w' = store (validated unloaded_volume) /\
     log w' = log unloaded_volume ++ [EvVolumeLoad; EvDenseFloats density] /\
     DRW_volume_batch_cache_get_grid density w' = Returns None w') /\
  find_grid (get_name nul_named) (cache_grids (validated unloaded_volume)) = None /\
  (get_channels_num nul_named = 1 ∨ get_channels_num nul_named = 3) /\
  volume_grid_dense_floats nul_named = None /\
  c_str (get_name nul_named) <> get_name nul_named /\
  (exists w' w'',
     DRW_volume_batch_cache_get_grid nul_named unloaded_volume = Returns None w' /\
     cache_grids w' = cache_grids (validated unloaded_volume) ++ [e nul_named] /\
     DRW_volume_batch_cache_get_grid nul_named w' = Returns None w'' /\
     cache_grids w'' = cache_grids w' ++ [e nul_named] /\
     store w'' = store w' /\
     log w'' = log w' ++ [EvVolumeLoad; EvDenseFloats nul_named]).
Proof.
  cbv zeta.
  split; [vm_compute; reflexivity|].
  split; [left; reflexivity|].
  split; [reflexivity|].
  assert (Hcs : c_str (get_name density) = get_name density)
    by (vm_compute; reflexivity).
  split; [exact Hcs|]. split.
  { destruct (dense_floats_failure_is_cached unloaded_volume density)
      as (w' & H1 & H2 & H3 & H4 & H5 & _);
      [vm_compute; reflexivity|left; reflexivity|reflexivity|].
    exists w'. do 4 (split; [assumption|]). exact (H5 Hcs). }
  split; [vm_compute; reflexivity|].
  split; [left; reflexivity|].
  split; [reflexivity|].
  assert (Hn : c_str (get_name nul_named) <> get_name nul_named)
    by (vm_compute; discriminate).
  split; [exact Hn|].
  destruct (dense_floats_failure_is_cached unloaded_volume nul_named)
    as (w' & H1 & H2 & _ & _ & _ & H6);
    [vm_compute; reflexivity|left; reflexivity|reflexivity|].
  destruct (H6 Hn) as (w'' & H7 & H8 & H9 & H10).
  exists w', w''. do 5 (split; [assumption|]). assumption.
Defined.

End OnUnloaded.
